(** * i.MX General Purpose Timer driver (drivers/mxc/gpt/imx-gpt.c)

    A shallow embedding of the GPT platform driver: the V2 register
    operations, the [v2_gpt_data] operation table, the initialisation
    sequence [gpt_setup] and the bind routine [gpt_probe].

    The driver is written against kernel services (relaxed MMIO accessors,
    the [icap_lock] spinlock, the slab allocator, the device-tree helpers
    and the clock framework).  Every such service is an event of type
    [kcall]; a driver function is a finite tree of events ([prog]); the
    meaning of the events is given once, by [handle], over an explicit
    kernel state [kstate].  [run] executes a program in a single context;
    [smp_step] and [irq_step] interleave two contexts. *)

From stdpp Require Import base gmap list strings.
From Stdlib Require Import ZArith Lia.

Local Open Scope Z_scope.

(** ** Machine integers *)

(** [u32]: conversion to a 32-bit unsigned value (wrap-around). *)
Definition u32 (x : Z) : Z := x mod 2 ^ 32.

(** [s32]: conversion of a [long] to [int], two's complement. *)
Definition s32 (x : Z) : Z := (x + 2 ^ 31) mod 2 ^ 32 - 2 ^ 31.

(** C's logical negation [!x]: 1 when [x] is zero, 0 otherwise. *)
Definition lnot (x : Z) : Z := if x =? 0 then 1 else 0.

(** Left shift on [u32] operands. *)
Definition shl32 (x n : Z) : Z := u32 (Z.shiftl x n).

(** ** Register layout (V2) *)

Definition V2_REG_CR : Z := 0x00.
Definition V2_REG_PR : Z := 0x04.
Definition V2_REG_SR : Z := 0x08.
Definition V2_REG_IR : Z := 0x0c.
Definition V2_REG_OCR1 : Z := 0x10.
Definition V2_REG_OCR2 : Z := 0x14.
Definition V2_REG_OCR3 : Z := 0x18.
Definition V2_REG_ICR1 : Z := 0x1c.
Definition V2_REG_ICR2 : Z := 0x20.
Definition V2_REG_CNT : Z := 0x24.

Definition V2_CR_EN : Z := Z.shiftl 1 0.
Definition V2_CR_WAITEN : Z := Z.shiftl 1 3.
Definition V2_CR_CLKSRC_IPG_CLK_24M : Z := Z.shiftl 5 6.
Definition V2_CR_EN_24M : Z := Z.shiftl 1 10.
Definition V2_IM_MODE_DISABLED : Z := 0.
Definition V2_IM_MODE_RISING_EDGE : Z := 1.
Definition V2_IM_MODE_FALLING_EDGE : Z := 2.
Definition V2_IM_MODE_BOTH : Z := 3.
Definition V2_IM1_MODE_OFFSET : Z := 16.
Definition V2_IM2_MODE_OFFSET : Z := 18.

Definition V2_PR_PRE24M_DIV_3 : Z := Z.shiftl 2 12.
Definition V2_PR_PRE24M_DIV_8 : Z := Z.shiftl 7 12.

Definition V2_SR_OF1 : Z := Z.shiftl 1 0.
Definition V2_SR_OF2 : Z := Z.shiftl 1 1.
Definition V2_SR_OF3 : Z := Z.shiftl 1 2.
Definition V2_SR_IF1 : Z := Z.shiftl 1 3.
Definition V2_SR_IF2 : Z := Z.shiftl 1 4.
Definition V2_SR_ROV : Z := Z.shiftl 1 5.

Definition V2_IR_OF1IE : Z := Z.shiftl 1 0.
Definition V2_IR_OF2IE : Z := Z.shiftl 1 1.
Definition V2_IR_OF3IE : Z := Z.shiftl 1 2.
Definition V2_IR_IF1IE : Z := Z.shiftl 1 3.
Definition V2_IR_IF2IE : Z := Z.shiftl 1 4.
Definition V2_IR_ROVIE : Z := Z.shiftl 1 5.

Definition V2_OM_NUM : Z := 3.
Definition V2_IM_NUM : Z := 2.

Definition V2_TIMER_RATE_OSC_DIV8 : Z := 3000000.

Definition ENOENT : Z := 2.
Definition ENXIO : Z := 6.
Definition ENOMEM : Z := 12.
Definition EINVAL : Z := 22.

(** ** Kernel objects *)

(** A kernel pointer as the driver tests it: NULL, a valid object at an
    address, or an errno encoded by [ERR_PTR]. *)
Inductive kptr (A : Type) : Type :=
| NullPtr
| ValidPtr (addr : Z) (obj : A)
| ErrPtr (errno : Z).
Arguments NullPtr {A}.
Arguments ValidPtr {A} addr obj.
Arguments ErrPtr {A} errno.

Definition IS_ERR {A} (p : kptr A) : bool :=
  match p with ErrPtr _ => true | _ => false end.

(** [PTR_ERR] is a cast of the pointer to [long]. *)
Definition PTR_ERR {A} (p : kptr A) : Z :=
  match p with
  | NullPtr => 0
  | ValidPtr addr _ => addr
  | ErrPtr errno => errno
  end.

Record clk := { clk_rate : Z }.

(** The device-tree node of a timer, reduced to what the OF helpers called
    by the driver answer for it: the mapping [of_iomap (np, 0)] yields (0 is
    NULL), the number [irq_of_parse_and_map (np, 0)] yields (0: no
    interrupt), and the clocks found under each name. *)
Record device_node := {
  compatible : string;
  reg0 : Z;
  interrupt0 : Z;
  clocks : list (string * kptr clk)
}.

Record platform_device := { dev_of_node : device_node }.

(** [struct imx_timer].  The members [gpt] and [type] are declared in the
    source but never read or written; they are left out. *)
Record imx_timer := {
  irq : Z;
  clk_per : kptr clk;
  clk_ipg : kptr clk;
  np : option device_node;
  base : Z
}.

(** The object [kzalloc] hands out: every member zero. *)
Definition imx_timer_zero : imx_timer :=
  {| irq := 0; clk_per := NullPtr; clk_ipg := NullPtr; np := None; base := 0 |}.

Definition set_np (n : device_node) (t : imx_timer) : imx_timer :=
  {| irq := irq t; clk_per := clk_per t; clk_ipg := clk_ipg t;
     np := Some n; base := base t |}.
Definition set_base (b : Z) (t : imx_timer) : imx_timer :=
  {| irq := irq t; clk_per := clk_per t; clk_ipg := clk_ipg t;
     np := np t; base := b |}.
Definition set_irq (i : Z) (t : imx_timer) : imx_timer :=
  {| irq := i; clk_per := clk_per t; clk_ipg := clk_ipg t;
     np := np t; base := base t |}.
Definition set_clk_ipg (c : kptr clk) (t : imx_timer) : imx_timer :=
  {| irq := irq t; clk_per := clk_per t; clk_ipg := c;
     np := np t; base := base t |}.
Definition set_clk_per (c : kptr clk) (t : imx_timer) : imx_timer :=
  {| irq := irq t; clk_per := c; clk_ipg := clk_ipg t;
     np := np t; base := base t |}.

(** ** Kernel state *)

Inductive access : Type :=
| Rd (addr val : Z)
| Wr (addr val : Z).

Inductive spinlock : Type := icap_lock.

Record kstate := {
  iomem : gmap Z Z;          (* register contents, by mapped address *)
  io_log : list access;      (* register accesses, oldest first *)
  icap_lock_held : bool;     (* state of [icap_lock] *)
  irq_off : gset nat;        (* CPUs whose local interrupts are disabled *)
  initialized : Z;           (* [static int initialized] of [gpt_probe] *)
  slab : list Z;             (* objects [kzalloc] can still hand out *)
  kobjs : list Z;            (* live [kzalloc] objects *)
  iomaps : list Z;           (* live register-block mappings *)
  virqs : list Z;            (* live interrupt mappings *)
  clk_on : list Z            (* clocks prepared and enabled *)
}.

Definition upd_io (m : gmap Z Z) (a : access) (s : kstate) : kstate :=
  {| iomem := m; io_log := io_log s ++ [a];
     icap_lock_held := icap_lock_held s; irq_off := irq_off s;
     initialized := initialized s; slab := slab s; kobjs := kobjs s;
     iomaps := iomaps s; virqs := virqs s; clk_on := clk_on s |}.

Definition upd_lock (held : bool) (off : gset nat) (s : kstate) : kstate :=
  {| iomem := iomem s; io_log := io_log s;
     icap_lock_held := held; irq_off := off;
     initialized := initialized s; slab := slab s; kobjs := kobjs s;
     iomaps := iomaps s; virqs := virqs s; clk_on := clk_on s |}.

Definition upd_initialized (v : Z) (s : kstate) : kstate :=
  {| iomem := iomem s; io_log := io_log s;
     icap_lock_held := icap_lock_held s; irq_off := irq_off s;
     initialized := v; slab := slab s; kobjs := kobjs s;
     iomaps := iomaps s; virqs := virqs s; clk_on := clk_on s |}.

Definition upd_heap (sl ko : list Z) (s : kstate) : kstate :=
  {| iomem := iomem s; io_log := io_log s;
     icap_lock_held := icap_lock_held s; irq_off := irq_off s;
     initialized := initialized s; slab := sl; kobjs := ko;
     iomaps := iomaps s; virqs := virqs s; clk_on := clk_on s |}.

Definition upd_iomaps (l : list Z) (s : kstate) : kstate :=
  {| iomem := iomem s; io_log := io_log s;
     icap_lock_held := icap_lock_held s; irq_off := irq_off s;
     initialized := initialized s; slab := slab s; kobjs := kobjs s;
     iomaps := l; virqs := virqs s; clk_on := clk_on s |}.

Definition upd_virqs (l : list Z) (s : kstate) : kstate :=
  {| iomem := iomem s; io_log := io_log s;
     icap_lock_held := icap_lock_held s; irq_off := irq_off s;
     initialized := initialized s; slab := slab s; kobjs := kobjs s;
     iomaps := iomaps s; virqs := l; clk_on := clk_on s |}.

Definition upd_clk_on (l : list Z) (s : kstate) : kstate :=
  {| iomem := iomem s; io_log := io_log s;
     icap_lock_held := icap_lock_held s; irq_off := irq_off s;
     initialized := initialized s; slab := slab s; kobjs := kobjs s;
     iomaps := iomaps s; virqs := virqs s; clk_on := l |}.

(** The value a register read returns: the last value written there, 0
    for a register never written.  The register block is modelled as
    storage; what the hardware does on its own (the counter, the status
    bits it raises, their write-one-to-clear behaviour) is not modelled,
    and no statement below reads the status register back after a write
    to it. *)
Definition reg (s : kstate) (addr : Z) : Z := default 0 (iomem s !! addr).

(** ** Kernel services as events *)

Inductive kcall : Type → Type :=
| KReadl (addr : Z) : kcall Z
| KWritel (val addr : Z) : kcall unit
| KSpinLockIrqsave (l : spinlock) : kcall bool
| KSpinUnlockIrqrestore (l : spinlock) (flags : bool) : kcall unit
| KLoadInitialized : kcall Z
| KStoreInitialized (v : Z) : kcall unit
| KKzalloc : kcall Z
| KKfree (p : Z) : kcall unit
| KOfIomap (n : device_node) (index : Z) : kcall Z
| KIrqOfParseAndMap (n : device_node) (index : Z) : kcall Z
| KOfClkGetByName (n : device_node) (name : string) : kcall (kptr clk)
| KClkPrepareEnable (c : kptr clk) : kcall Z
| KPrErr (msg : string) : kcall unit.

(** A driver function: a finite tree of kernel calls.  [Oops] is a fault
    (a NULL or invalid pointer is dereferenced, an array is indexed out of
    bounds). *)
Inductive prog (A : Type) : Type :=
| Ret (a : A)
| Oops
| Vis {R : Type} (e : kcall R) (k : R → prog A).
Arguments Ret {A} a.
Arguments Oops {A}.
Arguments Vis {A R} e k.

Fixpoint prog_bind {A B} (f : A → prog B) (p : prog A) : prog B :=
  match p with
  | Ret a => f a
  | Oops => Oops
  | Vis e k => Vis e (λ r, prog_bind f (k r))
  end.

#[global] Instance prog_mret : MRet prog := @Ret.
#[global] Instance prog_mbind : MBind prog := @prog_bind.

Definition call {R} (e : kcall R) : prog R := Vis e Ret.

Definition readl_relaxed (addr : Z) : prog Z := call (KReadl addr).
Definition writel_relaxed (val addr : Z) : prog unit := call (KWritel val addr).
Definition spin_lock_irqsave (l : spinlock) : prog bool :=
  call (KSpinLockIrqsave l).
Definition spin_unlock_irqrestore (l : spinlock) (flags : bool) : prog unit :=
  call (KSpinUnlockIrqrestore l flags).
Definition kzalloc : prog Z := call KKzalloc.
Definition kfree (p : Z) : prog unit := call (KKfree p).
Definition of_iomap (n : device_node) (index : Z) : prog Z :=
  call (KOfIomap n index).
Definition irq_of_parse_and_map (n : device_node) (index : Z) : prog Z :=
  call (KIrqOfParseAndMap n index).
Definition of_clk_get_by_name (n : device_node) (name : string) : prog (kptr clk) :=
  call (KOfClkGetByName n name).
Definition clk_prepare_enable (c : kptr clk) : prog Z :=
  call (KClkPrepareEnable c).
Definition pr_err (msg : string) : prog unit := call (KPrErr msg).

(** [clk_get_rate]: 0 for a NULL clock, the rate of a valid one; an
    [ERR_PTR] is not a clock and reading through it faults. *)
Definition clk_get_rate (c : kptr clk) : prog Z :=
  match c with
  | NullPtr => Ret 0
  | ValidPtr _ k => Ret (clk_rate k)
  | ErrPtr _ => Oops
  end.

(** [arr[i]] on a local array; outside the array the access is a fault. *)
Definition index (arr : list Z) (i : Z) : prog Z :=
  if i <? 0 then Oops
  else match arr !! Z.to_nat i with
       | Some x => Ret x
       | None => Oops
       end.

(** ** Meaning of the kernel services *)

Definition clk_lookup (n : device_node) (name : string) : kptr clk :=
  match list_find (λ e, e.1 = name) (clocks n) with
  | Some (_, (_, c)) => c
  | None => ErrPtr (- ENOENT)
  end.

(** State after a register read, a register write (the value is
    converted to the [u32] parameter of [writel_relaxed]), taking and
    releasing [icap_lock] on CPU [cpu]. *)
Definition st_readl (addr : Z) (s : kstate) : kstate :=
  upd_io (iomem s) (Rd addr (reg s addr)) s.

Definition st_writel (val addr : Z) (s : kstate) : kstate :=
  upd_io (<[addr := u32 val]> (iomem s)) (Wr addr (u32 val)) s.

Definition st_lock_irqsave (cpu : nat) (s : kstate) : kstate :=
  upd_lock true ({[cpu]} ∪ irq_off s) s.

Definition st_unlock_irqrestore (cpu : nat) (flags : bool) (s : kstate) : kstate :=
  upd_lock false (if flags then irq_off s ∖ {[cpu]} else irq_off s) s.

(** [handle cpu e s]: the result and the state after the call [e] made on
    CPU [cpu] in state [s]; [None] when the call cannot proceed now (the
    spinlock is held and the caller spins).  The flags saved by
    [spin_lock_irqsave] are [true] when local interrupts were enabled. *)
Definition handle (cpu : nat) {R} (e : kcall R) (s : kstate)
  : option (R * kstate) :=
  match e in kcall R return option (R * kstate) with
  | KReadl addr => Some (reg s addr, st_readl addr s)
  | KWritel val addr => Some (tt, st_writel val addr s)
  | KSpinLockIrqsave icap_lock =>
      if icap_lock_held s then None
      else Some (bool_decide (cpu ∉ irq_off s), st_lock_irqsave cpu s)
  | KSpinUnlockIrqrestore icap_lock flags =>
      Some (tt, st_unlock_irqrestore cpu flags s)
  | KLoadInitialized => Some (initialized s, s)
  | KStoreInitialized v => Some (tt, upd_initialized v s)
  | KKzalloc =>
      match slab s with
      | [] => Some (0, s)
      | p :: rest => Some (p, upd_heap rest (p :: kobjs s) s)
      end
  | KKfree p =>
      Some (tt, upd_heap (slab s) (filter (λ q, q ≠ p) (kobjs s)) s)
  | KOfIomap n _ =>
      Some (reg0 n,
            if reg0 n =? 0 then s else upd_iomaps (reg0 n :: iomaps s) s)
  | KIrqOfParseAndMap n _ =>
      Some (interrupt0 n,
            if interrupt0 n =? 0 then s
            else upd_virqs (interrupt0 n :: virqs s) s)
  | KOfClkGetByName n name => Some (clk_lookup n name, s)
  | KClkPrepareEnable c =>
      match c with
      | ValidPtr addr _ => Some (0, upd_clk_on (addr :: clk_on s) s)
      | _ => Some (0, s)
      end
  | KPrErr _ => Some (tt, s)
  end.

Inductive outcome (A : Type) : Type :=
| Done (a : A) (s : kstate)
| Fault (s : kstate)
| Deadlock (s : kstate).
Arguments Done {A} a s.
Arguments Fault {A} s.
Arguments Deadlock {A} s.

(** Execution of a program in one context running on CPU [cpu]. *)
Fixpoint run (cpu : nat) {A} (p : prog A) (s : kstate) : outcome A :=
  match p with
  | Ret a => Done a s
  | Oops => Fault s
  | Vis e k =>
      match handle cpu e s with
      | Some (r, s') => run cpu (k r) s'
      | None => Deadlock s
      end
  end.

(** ** The V2 operations

    Bitwise [|] and [&] on [u32] operands cannot leave the 32-bit range and
    are written [Z.lor] and [Z.land]; shifts and subtractions wrap and are
    written with [shl32] and [u32]. *)

Definition v2_gpt_setup_tctl (imxtm : imx_timer) : prog unit :=
  let cr_val := 0 in
  let pr_val := 0 in
  writel_relaxed cr_val (base imxtm + V2_REG_CR);;
  writel_relaxed pr_val (base imxtm + V2_REG_PR);;
  let cr_val := V2_CR_WAITEN in
  rate ← clk_get_rate (clk_per imxtm);
  let '(cr_val, pr_val) :=
    if rate =? V2_TIMER_RATE_OSC_DIV8 then
      let cr_val := Z.lor cr_val V2_CR_EN_24M in
      let cr_val := Z.lor cr_val V2_CR_CLKSRC_IPG_CLK_24M in
      (cr_val, V2_PR_PRE24M_DIV_8)
    else
      let cr_val := Z.lor cr_val V2_CR_EN_24M in
      let cr_val := Z.lor cr_val V2_CR_CLKSRC_IPG_CLK_24M in
      (cr_val, V2_PR_PRE24M_DIV_3) in
  writel_relaxed cr_val (base imxtm + V2_REG_CR);;
  writel_relaxed pr_val (base imxtm + V2_REG_PR).

Definition v2_gpt_enable (imxtm : imx_timer) : prog unit :=
  cr_val ← readl_relaxed (base imxtm + V2_REG_CR);
  let cr_val := Z.lor cr_val V2_CR_EN in
  writel_relaxed cr_val (base imxtm + V2_REG_CR).

Definition v2_gpt_disable (imxtm : imx_timer) : prog unit :=
  cr_val ← readl_relaxed (base imxtm + V2_REG_CR);
  let cr_val := Z.land cr_val (lnot (u32 V2_CR_EN)) in
  writel_relaxed cr_val (base imxtm + V2_REG_CR).

Definition v2_gpt_irq_acknowledge (imxtm : imx_timer) : prog unit :=
  writel_relaxed V2_SR_ROV (base imxtm + V2_REG_SR).

Definition v2_gpt_is_rollover (imxtm : imx_timer) : prog bool :=
  sr_val ← readl_relaxed (base imxtm + V2_REG_SR);
  Ret (if Z.land sr_val V2_SR_ROV =? 0 then false else true).

Definition v2_gpt_oc_setup (imxtm : imx_timer) (chan oc_val : Z) : prog unit :=
  let ocr := [V2_REG_OCR1; V2_REG_OCR2; V2_REG_OCR3] in
  if (chan >? V2_OM_NUM) || (chan =? 0) then Ret tt
  else
    off ← index ocr (u32 (chan - 1));
    writel_relaxed oc_val (base imxtm + off).

Definition v2_gpt_oc_irq_enable (imxtm : imx_timer) (chan : Z) : prog unit :=
  let mask := [V2_IR_OF1IE; V2_IR_OF2IE; V2_IR_OF3IE] in
  if (chan >? V2_OM_NUM) || (chan =? 0) then Ret tt
  else
    flags ← spin_lock_irqsave icap_lock;
    ir_val ← readl_relaxed (base imxtm + V2_REG_IR);
    m ← index mask (u32 (chan - 1));
    let ir_val := Z.lor ir_val m in
    writel_relaxed ir_val (base imxtm + V2_REG_IR);;
    spin_unlock_irqrestore icap_lock flags.

Definition v2_gpt_oc_irq_disable (imxtm : imx_timer) (chan : Z) : prog unit :=
  let mask := [lnot (u32 V2_IR_OF1IE); lnot (u32 V2_IR_OF2IE);
               lnot (u32 V2_IR_OF3IE)] in
  if (chan >? 3) || (chan =? 0) then Ret tt
  else
    flags ← spin_lock_irqsave icap_lock;
    ir_val ← readl_relaxed (base imxtm + V2_REG_IR);
    m ← index mask (u32 (chan - 1));
    let ir_val := Z.land ir_val m in
    writel_relaxed ir_val (base imxtm + V2_REG_IR);;
    spin_unlock_irqrestore icap_lock flags.

Definition v2_gpt_oc_irq_acknowledge (imxtm : imx_timer) (chan : Z) : prog unit :=
  let mask := [V2_SR_OF1; V2_SR_OF2; V2_SR_OF3] in
  if (chan >? V2_IM_NUM) || (chan =? 0) then Ret tt
  else
    m ← index mask (u32 (chan - 1));
    writel_relaxed m (base imxtm + V2_REG_SR).

Definition v2_gpt_is_oc_irq (imxtm : imx_timer) (chan : Z) : prog bool :=
  let mask := [V2_SR_OF1; V2_SR_OF2; V2_SR_OF3] in
  if (chan >? V2_OM_NUM) || (chan =? 0) then Ret false
  else
    sr_val ← readl_relaxed (base imxtm + V2_REG_SR);
    m ← index mask (u32 (chan - 1));
    Ret (if Z.land sr_val m =? 0 then false else true).

Definition v2_gpt_ic_setup (imxtm : imx_timer) (chan mode : Z) : prog unit :=
  let offset := [V2_IM1_MODE_OFFSET; V2_IM2_MODE_OFFSET] in
  if (chan >? V2_IM_NUM) || (chan =? 0) || (mode >? V2_IM_MODE_BOTH) then Ret tt
  else
    cr_val ← readl_relaxed (base imxtm + V2_REG_CR);
    o ← index offset (u32 (chan - 1));
    let cr_val := Z.lor cr_val (shl32 mode o) in
    writel_relaxed cr_val (base imxtm + V2_REG_CR).

Definition v2_gpt_ic_irq_enable (imxtm : imx_timer) (chan : Z) : prog unit :=
  let ir_mask := [V2_IR_IF1IE; V2_IR_IF2IE] in
  if (chan >? V2_IM_NUM) || (chan =? 0) then Ret tt
  else
    flags ← spin_lock_irqsave icap_lock;
    ir_val ← readl_relaxed (base imxtm + V2_REG_IR);
    m ← index ir_mask (u32 (chan - 1));
    let ir_val := Z.lor ir_val m in
    writel_relaxed ir_val (base imxtm + V2_REG_IR);;
    spin_unlock_irqrestore icap_lock flags.

Definition v2_gpt_ic_irq_disable (imxtm : imx_timer) (chan : Z) : prog unit :=
  let ir_mask := [lnot (u32 V2_IR_IF1IE); lnot (u32 V2_IR_IF2IE)] in
  if (chan >? V2_IM_NUM) || (chan =? 0) then Ret tt
  else
    flags ← spin_lock_irqsave icap_lock;
    ir_val ← readl_relaxed (base imxtm + V2_REG_IR);
    m ← index ir_mask (u32 (chan - 1));
    let ir_val := Z.land ir_val m in
    writel_relaxed ir_val (base imxtm + V2_REG_IR);;
    spin_unlock_irqrestore icap_lock flags.

Definition v2_gpt_ic_irq_acknowledge (imxtm : imx_timer) (chan : Z) : prog unit :=
  let ir_mask := [V2_IR_IF1IE; V2_IR_IF2IE] in
  if (chan >? V2_IM_NUM) || (chan =? 0) then Ret tt
  else
    m ← index ir_mask (u32 (chan - 1));
    writel_relaxed m (base imxtm + V2_REG_SR).

Definition v2_gpt_is_ic_irq (imxtm : imx_timer) (chan : Z) : prog bool :=
  let mask := [V2_IR_IF1IE; V2_IR_IF2IE] in
  if (chan >? V2_IM_NUM) || (chan =? 0) then Ret false
  else
    sr_val ← readl_relaxed (base imxtm + V2_REG_SR);
    m ← index mask (u32 (chan - 1));
    Ret (if Z.land sr_val m =? 0 then false else true).

(** ** The operation table *)

(** [struct imx_gpt_data]: a function pointer per operation, [None] for a
    NULL pointer. *)
Record imx_gpt_data := {
  gpt_setup_tctl : option (imx_timer → prog unit);
  gpt_enable : option (imx_timer → prog unit);
  gpt_disable : option (imx_timer → prog unit);
  gpt_irq_acknowledge : option (imx_timer → prog unit);
  gpt_is_rollover : option (imx_timer → prog bool);

  gpt_oc_setup : option (imx_timer → Z → Z → prog unit);
  gpt_oc_irq_enable : option (imx_timer → Z → prog unit);
  gpt_oc_irq_disable : option (imx_timer → Z → prog unit);
  gpt_oc_irq_acknowledge : option (imx_timer → Z → prog unit);
  gpt_is_oc_irq : option (imx_timer → Z → prog bool);

  gpt_ic_setup : option (imx_timer → Z → Z → prog unit);
  gpt_ic_irq_enable : option (imx_timer → Z → prog unit);
  gpt_ic_irq_disable : option (imx_timer → Z → prog unit);
  gpt_ic_irq_acknowledge : option (imx_timer → Z → prog unit);
  gpt_is_ic_irq : option (imx_timer → Z → prog bool)
}.

(** One designated initializer [.member = function] of a
    [struct imx_gpt_data] object. *)
Inductive designated : Type :=
| D_gpt_setup_tctl (f : imx_timer → prog unit)
| D_gpt_enable (f : imx_timer → prog unit)
| D_gpt_disable (f : imx_timer → prog unit)
| D_gpt_irq_acknowledge (f : imx_timer → prog unit)
| D_gpt_is_rollover (f : imx_timer → prog bool)
| D_gpt_oc_setup (f : imx_timer → Z → Z → prog unit)
| D_gpt_oc_irq_enable (f : imx_timer → Z → prog unit)
| D_gpt_oc_irq_disable (f : imx_timer → Z → prog unit)
| D_gpt_oc_irq_acknowledge (f : imx_timer → Z → prog unit)
| D_gpt_is_oc_irq (f : imx_timer → Z → prog bool)
| D_gpt_ic_setup (f : imx_timer → Z → Z → prog unit)
| D_gpt_ic_irq_enable (f : imx_timer → Z → prog unit)
| D_gpt_ic_irq_disable (f : imx_timer → Z → prog unit)
| D_gpt_ic_irq_acknowledge (f : imx_timer → Z → prog unit)
| D_gpt_is_ic_irq (f : imx_timer → Z → prog bool).

(** The value an initializer list gives a member: that of the last
    initializer naming the member (a later initializer overrides an earlier
    one for the same member), NULL when none names it. *)
Definition member_init {F} (sel : designated → option F) (l : list designated)
  : option F :=
  last (omap sel l).

Definition init_imx_gpt_data (l : list designated) : imx_gpt_data :=
  {| gpt_setup_tctl :=
       member_init
         (λ d, match d with D_gpt_setup_tctl f => Some f | _ => None end) l;
     gpt_enable :=
       member_init
         (λ d, match d with D_gpt_enable f => Some f | _ => None end) l;
     gpt_disable :=
       member_init
         (λ d, match d with D_gpt_disable f => Some f | _ => None end) l;
     gpt_irq_acknowledge :=
       member_init
         (λ d, match d with D_gpt_irq_acknowledge f => Some f | _ => None end) l;
     gpt_is_rollover :=
       member_init
         (λ d, match d with D_gpt_is_rollover f => Some f | _ => None end) l;
     gpt_oc_setup :=
       member_init
         (λ d, match d with D_gpt_oc_setup f => Some f | _ => None end) l;
     gpt_oc_irq_enable :=
       member_init
         (λ d, match d with D_gpt_oc_irq_enable f => Some f | _ => None end) l;
     gpt_oc_irq_disable :=
       member_init
         (λ d, match d with D_gpt_oc_irq_disable f => Some f | _ => None end) l;
     gpt_oc_irq_acknowledge :=
       member_init
         (λ d, match d with D_gpt_oc_irq_acknowledge f => Some f | _ => None end) l;
     gpt_is_oc_irq :=
       member_init
         (λ d, match d with D_gpt_is_oc_irq f => Some f | _ => None end) l;
     gpt_ic_setup :=
       member_init
         (λ d, match d with D_gpt_ic_setup f => Some f | _ => None end) l;
     gpt_ic_irq_enable :=
       member_init
         (λ d, match d with D_gpt_ic_irq_enable f => Some f | _ => None end) l;
     gpt_ic_irq_disable :=
       member_init
         (λ d, match d with D_gpt_ic_irq_disable f => Some f | _ => None end) l;
     gpt_ic_irq_acknowledge :=
       member_init
         (λ d, match d with D_gpt_ic_irq_acknowledge f => Some f | _ => None end) l;
     gpt_is_ic_irq :=
       member_init
         (λ d, match d with D_gpt_is_ic_irq f => Some f | _ => None end) l |}.

Definition v2_gpt_data : imx_gpt_data :=
  init_imx_gpt_data
    [ D_gpt_setup_tctl v2_gpt_setup_tctl;
      D_gpt_enable v2_gpt_enable;
      D_gpt_disable v2_gpt_disable;
      D_gpt_irq_acknowledge v2_gpt_irq_acknowledge;
      D_gpt_is_rollover v2_gpt_is_rollover;
      D_gpt_oc_setup v2_gpt_oc_setup;
      D_gpt_oc_irq_enable v2_gpt_oc_irq_enable;
      D_gpt_oc_irq_disable v2_gpt_oc_irq_disable;
      D_gpt_oc_irq_acknowledge v2_gpt_oc_irq_acknowledge;
      D_gpt_ic_setup v2_gpt_ic_setup;
      D_gpt_is_ic_irq v2_gpt_is_oc_irq;
      D_gpt_ic_irq_enable v2_gpt_ic_irq_enable;
      D_gpt_ic_irq_disable v2_gpt_ic_irq_disable;
      D_gpt_ic_irq_acknowledge v2_gpt_ic_irq_acknowledge;
      D_gpt_is_ic_irq v2_gpt_is_ic_irq ].

Definition gpt_of_match : list (string * imx_gpt_data) :=
  [ ("fsl,imx8mn-gpt"%string, v2_gpt_data);
    ("fsl,imx8mm-gpt"%string, v2_gpt_data);
    ("fsl,imx8mp-gpt"%string, v2_gpt_data) ].

(** [of_device_get_match_data]: the data of the first entry of the driver's
    match table compatible with the device's node, NULL when there is none. *)
Definition of_device_get_match_data (pdev : platform_device)
  : option imx_gpt_data :=
  match list_find (λ e, e.1 = compatible (dev_of_node pdev)) gpt_of_match with
  | Some (_, (_, d)) => Some d
  | None => None
  end.

(** [p->member]: the function a member of the table points to; a fault
    when the table or the member is NULL and is called through. *)
Definition member {F} (p : option imx_gpt_data)
    (sel : imx_gpt_data → option F) : prog F :=
  match p with
  | Some d => match sel d with Some f => Ret f | None => Oops end
  | None => Oops
  end.

(** ** Initialisation sequence and probe *)

Definition gpt_setup (imxtm : imx_timer) (pdev : platform_device) : prog Z :=
  let gpt_data := of_device_get_match_data pdev in
  f ← member gpt_data gpt_setup_tctl; f imxtm;;
  f ← member gpt_data gpt_oc_setup; f imxtm 1 0xFFFFFFFF;;
  f ← member gpt_data gpt_ic_setup; f imxtm 1 V2_IM_MODE_BOTH;;
  f ← member gpt_data gpt_ic_irq_enable; f imxtm 1;;
  f ← member gpt_data gpt_enable; f imxtm;;
  Ret 0.

(** [imxtm->np] as an argument of an OF helper. *)
Definition with_np {A} (imxtm : imx_timer) (f : device_node → prog A) : prog A :=
  match np imxtm with
  | Some n => f n
  | None => Oops
  end.

Definition gpt_probe (pdev : platform_device) : prog Z :=
  init ← call KLoadInitialized;
  if negb (init =? 0) then Ret 0
  else
    p ← kzalloc;
    if p =? 0 then Ret (- ENOMEM)
    else
      let imxtm := imx_timer_zero in
      let imxtm := set_np (dev_of_node pdev) imxtm in
      b ← with_np imxtm (λ n, of_iomap n 0);
      let imxtm := set_base b imxtm in
      if base imxtm =? 0 then kfree p;; Ret (- ENXIO)
      else
        i ← with_np imxtm (λ n, irq_of_parse_and_map n 0);
        let imxtm := set_irq (s32 i) imxtm in
        if irq imxtm <=? 0 then kfree p;; Ret (- EINVAL)
        else
          c ← with_np imxtm (λ n, of_clk_get_by_name n "ipg");
          let imxtm := set_clk_ipg c imxtm in
          c ← with_np imxtm (λ n, of_clk_get_by_name n "osc_per");
          let imxtm := set_clk_per c imxtm in
          imxtm ← (if IS_ERR (clk_per imxtm)
                   then c ← with_np imxtm (λ n, of_clk_get_by_name n "per");
                        Ret (set_clk_per c imxtm)
                   else Ret imxtm);
          if IS_ERR (clk_per imxtm) || IS_ERR (clk_ipg imxtm) then
            pr_err "i.MX timer: unable to get clk\n";;
            Ret (s32 (PTR_ERR (clk_per imxtm)))
          else
            clk_prepare_enable (clk_ipg imxtm);;
            clk_prepare_enable (clk_per imxtm);;
            ret ← gpt_setup imxtm pdev;
            if negb (ret =? 0) then Ret ret
            else
              call (KStoreInitialized 1);;
              Ret 0.

Definition gpt_remove (dev : platform_device) : prog Z := Ret 0.

(** ** Two execution contexts

    Concurrent executions are interleavings: each kernel call of a context
    (a register access, taking or releasing the lock) is one atomic step on
    the shared state, and a context that asks for the held lock has no step
    until the lock is released.  Reordering of the relaxed accessors by a
    weakly ordered memory system is outside this model. *)

(** One step of a context that still has [p] to run on CPU [cpu]: its next
    kernel call, when that call can proceed.  A context spinning on the
    held lock, a returned one and a faulted one have no step. *)
Definition step_ctx (cpu : nat) (p : prog unit) (s : kstate)
  : option (prog unit * kstate) :=
  match p with
  | Vis e k =>
      match handle cpu e s with
      | Some (r, s') => Some (k r, s')
      | None => None
      end
  | _ => None
  end.

(** Two CPUs, each running one context; any interleaving of their kernel
    calls is an execution. *)
Record smp := { cpu0 : prog unit; cpu1 : prog unit; smp_state : kstate }.

Inductive smp_step : smp → smp → Prop :=
| smp_step_cpu0 p0 p1 s p0' s' :
    step_ctx 0%nat p0 s = Some (p0', s') →
    smp_step (Build_smp p0 p1 s) (Build_smp p0' p1 s')
| smp_step_cpu1 p0 p1 s p1' s' :
    step_ctx 1%nat p1 s = Some (p1', s') →
    smp_step (Build_smp p0 p1 s) (Build_smp p0 p1' s').

Definition smp_done (m : smp) : Prop := cpu0 m = Ret tt ∧ cpu1 m = Ret tt.

(** One CPU: a task in process context and an interrupt handler.  The
    handler is entered only while local interrupts are enabled, runs with
    them disabled, and runs to completion before the task resumes. *)
Inductive handler_state : Type :=
| Pending (h : prog unit)
| Active (h : prog unit)
| Returned.

Record uni := { task : prog unit; handler : handler_state; uni_state : kstate }.

Definition st_irq_entry (cpu : nat) (s : kstate) : kstate :=
  upd_lock (icap_lock_held s) ({[cpu]} ∪ irq_off s) s.

Definition st_irq_exit (cpu : nat) (s : kstate) : kstate :=
  upd_lock (icap_lock_held s) (irq_off s ∖ {[cpu]}) s.

Definition is_active (h : handler_state) : bool :=
  match h with Active _ => true | _ => false end.

Inductive irq_step : uni → uni → Prop :=
| irq_step_task t h s t' s' :
    is_active h = false →
    step_ctx 0%nat t s = Some (t', s') →
    irq_step (Build_uni t h s) (Build_uni t' h s')
| irq_step_entry t p s :
    0%nat ∉ irq_off s →
    irq_step (Build_uni t (Pending p) s)
             (Build_uni t (Active p) (st_irq_entry 0%nat s))
| irq_step_handler t p s p' s' :
    step_ctx 0%nat p s = Some (p', s') →
    irq_step (Build_uni t (Active p) s) (Build_uni t (Active p') s')
| irq_step_exit t s :
    irq_step (Build_uni t (Active (Ret tt)) s)
             (Build_uni t Returned (st_irq_exit 0%nat s)).

Definition uni_done (m : uni) : Prop := task m = Ret tt ∧ handler m = Returned.

(** The four operations on the shared interrupt-enable register. *)
Inductive irq_op : Type :=
| OcIrqEnable (chan : Z)
| OcIrqDisable (chan : Z)
| IcIrqEnable (chan : Z)
| IcIrqDisable (chan : Z).

Definition irq_op_prog (imxtm : imx_timer) (o : irq_op) : prog unit :=
  match o with
  | OcIrqEnable chan => v2_gpt_oc_irq_enable imxtm chan
  | OcIrqDisable chan => v2_gpt_oc_irq_disable imxtm chan
  | IcIrqEnable chan => v2_gpt_ic_irq_enable imxtm chan
  | IcIrqDisable chan => v2_gpt_ic_irq_disable imxtm chan
  end.

Definition irq_op_valid (o : irq_op) : Prop :=
  match o with
  | OcIrqEnable chan | OcIrqDisable chan => 1 ≤ chan ≤ V2_OM_NUM
  | IcIrqEnable chan | IcIrqDisable chan => 1 ≤ chan ≤ V2_IM_NUM
  end.

(** The points a context can be at while it executes a read-modify-write
    of the register at [a] under [icap_lock], and what it still has to run
    from each. *)
Inductive rmw_point : Type :=
| AtLock
| AtRead (flags : bool)
| AtWrite (flags : bool) (v : Z)
| AtUnlock (flags : bool)
| AtEnd.

Definition rmw_code (a : Z) (f : Z → Z) (pt : rmw_point) : prog unit :=
  match pt with
  | AtLock =>
      flags ← spin_lock_irqsave icap_lock;
      v ← readl_relaxed a;
      writel_relaxed (f v) a;;
      spin_unlock_irqrestore icap_lock flags
  | AtRead flags =>
      v ← readl_relaxed a;
      writel_relaxed (f v) a;;
      spin_unlock_irqrestore icap_lock flags
  | AtWrite flags v =>
      writel_relaxed (f v) a;;
      spin_unlock_irqrestore icap_lock flags
  | AtUnlock flags => spin_unlock_irqrestore icap_lock flags
  | AtEnd => Ret tt
  end.

Definition holds_lock (pt : rmw_point) : bool :=
  match pt with AtRead _ | AtWrite _ _ | AtUnlock _ => true | _ => false end.

Definition has_written (pt : rmw_point) : bool :=
  match pt with AtUnlock _ | AtEnd => true | _ => false end.

(** The modification each operation applies to the value it read, from the
    mask arrays of the source. *)
Definition irq_op_modify (o : irq_op) (v : Z) : Z :=
  match o with
  | OcIrqEnable chan =>
      Z.lor v (nth (Z.to_nat (chan - 1)) [V2_IR_OF1IE; V2_IR_OF2IE; V2_IR_OF3IE] 0)
  | OcIrqDisable chan =>
      Z.land v (nth (Z.to_nat (chan - 1))
                  [lnot (u32 V2_IR_OF1IE); lnot (u32 V2_IR_OF2IE);
                   lnot (u32 V2_IR_OF3IE)] 0)
  | IcIrqEnable chan =>
      Z.lor v (nth (Z.to_nat (chan - 1)) [V2_IR_IF1IE; V2_IR_IF2IE] 0)
  | IcIrqDisable chan =>
      Z.land v (nth (Z.to_nat (chan - 1))
                  [lnot (u32 V2_IR_IF1IE); lnot (u32 V2_IR_IF2IE)] 0)
  end.

(** The state a context leaves when it runs the read-modify-write alone. *)
Definition rmw_result (cpu : nat) (a : Z) (f : Z → Z) (s : kstate) : kstate :=
  st_unlock_irqrestore cpu (bool_decide (cpu ∉ irq_off s))
    (st_writel (f (reg s a)) a (st_readl a (st_lock_irqsave cpu s))).

(** Bit position of a channel in the interrupt-enable register: output
    compare channels at bits 0..2 ([V2_IR_OF1IE]..[V2_IR_OF3IE]), input
    capture channels at bits 3..4 ([V2_IR_IF1IE], [V2_IR_IF2IE]). *)
Definition oc_bit (chan : Z) : Z := chan - 1.
Definition ic_bit (chan : Z) : Z := chan + 2.

(** Offset of the mode field of an input capture channel in the control
    register. *)
Definition im_mode_offset (chan : Z) : Z :=
  if chan =? 1 then V2_IM1_MODE_OFFSET else V2_IM2_MODE_OFFSET.

(** Steps of a context through the read-modify-write. *)
Inductive rmw_next (cpu : nat) (a : Z) (f : Z → Z)
  : rmw_point → kstate → rmw_point → kstate → Prop :=
| rmw_next_lock s :
    icap_lock_held s = false →
    rmw_next cpu a f AtLock s
      (AtRead (bool_decide (cpu ∉ irq_off s))) (st_lock_irqsave cpu s)
| rmw_next_read flags s :
    rmw_next cpu a f (AtRead flags) s (AtWrite flags (reg s a)) (st_readl a s)
| rmw_next_write flags v s :
    rmw_next cpu a f (AtWrite flags v) s (AtUnlock flags) (st_writel (f v) a s)
| rmw_next_unlock flags s :
    rmw_next cpu a f (AtUnlock flags) s AtEnd (st_unlock_irqrestore cpu flags s).

#[global] Instance rmw_point_eq_dec : EqDecision rmw_point.
Proof. solve_decision. Defined.

(** The value a context about to write has read is still in the register. *)
Definition reads_current (a : Z) (pt : rmw_point) (s : kstate) : Prop :=
  match pt with
  | AtWrite _ v => v = reg s a
  | _ => True
  end.

(** The register holds the initial value [v0] modified by the contexts
    that have written, one after the other. *)
Definition serial_value (g0 g1 : Z → Z) (v0 : Z) (w0 w1 : bool) (v : Z) : Prop :=
  match w0, w1 with
  | false, false => v = v0
  | true, false => v = g0 v0
  | false, true => v = g1 v0
  | true, true => v = g1 (g0 v0) ∨ v = g0 (g1 v0)
  end.

(** Invariant of two contexts executing read-modify-writes of the register
    at [a], with modifications [f0] and [f1], from the initial state [s0]. *)
Record rmw_inv (a : Z) (f0 f1 : Z → Z) (s0 : kstate)
    (pt0 pt1 : rmw_point) (s : kstate) : Prop := {
  inv_lock : icap_lock_held s = holds_lock pt0 || holds_lock pt1;
  inv_excl : holds_lock pt0 && holds_lock pt1 = false;
  inv_read0 : reads_current a pt0 s;
  inv_read1 : reads_current a pt1 s;
  inv_value :
    serial_value (λ v, u32 (f0 v)) (λ v, u32 (f1 v)) (reg s0 a)
      (has_written pt0) (has_written pt1) (reg s a);
  inv_frame : ∀ b, b ≠ a → reg s b = reg s0 b
}.

Definition smp_inv (a : Z) (f0 f1 : Z → Z) (s0 : kstate) (m : smp) : Prop :=
  ∃ pt0 pt1,
    cpu0 m = rmw_code a f0 pt0 ∧ cpu1 m = rmw_code a f1 pt1 ∧
    rmw_inv a f0 f1 s0 pt0 pt1 (smp_state m).

(** The flags a context holding the lock has saved. *)
Definition saved_flags (pt : rmw_point) : option bool :=
  match pt with
  | AtRead flags | AtWrite flags _ | AtUnlock flags => Some flags
  | _ => None
  end.

(** The point the handler is at. *)
Definition handler_at (a : Z) (f : Z → Z) (h : handler_state) (pt : rmw_point)
  : Prop :=
  match h with
  | Pending p => p = rmw_code a f AtLock ∧ pt = AtLock
  | Active p => p = rmw_code a f pt
  | Returned => pt = AtEnd
  end.

(** Invariant of a task and an interrupt handler on CPU 0: local
    interrupts are off exactly while the task holds the lock or the handler
    is active, and the handler is never active while the task holds the
    lock. *)
Record uni_inv (a : Z) (f0 f1 : Z → Z) (s0 : kstate) (m : uni)
    (pt0 pt1 : rmw_point) : Prop := {
  uni_task : task m = rmw_code a f0 pt0;
  uni_handler : handler_at a f1 (handler m) pt1;
  uni_rmw : rmw_inv a f0 f1 s0 pt0 pt1 (uni_state m);
  uni_irq_off :
    0%nat ∈ irq_off (uni_state m) ↔
    holds_lock pt0 = true ∨ is_active (handler m) = true;
  uni_excl : is_active (handler m) = true → holds_lock pt0 = false;
  uni_flags0 : ∀ flags, saved_flags pt0 = Some flags → flags = true;
  uni_flags1 : ∀ flags, saved_flags pt1 = Some flags → flags = false
}.

(** [v] is the value the register at [a] holds after the two calls run
    one after the other, in one order or the other, from [s0]. *)
Definition serial_outcome (pA pB : prog unit) (s0 : kstate) (a v : Z) : Prop :=
  ∃ s, (run 0 (pA;; pB) s0 = Done tt s ∨ run 0 (pB;; pA) s0 = Done tt s) ∧
       reg s a = v.

(** Kernel calls a context at [pt] still has to make. *)
Definition remaining (pt : rmw_point) : nat :=
  match pt with
  | AtLock => 4
  | AtRead _ => 3
  | AtWrite _ _ => 2
  | AtUnlock _ => 1
  | AtEnd => 0
  end.

(** Steps left to a handler: its entry and its return count. *)
Definition handler_remaining (h : handler_state) (pt : rmw_point) : nat :=
  match h with
  | Pending _ => 6
  | Active _ => S (remaining pt)
  | Returned => 0
  end.

(** ** Concrete devices and states used to exercise the statements *)

Definition imx8mm_gpt_node : device_node :=
  {| compatible := "fsl,imx8mm-gpt";
     reg0 := 0x1000;
     interrupt0 := 55;
     clocks := [ ("ipg"%string, ValidPtr 0x2000 {| clk_rate := 24000000 |});
                 ("per"%string, ValidPtr 0x2040 {| clk_rate := 24000000 |}) ] |}.

Definition imx8mm_gpt : platform_device := {| dev_of_node := imx8mm_gpt_node |}.

(** The same node without an interrupt. *)
Definition gpt_node_no_irq : device_node :=
  {| compatible := "fsl,imx8mm-gpt"; reg0 := 0x1000; interrupt0 := 0;
     clocks := clocks imx8mm_gpt_node |}.

(** The same node without clocks. *)
Definition gpt_node_no_clocks : device_node :=
  {| compatible := "fsl,imx8mm-gpt"; reg0 := 0x1000; interrupt0 := 55;
     clocks := [] |}.

(** The same node with a peripheral clock and no "ipg" clock. *)
Definition gpt_node_no_ipg : device_node :=
  {| compatible := "fsl,imx8mm-gpt"; reg0 := 0x1000; interrupt0 := 55;
     clocks := [ ("per"%string, ValidPtr 0x2040 {| clk_rate := 24000000 |}) ] |}.

Definition boot_state : kstate :=
  {| iomem := ∅; io_log := []; icap_lock_held := false; irq_off := ∅;
     initialized := 0; slab := [0x8000]; kobjs := []; iomaps := [];
     virqs := []; clk_on := [] |}.

(** A bound timer: register block at 0x1000, 3 MHz peripheral clock. *)
Definition bound_timer : imx_timer :=
  {| irq := 55;
     clk_per := ValidPtr 0x2040 {| clk_rate := 3000000 |};
     clk_ipg := ValidPtr 0x2000 {| clk_rate := 24000000 |};
     np := Some imx8mm_gpt_node;
     base := 0x1000 |}.

(** A state whose registers hold [cr] in CR and [ir] in IR. *)
Definition regs_state (cr ir : Z) : kstate :=
  {| iomem := {[ 0x1000 + V2_REG_CR := cr; 0x1000 + V2_REG_IR := ir ]};
     io_log := []; icap_lock_held := false; irq_off := ∅;
     initialized := 1; slab := []; kobjs := [0x8000]; iomaps := [0x1000];
     virqs := [55]; clk_on := [0x2040; 0x2000] |}.

(** ** Further statements: definitions *)

(** Offset of the compare register of an output compare channel (the
    entries of the [ocr] array of [v2_gpt_oc_setup]). *)
Definition oc_compare_reg (chan : Z) : Z := V2_REG_OCR1 + 4 * (chan - 1).

(** The interrupt sources of the timer, with the operation that
    acknowledges each and the predicate that tests it. *)
Inductive irq_source : Type :=
| Rollover
| OutputCompare (chan : Z)
| InputCapture (chan : Z).

Definition acknowledge (imxtm : imx_timer) (src : irq_source) : prog unit :=
  match src with
  | Rollover => v2_gpt_irq_acknowledge imxtm
  | OutputCompare chan => v2_gpt_oc_irq_acknowledge imxtm chan
  | InputCapture chan => v2_gpt_ic_irq_acknowledge imxtm chan
  end.

Definition is_pending (imxtm : imx_timer) (src : irq_source) : prog bool :=
  match src with
  | Rollover => v2_gpt_is_rollover imxtm
  | OutputCompare chan => v2_gpt_is_oc_irq imxtm chan
  | InputCapture chan => v2_gpt_is_ic_irq imxtm chan
  end.

(** Position of the flag of a source in the status register ([V2_SR_OF1]
    .. [V2_SR_OF3] at bits 0..2, [V2_SR_IF1], [V2_SR_IF2] at bits 3..4,
    [V2_SR_ROV] at bit 5). *)
Definition status_bit (src : irq_source) : Z :=
  match src with
  | Rollover => 5
  | OutputCompare chan => chan - 1
  | InputCapture chan => chan + 2
  end.

(** The sources [is_pending] accepts, and those [acknowledge] accepts. *)
Definition testable (src : irq_source) : Prop :=
  match src with
  | Rollover => True
  | OutputCompare chan => 1 ≤ chan ≤ 3
  | InputCapture chan => 1 ≤ chan ≤ 2
  end.

Definition acknowledgeable (src : irq_source) : Prop :=
  match src with
  | Rollover => True
  | OutputCompare chan => 1 ≤ chan ≤ 2
  | InputCapture chan => 1 ≤ chan ≤ 2
  end.

Definition is_enable (o : irq_op) : bool :=
  match o with
  | OcIrqEnable _ | IcIrqEnable _ => true
  | _ => false
  end.

(** The peripheral clock [gpt_probe] settles on: "osc_per" when the node
    names one, "per" otherwise. *)
Definition clk_per_lookup (n : device_node) : kptr clk :=
  if IS_ERR (clk_lookup n "osc_per") then clk_lookup n "per"
  else clk_lookup n "osc_per".

(** What [clk_prepare_enable] adds to the enabled clocks. *)
Definition enabled_clk (c : kptr clk) : list Z :=
  match c with
  | ValidPtr addr _ => [addr]
  | _ => []
  end.

(** [struct platform_driver], the two callbacks the driver sets, and the
    calls the driver core makes through them when a device is bound and
    unbound. *)
Record platform_driver := {
  probe : platform_device → prog Z;
  remove : platform_device → prog Z
}.

Definition gpt_driver : platform_driver :=
  {| probe := gpt_probe; remove := gpt_remove |}.

Inductive driver_call : Type :=
| Bind (pdev : platform_device)
| Unbind (pdev : platform_device).

Definition driver_core_call (drv : platform_driver) (c : driver_call) : prog Z :=
  match c with
  | Bind pdev => probe drv pdev
  | Unbind pdev => remove drv pdev
  end.

Fixpoint driver_core_calls (drv : platform_driver) (l : list driver_call)
  : prog (list Z) :=
  match l with
  | [] => Ret []
  | c :: l => r ← driver_core_call drv c;
              rs ← driver_core_calls drv l;
              Ret (r :: rs)
  end.

(** A context is inside the critical section when its next kernel call is
    a register access or the release of the lock. *)
Definition in_critical_section (p : prog unit) : bool :=
  match p with
  | Vis (KReadl _) _ | Vis (KWritel _ _) _
  | Vis (KSpinUnlockIrqrestore _ _) _ => true
  | _ => false
  end.

(** * The HX8399C panel driver (drivers/gpu/drm/panel/panel-himax-hx8399c.c)

    One panel on one DSI device.  The state ([world]) holds the panel
    object the driver data points to, the fields of the DSI device the
    driver writes, and a trace of what the driver does to the hardware and
    the log: GPIO levels, sleeps, DSI transfers, messages.  A driver
    function is a state transformer that can fault ([M]).  What the host
    and the kernel answer is part of the state: the results of the coming
    DSI transfers, whether the allocation succeeds, what attach and detach
    return.  [himax_panel_get_modes] only copies [default_mode] into
    objects of the DRM core and is left out. *)
Module Panel.

Definition ENODEV : Z := 19.

Definition UD_CMD_SETPOWER : Z := 0xB1.
Definition UD_CMD_SETDISP : Z := 0xB2.
Definition UD_CMD_SETCYC : Z := 0xB4.
Definition UD_CMD_SETVCOM : Z := 0xB6.
Definition UD_CMD_SETEXTC : Z := 0xB9.
Definition UD_CMD_SET_BANK : Z := 0xBD.
Definition UD_CMD_SETPANEL : Z := 0xCC.
Definition UD_CMD_SETOFFSET : Z := 0xD2.
Definition UD_CMD_SETGIP0 : Z := 0xD3.
Definition UD_CMD_SETGIP1 : Z := 0xD5.
Definition UD_CMD_SETGIP2 : Z := 0xD6.
Definition UD_CMD_SETGIP3 : Z := 0xD8.
Definition UD_CMD_SETGAMMA : Z := 0xE0.

(** The DSI mode flags the driver uses; [mode_flags] is a set of them and
    [|=] adds to the set. *)
Inductive dsi_mode_flag : Type :=
| MIPI_DSI_MODE_VIDEO
| MIPI_DSI_MODE_VIDEO_BURST
| MIPI_DSI_MODE_VIDEO_SYNC_PULSE
| MIPI_DSI_MODE_VIDEO_HSE
| MIPI_DSI_MODE_VSYNC_FLUSH
| MIPI_DSI_MODE_NO_EOT_PACKET
| MIPI_DSI_CLOCK_NON_CONTINUOUS
| MIPI_DSI_MODE_LPM.

#[global] Instance dsi_mode_flag_eq_dec : EqDecision dsi_mode_flag.
Proof. solve_decision. Defined.

Inductive dsi_pixel_format : Type := MIPI_DSI_FMT_RGB888.

Inductive gpio_desc : Type := GpioLine.

(** The platform data objects of the driver; [himax_hx8399c] is the only
    one. *)
Inductive himax_platform_data : Type := himax_hx8399c.

(** [struct himax_panel]; the embedded [drm_panel] and the back pointer to
    the DSI device are the panel and the device of the state. *)
#[projections(primitive)] Record himax_panel := {
  reset : kptr gpio_desc;
  backlight : kptr gpio_desc;
  pdata : option himax_platform_data;
  prepared : bool;
  enabled : bool
}.

(** The object [devm_kzalloc] returns. *)
Definition himax_panel_zero : himax_panel :=
  {| reset := NullPtr; backlight := NullPtr; pdata := None;
     prepared := false; enabled := false |}.

Definition set_reset (g : kptr gpio_desc) (c : himax_panel) : himax_panel :=
  {| reset := g; backlight := backlight c; pdata := pdata c;
     prepared := prepared c; enabled := enabled c |}.

Definition set_backlight (g : kptr gpio_desc) (c : himax_panel) : himax_panel :=
  {| reset := reset c; backlight := g; pdata := pdata c;
     prepared := prepared c; enabled := enabled c |}.

Definition set_pdata (p : option himax_platform_data) (c : himax_panel)
  : himax_panel :=
  {| reset := reset c; backlight := backlight c; pdata := p;
     prepared := prepared c; enabled := enabled c |}.

Definition set_prepared (b : bool) (c : himax_panel) : himax_panel :=
  {| reset := reset c; backlight := backlight c; pdata := pdata c;
     prepared := b; enabled := enabled c |}.

Definition set_enabled (b : bool) (c : himax_panel) : himax_panel :=
  {| reset := reset c; backlight := backlight c; pdata := pdata c;
     prepared := prepared c; enabled := b |}.

(** What the driver does to the hardware and the log, in order. *)
Inductive action : Type :=
| Usleep (min max : Z)
| Msleep (ms : Z)
| GpioDirectionOutput (desc : Z) (value : Z)
| GpioSet (desc : Z) (value : Z)
| DcsWriteBuffer (data : list Z)
| DcsExitSleepMode
| DcsSetDisplayOn
| DcsSetDisplayOff
| DcsEnterSleepMode
| DevErr (msg : string) (args : list Z)
| Printk (msg : string).

(** The device-tree node of the panel, reduced to what the OF and GPIO
    helpers called by the probe answer for it. *)
Record dsi_node := {
  compatible : string;
  video_mode : option Z;
  dsi_lanes : option Z;
  reset_gpios : kptr gpio_desc;
  backlight_gpios : kptr gpio_desc
}.

#[projections(primitive)] Record world := {
  ctx : option himax_panel;          (* the driver data of the DSI device *)
  format : option dsi_pixel_format;  (* [dsi->format] *)
  mode_flags : list dsi_mode_flag;   (* [dsi->mode_flags] *)
  lanes : Z;                         (* [dsi->lanes] *)
  registered : bool;                 (* the panel is in the DRM panel list *)
  attached : bool;                   (* the device is attached to its host *)
  trace : list action;               (* what the driver did, oldest first *)
  dsi_replies : list Z;              (* results of the coming DSI transfers *)
  kzalloc_fails : bool;              (* [devm_kzalloc] has no memory *)
  attach_result : Z;                 (* what [mipi_dsi_attach] returns *)
  detach_result : Z                  (* what [mipi_dsi_detach] returns *)
}.

Definition upd_ctx (c : option himax_panel) (w : world) : world :=
  {| ctx := c; format := format w; mode_flags := mode_flags w;
     lanes := lanes w; registered := registered w; attached := attached w;
     trace := trace w; dsi_replies := dsi_replies w;
     kzalloc_fails := kzalloc_fails w; attach_result := attach_result w;
     detach_result := detach_result w |}.

Definition upd_dsi (f : option dsi_pixel_format) (m : list dsi_mode_flag)
    (l : Z) (w : world) : world :=
  {| ctx := ctx w; format := f; mode_flags := m;
     lanes := l; registered := registered w; attached := attached w;
     trace := trace w; dsi_replies := dsi_replies w;
     kzalloc_fails := kzalloc_fails w; attach_result := attach_result w;
     detach_result := detach_result w |}.

Definition upd_bound (r a : bool) (w : world) : world :=
  {| ctx := ctx w; format := format w; mode_flags := mode_flags w;
     lanes := lanes w; registered := r; attached := a;
     trace := trace w; dsi_replies := dsi_replies w;
     kzalloc_fails := kzalloc_fails w; attach_result := attach_result w;
     detach_result := detach_result w |}.

Definition upd_trace (t : list action) (r : list Z) (w : world) : world :=
  {| ctx := ctx w; format := format w; mode_flags := mode_flags w;
     lanes := lanes w; registered := registered w; attached := attached w;
     trace := t; dsi_replies := r;
     kzalloc_fails := kzalloc_fails w; attach_result := attach_result w;
     detach_result := detach_result w |}.

(** [!p] for a pointer. *)
Definition is_null {A} (p : kptr A) : bool :=
  match p with NullPtr => true | _ => false end.

(** A driver function: a state transformer that can fault ([None]: a NULL
    pointer is dereferenced). *)
Record M (A : Type) : Type := MkM { exec : world → option (A * world) }.
Arguments MkM {A} _.
Arguments exec {A} _ _.

#[global] Instance M_mret : MRet M := λ A a, MkM (λ w, Some (a, w)).
#[global] Instance M_mbind : MBind M := λ A B f m,
  MkM (λ w, match exec m w with
            | Some (a, w') => exec (f a) w'
            | None => None
            end).

Definition oops {A} : M A := MkM (λ _, None).
Definition get : M world := MkM (λ w, Some (w, w)).
Definition modify (f : world → world) : M unit := MkM (λ w, Some (tt, f w)).
Definition emit (a : action) : M unit :=
  modify (λ w, upd_trace (trace w ++ [a]) (dsi_replies w) w).

(** [to_himax_panel (panel)] and the stores to members of the object. *)
Definition to_himax_panel : M himax_panel :=
  w ← get; match ctx w with Some c => mret c | None => oops end.

Definition store (f : himax_panel → himax_panel) : M unit :=
  c ← to_himax_panel; modify (upd_ctx (Some (f c))).

(** ** Kernel services *)

Definition usleep_range (min max : Z) : M unit := emit (Usleep min max).
Definition msleep (ms : Z) : M unit := emit (Msleep ms).
Definition dev_err (msg : string) (args : list Z) : M unit :=
  emit (DevErr msg args).
Definition printk (msg : string) : M unit := emit (Printk msg).

(** [gpiod_set_value_cansleep] returns at once for a NULL or an error
    descriptor. *)
Definition gpiod_set_value_cansleep (desc : kptr gpio_desc) (value : Z) : M unit :=
  match desc with
  | ValidPtr addr _ => emit (GpioSet addr value)
  | _ => mret tt
  end.

(** A DSI transfer: the host answers with the next of [dsi_replies], a
    negative errno when the transfer fails; with no reply left the
    transfer succeeds with [ok]. *)
Definition dsi_transfer (a : action) (ok : Z) : M Z :=
  MkM (λ w, match dsi_replies w with
            | [] => Some (ok, upd_trace (trace w ++ [a]) [] w)
            | r :: rest => Some (r, upd_trace (trace w ++ [a]) rest w)
            end).

(** [mipi_dsi_dcs_write_buffer] returns the number of bytes sent or a
    negative errno, here converted to the [int ret] it is assigned to. *)
Definition mipi_dsi_dcs_write_buffer (data : list Z) : M Z :=
  r ← dsi_transfer (DcsWriteBuffer data) (Z.of_nat (length data)); mret (s32 r).

(** The DCS helpers return 0 or a negative errno. *)
Definition dcs_status (r : Z) : Z := if s32 r <? 0 then s32 r else 0.

Definition mipi_dsi_dcs_exit_sleep_mode : M Z :=
  r ← dsi_transfer DcsExitSleepMode 0; mret (dcs_status r).
Definition mipi_dsi_dcs_set_display_on : M Z :=
  r ← dsi_transfer DcsSetDisplayOn 0; mret (dcs_status r).
Definition mipi_dsi_dcs_set_display_off : M Z :=
  r ← dsi_transfer DcsSetDisplayOff 0; mret (dcs_status r).
Definition mipi_dsi_dcs_enter_sleep_mode : M Z :=
  r ← dsi_transfer DcsEnterSleepMode 0; mret (dcs_status r).

(** ** Power sequencing *)

Definition himax_panel_prepare : M Z :=
  ctx ← to_himax_panel;
  if prepared ctx then mret 0
  else
    usleep_range 1010 2010;;
    (if negb (is_null (reset ctx)) then
       gpiod_set_value_cansleep (reset ctx) 0;;
       msleep 50
     else mret tt);;
    store (set_prepared true);;
    mret 0.

Definition himax_panel_unprepare : M Z :=
  ctx ← to_himax_panel;
  (if negb (prepared ctx) then
     gpiod_set_value_cansleep (reset ctx) 1;;
     usleep_range 15000 17000;;
     gpiod_set_value_cansleep (reset ctx) 0
   else mret tt);;
  store (set_prepared false);;
  mret 0.

(** [dcs_write_seq (ctx, seq...)]. *)
Definition dcs_write_seq (d : list Z) : M Z := mipi_dsi_dcs_write_buffer d.

(** The [fail:] label of [hx8399c_enable]. *)
Definition fail (ret : Z) : M Z :=
  ctx ← to_himax_panel;
  gpiod_set_value_cansleep (reset ctx) 1;;
  mret ret.

(** [ret = op; if (ret < 0) { dev_err (dev, msg, ret); goto fail; }]
    followed by [k]. *)
Definition checked (op : M Z) (msg : string) (k : M Z) : M Z :=
  ret ← op;
  if ret <? 0 then dev_err msg [ret];; fail ret else k.

Notation "'attempt!' op 'on_error' msg ;; k" := (checked op msg k)
  (at level 100, op at level 9, msg at level 9, k at level 200,
   right associativity, only parsing).

Definition hx8399c_enable : M Z :=
  ctx ← to_himax_panel;
  if enabled ctx then mret 0
  else
    attempt! (dcs_write_seq [UD_CMD_SETEXTC; 0xFF; 0x83; 0x99])
      on_error "Failed to set extc (%d)\n";;
    attempt! (dcs_write_seq [UD_CMD_SETOFFSET; 0x77])
      on_error "Failed to set d2 (%d)\n";;
    attempt! (dcs_write_seq
        [UD_CMD_SETPOWER;
         0x02; 0x04; 0x74; 0x94; 0x01; 0x32; 0x33; 0x11;
         0x11; 0xAB; 0x4D; 0x56; 0x73; 0x02; 0x02])
      on_error "Failed to set power (%d)\n";;
    attempt! (dcs_write_seq
        [UD_CMD_SETDISP;
         0x00; 0x80; 0x80; 0xAE; 0x05; 0x07; 0x5A; 0x11;
         0x00; 0x00; 0x10; 0x1E; 0x70; 0x03; 0xD4])
      on_error "Failed to set display (%d)\n";;
    attempt! (dcs_write_seq
        [UD_CMD_SETCYC;
         0x00; 0xFF; 0x02; 0xC0; 0x02; 0xC0; 0x00; 0x00;
         0x08; 0x00; 0x04; 0x06; 0x00; 0x32; 0x04; 0x0A;
         0x08; 0x21; 0x03; 0x01; 0x00; 0x0F; 0xB8; 0x8B;
         0x02; 0xC0; 0x02; 0xC0; 0x00; 0x00; 0x08; 0x00;
         0x04; 0x06; 0x00; 0x32; 0x04; 0x0A; 0x08; 0x01;
         0x00; 0x0F; 0xB8; 0x01])
      on_error "Failed to set cycles (%d)\n";;
    attempt! (dcs_write_seq
        [UD_CMD_SETGIP0;
         0x00; 0x00; 0x00; 0x00; 0x00; 0x00; 0x06; 0x00;
         0x00; 0x10; 0x04; 0x00; 0x04; 0x00; 0x00; 0x00;
         0x00; 0x00; 0x00; 0x00; 0x00; 0x00; 0x00; 0x01;
         0x00; 0x05; 0x05; 0x07; 0x00; 0x00; 0x00; 0x05;
         0x40])
      on_error "Failed to set gip0 (%d)\n";;
    usleep_range 10000 11000;;
    attempt! (dcs_write_seq
        [UD_CMD_SETGIP1;
         0x18; 0x18; 0x19; 0x19; 0x18; 0x18; 0x21; 0x20;
         0x01; 0x00; 0x07; 0x06; 0x05; 0x04; 0x03; 0x02;
         0x18; 0x18; 0x18; 0x18; 0x18; 0x18; 0x2F; 0x2F;
         0x30; 0x30; 0x31; 0x31; 0x18; 0x18; 0x18; 0x18])
      on_error "Failed to set gip fmapping (%d)\n";;
    usleep_range 10000 11000;;
    attempt! (dcs_write_seq
        [UD_CMD_SETGIP2;
         0x18; 0x18; 0x19; 0x19; 0x40; 0x40; 0x20; 0x21;
         0x06; 0x07; 0x00; 0x01; 0x02; 0x03; 0x04; 0x05;
         0x40; 0x40; 0x40; 0x40; 0x40; 0x40; 0x2F; 0x2F;
         0x30; 0x30; 0x31; 0x31; 0x40; 0x40; 0x40; 0x40])
      on_error "Failed to set gip bmapping (%d)\n";;
    attempt! (dcs_write_seq
        [UD_CMD_SETGIP3;
         0xA2; 0xAA; 0x02; 0xA0; 0xA2; 0xA8; 0x02; 0xA0;
         0xB0; 0x00; 0x00; 0x00; 0xB0; 0x00; 0x00; 0x00])
      on_error "Failed to set d8 (%d)\n";;
    attempt! (dcs_write_seq [UD_CMD_SET_BANK; 0x01])
      on_error "Failed to set bank1 (%d)\n";;
    attempt! (dcs_write_seq
        [UD_CMD_SETGIP3;
         0xB0; 0x00; 0x00; 0x00; 0xB0; 0x00; 0x00; 0x00;
         0xE2; 0xAA; 0x03; 0xF0; 0xE2; 0xAA; 0x03; 0xF0])
      on_error "Failed to set d81 (%d)\n";;
    attempt! (dcs_write_seq [UD_CMD_SET_BANK; 0x02])
      on_error "Failed to set bank2 (%d)\n";;
    attempt! (dcs_write_seq
        [UD_CMD_SETGIP3;
         0xE2; 0xAA; 0x03; 0xF0; 0xE2; 0xAA; 0x03; 0xF0])
      on_error "Failed to set d82 (%d)\n";;
    attempt! (dcs_write_seq [UD_CMD_SET_BANK; 0x00])
      on_error "Failed to set bank0 (%d)\n";;
    attempt! (dcs_write_seq [UD_CMD_SETVCOM; 0x8D; 0x8D])
      on_error "Failed to set vcom (%d)\n";;
    attempt! (dcs_write_seq
        [UD_CMD_SETGAMMA;
         0x00; 0x0E; 0x19; 0x13; 0x2E; 0x39; 0x48; 0x44;
         0x4D; 0x57; 0x5F; 0x66; 0x6C; 0x76; 0x7F; 0x85;
         0x8A; 0x95; 0x9A; 0xA4; 0x9B; 0xAB; 0xB0; 0x5C;
         0x58; 0x64; 0x77; 0x00; 0x0E; 0x19; 0x13; 0x2E;
         0x39; 0x48; 0x44; 0x4D; 0x57; 0x5F; 0x66; 0x6C;
         0x76; 0x7F; 0x85; 0x8A; 0x95; 0x9A; 0xA4; 0x9B;
         0xAB; 0xB0; 0x5C; 0x58; 0x64; 0x77])
      on_error "Failed to set gamma (%d)\n";;
    usleep_range 10000 11000;;
    attempt! (dcs_write_seq [UD_CMD_SETPANEL; 0x08])
      on_error "Failed to set panel (%d)\n";;
    attempt! (mipi_dsi_dcs_exit_sleep_mode)
      on_error "Failed to set sleep out (%d)\n";;
    usleep_range 120000 121000;;
    attempt! (mipi_dsi_dcs_set_display_on)
      on_error "Failed to set display ON (%d)\n";;
    usleep_range 20000 21000;;
    store (set_enabled true);;
    mret 0.

(** [p->enable]: the function the member of a platform data object points
    to. *)
Definition enable (p : himax_platform_data) : M Z :=
  match p with himax_hx8399c => hx8399c_enable end.

Definition himax_panel_enable : M Z :=
  ctx ← to_himax_panel;
  match pdata ctx with
  | Some p => enable p
  | None => oops
  end.

Definition himax_panel_disable : M Z :=
  ctx ← to_himax_panel;
  if negb (enabled ctx) then mret 0
  else
    modify (λ w, upd_dsi (format w)
                   (list_union (mode_flags w) [MIPI_DSI_MODE_LPM]) (lanes w) w);;
    ret ← mipi_dsi_dcs_set_display_off;
    if ret <? 0 then dev_err "Failed to set display OFF (%d)\n" [ret];; mret ret
    else
      ret ← mipi_dsi_dcs_enter_sleep_mode;
      if ret <? 0 then dev_err "Failed to enter sleep mode (%d)\n" [ret];; mret ret
      else
        store (set_enabled false);;
        mret 0.

(** ** Binding *)

Definition himax_of_match : list (string * option himax_platform_data) :=
  [ ("himax,hx8399c"%string, Some himax_hx8399c) ].

(** [of_match_device]: the first entry of the table compatible with the
    node, NULL when there is none. *)
Definition of_match_device (table : list (string * option himax_platform_data))
    (np : dsi_node) : option (string * option himax_platform_data) :=
  match list_find (λ e, e.1 = compatible np) table with
  | Some (_, e) => Some e
  | None => None
  end.

(** [devm_kzalloc]: a zeroed object, or NULL. *)
Definition devm_kzalloc : M (option himax_panel) :=
  w ← get; if kzalloc_fails w then mret None else mret (Some himax_panel_zero).

Definition mipi_dsi_set_drvdata (obj : himax_panel) : M unit :=
  modify (upd_ctx (Some obj)).

(** [of_property_read_u32]: 0 and the value, or -EINVAL when the node has
    no such property. *)
Definition of_property_read_u32 (p : option Z) : Z * Z :=
  match p with
  | Some v => (0, u32 v)
  | None => (- EINVAL, 0)
  end.

(** [devm_gpiod_get_optional (dev, name, flags)] with an output flag: the
    line of the node, set up as an output at the initial value; NULL when
    the node names no line, an error pointer when the line cannot be
    had. *)
Definition devm_gpiod_get_optional (g : kptr gpio_desc) (initial : Z)
  : M (kptr gpio_desc) :=
  match g with
  | ValidPtr addr _ => emit (GpioDirectionOutput addr initial);; mret g
  | _ => mret g
  end.

Definition or_mode_flags (l : list dsi_mode_flag) : M unit :=
  modify (λ w, upd_dsi (format w) (list_union (mode_flags w) l) (lanes w) w).

(** [drm_panel_init] and the second [dev_set_drvdata] change nothing that
    is part of the state. *)
Definition drm_panel_init : M unit := mret tt.
Definition dev_set_drvdata : M unit := mret tt.
Definition drm_panel_add : M unit :=
  modify (λ w, upd_bound true (attached w) w).
Definition drm_panel_remove : M unit :=
  modify (λ w, upd_bound false (attached w) w).

Definition mipi_dsi_attach : M Z :=
  w ← get;
  if attach_result w =? 0 then
    modify (λ w, upd_bound (registered w) true w);; mret 0
  else mret (attach_result w).

Definition mipi_dsi_detach : M Z :=
  w ← get;
  if detach_result w =? 0 then
    modify (λ w, upd_bound (registered w) false w);; mret 0
  else mret (detach_result w).

Definition himax_panel_probe (np : dsi_node) : M Z :=
  let of_id := of_match_device himax_of_match np in
  printk "Mackie";;
  match of_id with
  | Some (_, Some data) =>
      obj ← devm_kzalloc;
      match obj with
      | None => mret (- ENOMEM)
      | Some obj =>
          mipi_dsi_set_drvdata obj;;
          store (set_pdata (Some data));;
          modify (λ w, upd_dsi (Some MIPI_DSI_FMT_RGB888) (mode_flags w)
                         (lanes w) w);;
          modify (λ w, upd_dsi (format w)
                         [MIPI_DSI_MODE_VIDEO_HSE; MIPI_DSI_MODE_NO_EOT_PACKET]
                         (lanes w) w);;
          let '(ret, video_mode) := of_property_read_u32 (video_mode np) in
          (if ret =? 0 then
             if video_mode =? 0 then
               or_mode_flags [MIPI_DSI_MODE_VIDEO_BURST; MIPI_DSI_MODE_VIDEO]
             else if video_mode =? 1 then
               or_mode_flags [MIPI_DSI_MODE_VIDEO]
             else if video_mode =? 2 then
               or_mode_flags [MIPI_DSI_MODE_VIDEO_SYNC_PULSE;
                              MIPI_DSI_MODE_VIDEO]
             else if video_mode =? 3 then
               or_mode_flags [MIPI_DSI_CLOCK_NON_CONTINUOUS;
                              MIPI_DSI_MODE_VSYNC_FLUSH]
             else dev_err "invalid video mode %d\n" [video_mode]
           else mret tt);;
          let '(ret, l) := of_property_read_u32 (dsi_lanes np) in
          (if ret =? 0 then
             modify (λ w, upd_dsi (format w) (mode_flags w) l w)
           else mret tt);;
          if negb (ret =? 0) then
            dev_err "Failed to get dsi-lanes property (%d)\n" [ret];;
            mret ret
          else
            g ← devm_gpiod_get_optional (reset_gpios np) 0;
            store (set_reset g);;
            ctx ← to_himax_panel;
            if IS_ERR (reset ctx) then
              let ret := s32 (PTR_ERR (reset ctx)) in
              dev_err "Failed to get reset gpio (%d)\n" [ret];;
              mret ret
            else
              printk "Mackie: get backlight\n";;
              g ← devm_gpiod_get_optional (backlight_gpios np) 1;
              store (set_backlight g);;
              ctx ← to_himax_panel;
              if IS_ERR (backlight ctx) then
                let ret := s32 (PTR_ERR (backlight ctx)) in
                dev_err "Failed to get backlight gpio (%d)\n" [ret];;
                printk "Mackie: Failed to get backlight gpio\n";;
                mret ret
              else
                printk "Mackie: get backlight end\n";;
                gpiod_set_value_cansleep (reset ctx) 1;;
                drm_panel_init;;
                dev_set_drvdata;;
                drm_panel_add;;
                ret ← mipi_dsi_attach;
                (if negb (ret =? 0) then
                   drm_panel_remove;;
                   dev_err "Failed to attach mipi dsi\n" []
                 else mret tt);;
                printk "Exit himax_panel_probe\n";;
                mret 0
      end
  | _ => mret (- ENODEV)
  end.

Definition himax_panel_remove : M Z :=
  ret ← mipi_dsi_detach;
  (if negb (ret =? 0) then
     dev_err "Failed to detach from host (%d)\n" [ret]
   else mret tt);;
  to_himax_panel;;
  drm_panel_remove;;
  mret 0.

Definition himax_panel_shutdown : M unit :=
  himax_panel_disable;;
  himax_panel_unprepare;;
  mret tt.

(** ** Reading the trace *)

Definition is_dsi_transfer (a : action) : bool :=
  match a with
  | DcsWriteBuffer _ | DcsExitSleepMode | DcsSetDisplayOn
  | DcsSetDisplayOff | DcsEnterSleepMode => true
  | _ => false
  end.

(** The DSI transfers of a trace. *)
Definition dsi_transfers (t : list action) : list action :=
  filter (λ a, is_dsi_transfer a = true) t.

(** The level the driver last drove a GPIO line to, if it drove it. *)
Definition gpio_level (desc : Z) (t : list action) : option Z :=
  last (omap (λ a, match a with
                   | GpioDirectionOutput d v | GpioSet d v =>
                       if d =? desc then Some v else None
                   | _ => None
                   end) t).

Definition is_gpio_action (a : action) : bool :=
  match a with
  | GpioDirectionOutput _ _ | GpioSet _ _ => true
  | _ => false
  end.

(** What a trace does to the GPIO lines. *)
Definition gpio_actions (t : list action) : list action :=
  filter (λ a, is_gpio_action a = true) t.

(** What the [fail:] label does to the reset line. *)
Definition reset_high (c : himax_panel) : list action :=
  match reset c with
  | ValidPtr addr _ => [GpioSet addr 1]
  | _ => []
  end.

(** The transfers [hx8399c_enable] checks. *)
Inductive is_dcs_op : M Z → Prop :=
| op_write_seq d :
    Z.of_nat (length d) < 2 ^ 31 → is_dcs_op (dcs_write_seq d)
| op_exit_sleep_mode : is_dcs_op mipi_dsi_dcs_exit_sleep_mode
| op_set_display_on : is_dcs_op mipi_dsi_dcs_set_display_on.

(** The rest of [hx8399c_enable] from a point of its body on: [n] checked
    transfers, sleeps between them, and the store to [enabled]. *)
Inductive enable_rest : nat → M Z → Prop :=
| rest_done : enable_rest 0 (store (set_enabled true);; mret 0)
| rest_sleep n min max k :
    enable_rest n k → enable_rest n (usleep_range min max;; k)
| rest_checked n op msg k :
    is_dcs_op op → enable_rest n k → enable_rest (S n) (checked op msg k).

(** ** A panel to exercise the statements *)

Definition hx8399c_node : dsi_node :=
  {| compatible := "himax,hx8399c"; video_mode := Some 0; dsi_lanes := Some 4;
     reset_gpios := ValidPtr 0x40 GpioLine; backlight_gpios := NullPtr |}.

Definition unbound : world :=
  {| ctx := None; format := None; mode_flags := []; lanes := 0;
     registered := false; attached := false; trace := []; dsi_replies := [];
     kzalloc_fails := false; attach_result := 0; detach_result := 0 |}.

(** The panel as a successful probe leaves it, without the trace. *)
Definition bound : world :=
  {| ctx := Some {| reset := ValidPtr 0x40 GpioLine; backlight := NullPtr;
                    pdata := Some himax_hx8399c;
                    prepared := false; enabled := false |};
     format := Some MIPI_DSI_FMT_RGB888;
     mode_flags := [MIPI_DSI_MODE_VIDEO_HSE; MIPI_DSI_MODE_NO_EOT_PACKET;
                    MIPI_DSI_MODE_VIDEO_BURST; MIPI_DSI_MODE_VIDEO];
     lanes := 4; registered := true; attached := true; trace := [];
     dsi_replies := []; kzalloc_fails := false; attach_result := 0;
     detach_result := 0 |}.

Definition with_replies (r : list Z) (w : world) : world :=
  upd_trace (trace w) r w.

End Panel.

(** * Properties *)

(** ** Machine integers *)

Lemma u32_small x : 0 ≤ x < 2 ^ 32 → u32 x = x.
Proof. intros H. unfold u32. apply Z.mod_small. exact H. Qed.

Lemma u32_testbit x i :
  0 ≤ i → Z.testbit (u32 x) i = Z.testbit x i && (i <? 32).
Proof.
  intros Hi. unfold u32.
  destruct (Z.ltb_spec i 32).
  - rewrite Z.mod_pow2_bits_low by lia. by rewrite andb_true_r.
  - rewrite Z.mod_pow2_bits_high by lia. by rewrite andb_false_r.
Qed.

Lemma u32_high_bits x i : 0 ≤ x < 2 ^ 32 → 32 ≤ i → Z.testbit x i = false.
Proof.
  intros Hx Hi. rewrite <- (u32_small x Hx), u32_testbit by lia.
  destruct (Z.ltb_spec i 32); [lia|]. apply andb_false_r.
Qed.

Lemma u32_lor x y :
  0 ≤ x < 2 ^ 32 → 0 ≤ y < 2 ^ 32 → u32 (Z.lor x y) = Z.lor x y.
Proof.
  intros Hx Hy. apply Z.bits_inj'. intros i Hi.
  rewrite u32_testbit, Z.lor_spec by lia.
  destruct (Z.ltb_spec i 32); [apply andb_true_r|].
  rewrite (u32_high_bits x), (u32_high_bits y) by lia. reflexivity.
Qed.

(** ** Registers *)

Lemma reg_st_writel_eq v a s : reg (st_writel v a s) a = u32 v.
Proof. unfold reg, st_writel; simpl. by rewrite lookup_insert_eq. Qed.

Lemma reg_st_writel_ne v a b s : a ≠ b → reg (st_writel v a s) b = reg s b.
Proof. intros H. unfold reg, st_writel; simpl. by rewrite lookup_insert_ne. Qed.

Lemma reg_st_readl a b s : reg (st_readl a s) b = reg s b.
Proof. reflexivity. Qed.

Lemma reg_st_lock cpu b s : reg (st_lock_irqsave cpu s) b = reg s b.
Proof. reflexivity. Qed.

Lemma reg_st_unlock cpu fl b s : reg (st_unlock_irqrestore cpu fl s) b = reg s b.
Proof. reflexivity. Qed.

(** ** Execution *)

Lemma run_bind cpu {A B} (p : prog A) (f : A → prog B) s :
  run cpu (p ≫= f) s =
  match run cpu p s with
  | Done a s' => run cpu (f a) s'
  | Fault s' => Fault s'
  | Deadlock s' => Deadlock s'
  end.
Proof.
  revert s. induction p as [a| |R e k IH]; intros s; simpl; try reflexivity.
  destruct (handle cpu e s) as [[r s']|]; [apply IH | reflexivity].
Qed.

Lemma run_v2_gpt_enable cpu imxtm s :
  run cpu (v2_gpt_enable imxtm) s =
  Done tt (st_writel (Z.lor (reg s (base imxtm + V2_REG_CR)) V2_CR_EN)
             (base imxtm + V2_REG_CR) (st_readl (base imxtm + V2_REG_CR) s)).
Proof. reflexivity. Qed.

Lemma run_v2_gpt_disable cpu imxtm s :
  run cpu (v2_gpt_disable imxtm) s =
  Done tt (st_writel 0
             (base imxtm + V2_REG_CR) (st_readl (base imxtm + V2_REG_CR) s)).
Proof.
  unfold v2_gpt_disable. simpl. rewrite Z.land_0_r. reflexivity.
Qed.

Lemma io_log_st_writel v a s : io_log (st_writel v a s) = io_log s ++ [Wr a (u32 v)].
Proof. reflexivity. Qed.

Lemma io_log_st_readl a s : io_log (st_readl a s) = io_log s ++ [Rd a (reg s a)].
Proof. reflexivity. Qed.

(** ** The locked read-modify-write of the interrupt-enable register *)

Lemma irq_op_prog_rmw imxtm o :
  irq_op_valid o →
  irq_op_prog imxtm o =
  rmw_code (base imxtm + V2_REG_IR) (irq_op_modify o) AtLock.
Proof.
  destruct o as [chan|chan|chan|chan]; unfold irq_op_valid, V2_OM_NUM, V2_IM_NUM;
    intros Hc.
  1,2: assert (chan = 1 ∨ chan = 2 ∨ chan = 3) as [->|[->| ->]] by lia;
       reflexivity.
  all: assert (chan = 1 ∨ chan = 2) as [->| ->] by lia; reflexivity.
Qed.

Lemma run_rmw_code cpu a f s :
  icap_lock_held s = false →
  run cpu (rmw_code a f AtLock) s = Done tt (rmw_result cpu a f s).
Proof. intros H. simpl. rewrite H. reflexivity. Qed.

Lemma reg_rmw_result_eq cpu a f s : reg (rmw_result cpu a f s) a = u32 (f (reg s a)).
Proof. unfold rmw_result. rewrite reg_st_unlock. apply reg_st_writel_eq. Qed.

Lemma reg_rmw_result_ne cpu a b f s :
  a ≠ b → reg (rmw_result cpu a f s) b = reg s b.
Proof.
  intros H. unfold rmw_result. rewrite reg_st_unlock.
  by rewrite reg_st_writel_ne.
Qed.


Lemma icap_lock_rmw_result cpu a f s : icap_lock_held (rmw_result cpu a f s) = false.
Proof. reflexivity. Qed.

Lemma run_irq_op cpu imxtm o s :
  irq_op_valid o → icap_lock_held s = false →
  run cpu (irq_op_prog imxtm o) s =
  Done tt (rmw_result cpu (base imxtm + V2_REG_IR) (irq_op_modify o) s).
Proof. intros Hv Hl. rewrite irq_op_prog_rmw by done. by apply run_rmw_code. Qed.

Lemma pow2_testbit n i : 0 ≤ n → 0 ≤ i → Z.testbit (Z.shiftl 1 n) i = (i =? n).
Proof.
  intros Hn Hi. rewrite Z.shiftl_1_l.
  destruct (Z.eqb_spec i n) as [->|Hne].
  - by apply Z.pow2_bits_true.
  - by apply Z.pow2_bits_false.
Qed.

Lemma pow2_u32 n : 0 ≤ n < 32 → 0 ≤ Z.shiftl 1 n < 2 ^ 32.
Proof.
  intros Hn. rewrite Z.shiftl_1_l. split; [lia|].
  apply Z.pow_lt_mono_r; lia.
Qed.

Lemma irq_op_modify_oc_enable chan v :
  1 ≤ chan ≤ 3 →
  irq_op_modify (OcIrqEnable chan) v = Z.lor v (Z.shiftl 1 (oc_bit chan)).
Proof.
  intros Hc.
  assert (chan = 1 ∨ chan = 2 ∨ chan = 3) as [->|[->| ->]] by lia; reflexivity.
Qed.

Lemma irq_op_modify_ic_enable chan v :
  1 ≤ chan ≤ 2 →
  irq_op_modify (IcIrqEnable chan) v = Z.lor v (Z.shiftl 1 (ic_bit chan)).
Proof.
  intros Hc. assert (chan = 1 ∨ chan = 2) as [->| ->] by lia; reflexivity.
Qed.

Lemma irq_op_modify_oc_disable chan v :
  1 ≤ chan ≤ 3 → irq_op_modify (OcIrqDisable chan) v = 0.
Proof.
  intros Hc.
  assert (chan = 1 ∨ chan = 2 ∨ chan = 3) as [->|[->| ->]] by lia;
    apply Z.land_0_r.
Qed.

Lemma irq_op_modify_ic_disable chan v :
  1 ≤ chan ≤ 2 → irq_op_modify (IcIrqDisable chan) v = 0.
Proof.
  intros Hc. assert (chan = 1 ∨ chan = 2) as [->| ->] by lia; apply Z.land_0_r.
Qed.

(** ** Timer control: enable and disable *)

(** [v2_gpt_enable] sets the run-enable bit and leaves every other bit of
    the control register as it was. *)
Lemma v2_gpt_enable_frame cpu imxtm s :
  0 ≤ reg s (base imxtm + V2_REG_CR) < 2 ^ 32 →
  ∃ s', run cpu (v2_gpt_enable imxtm) s = Done tt s' ∧
        reg s' (base imxtm + V2_REG_CR)
        = Z.lor (reg s (base imxtm + V2_REG_CR)) V2_CR_EN ∧
        ∀ i, 0 ≤ i →
             Z.testbit (reg s' (base imxtm + V2_REG_CR)) i
             = (i =? 0) || Z.testbit (reg s (base imxtm + V2_REG_CR)) i.
Proof.
  intros Hv. eexists. split; [apply run_v2_gpt_enable|].
  rewrite reg_st_writel_eq. unfold V2_CR_EN.
  rewrite u32_lor by (done || (apply pow2_u32; lia)).
  split; [done|]. intros i Hi.
  rewrite Z.lor_spec, pow2_testbit by lia. apply orb_comm.
Qed.

(** C2, the [disable] half.  [v2_gpt_disable] masks the control register
    with [!(u32)V2_CR_EN], which is 0 and not the complement of the
    run-enable bit: whatever the register held, every bit is cleared.  On
    a timer whose control register holds 0x549 (run-enable, wait-enable,
    24 MHz source) the wait-enable bit 3 is lost. *)
Theorem v2_gpt_disable_clears_every_bit :
  (∀ cpu imxtm s,
     ∃ s', run cpu (v2_gpt_disable imxtm) s = Done tt s' ∧
           reg s' (base imxtm + V2_REG_CR) = 0) ∧
  Z.testbit (reg (regs_state 0x549 0) (base bound_timer + V2_REG_CR)) 3 = true ∧
  ∃ s', run 0 (v2_gpt_disable bound_timer) (regs_state 0x549 0) = Done tt s' ∧
        Z.testbit (reg s' (base bound_timer + V2_REG_CR)) 3 = false.
Proof.
  split; [|split].
  - intros cpu imxtm s. eexists. split; [apply run_v2_gpt_disable|].
    by rewrite reg_st_writel_eq.
  - reflexivity.
  - eexists. split; [apply run_v2_gpt_disable|].
    by rewrite reg_st_writel_eq.
Qed.

(** ** Interrupt enable and disable *)

(** [v2_gpt_oc_irq_enable] and [v2_gpt_ic_irq_enable] set the bit of the
    channel and leave the other bits of the interrupt-enable register as
    they were. *)
Lemma v2_gpt_irq_enable_frame cpu imxtm s :
  icap_lock_held s = false →
  0 ≤ reg s (base imxtm + V2_REG_IR) < 2 ^ 32 →
  (∀ chan, 1 ≤ chan ≤ 3 →
     ∃ s', run cpu (v2_gpt_oc_irq_enable imxtm chan) s = Done tt s' ∧
           ∀ i, 0 ≤ i →
                Z.testbit (reg s' (base imxtm + V2_REG_IR)) i
                = (i =? oc_bit chan) || Z.testbit (reg s (base imxtm + V2_REG_IR)) i) ∧
  (∀ chan, 1 ≤ chan ≤ 2 →
     ∃ s', run cpu (v2_gpt_ic_irq_enable imxtm chan) s = Done tt s' ∧
           ∀ i, 0 ≤ i →
                Z.testbit (reg s' (base imxtm + V2_REG_IR)) i
                = (i =? ic_bit chan) || Z.testbit (reg s (base imxtm + V2_REG_IR)) i).
Proof.
  intros Hl Hv. split; intros chan Hc.
  - eexists. split; [by apply (run_irq_op cpu imxtm (OcIrqEnable chan))|].
    intros i Hi. rewrite reg_rmw_result_eq, irq_op_modify_oc_enable by done.
    rewrite u32_lor by (done || (apply pow2_u32; unfold oc_bit; lia)).
    rewrite Z.lor_spec, pow2_testbit by (unfold oc_bit; lia). apply orb_comm.
  - eexists. split; [by apply (run_irq_op cpu imxtm (IcIrqEnable chan))|].
    intros i Hi. rewrite reg_rmw_result_eq, irq_op_modify_ic_enable by done.
    rewrite u32_lor by (done || (apply pow2_u32; unfold ic_bit; lia)).
    rewrite Z.lor_spec, pow2_testbit by (unfold ic_bit; lia). apply orb_comm.
Qed.

(** C3, the [disable] half.  The mask arrays of [v2_gpt_oc_irq_disable] and
    [v2_gpt_ic_irq_disable] hold [!(u32)V2_IR_xxIE], which is 0 for every
    channel: the register is and-ed with 0 and the enable bits of all the
    channels are cleared, not only the bit of [chan]. *)
Theorem v2_gpt_irq_disable_clears_every_channel cpu imxtm s chan_oc chan_ic :
  icap_lock_held s = false →
  1 ≤ chan_oc ≤ 3 →
  1 ≤ chan_ic ≤ 2 →
  (∃ s', run cpu (v2_gpt_oc_irq_disable imxtm chan_oc) s = Done tt s' ∧
         reg s' (base imxtm + V2_REG_IR) = 0) ∧
  (∃ s', run cpu (v2_gpt_ic_irq_disable imxtm chan_ic) s = Done tt s' ∧
         reg s' (base imxtm + V2_REG_IR) = 0).
Proof.
  intros Hl Hoc Hic. split.
  - eexists. split; [by apply (run_irq_op cpu imxtm (OcIrqDisable chan_oc))|].
    by rewrite reg_rmw_result_eq, irq_op_modify_oc_disable.
  - eexists. split; [by apply (run_irq_op cpu imxtm (IcIrqDisable chan_ic))|].
    by rewrite reg_rmw_result_eq, irq_op_modify_ic_disable.
Qed.

(** With the five channel interrupts enabled (IR = 0x1f), disabling output
    compare channel 1 or input capture channel 1 leaves IR = 0. *)
Lemma v2_gpt_irq_disable_clears_every_channel_witness :
  icap_lock_held (regs_state 0 0x1f) = false ∧ 1 ≤ 1 ≤ 3 ∧ 1 ≤ 1 ≤ 2 ∧
  reg (regs_state 0 0x1f) (base bound_timer + V2_REG_IR) = 0x1f ∧
  (∃ s', run 0 (v2_gpt_oc_irq_disable bound_timer 1) (regs_state 0 0x1f)
         = Done tt s' ∧
         reg s' (base bound_timer + V2_REG_IR) = 0) ∧
  (∃ s', run 0 (v2_gpt_ic_irq_disable bound_timer 1) (regs_state 0 0x1f)
         = Done tt s' ∧
         reg s' (base bound_timer + V2_REG_IR) = 0).
Proof.
  split; [reflexivity|]. split; [lia|]. split; [lia|]. split; [reflexivity|].
  apply (v2_gpt_irq_disable_clears_every_channel 0 bound_timer
           (regs_state 0 0x1f) 1 1); [reflexivity | lia | lia].
Defined.

(** ** Setup of the control and prescaler registers *)

(** C5.  [v2_gpt_setup_tctl] writes 0 to the control register and to the
    prescaler register, then the final control value, then the prescaler:
    [V2_PR_PRE24M_DIV_8] when the rate of the peripheral clock is
    3000000 Hz and [V2_PR_PRE24M_DIV_3] for every other rate.  These four
    writes are all its register accesses. *)
Theorem v2_gpt_setup_tctl_prescaler cpu imxtm s rate :
  clk_get_rate (clk_per imxtm) = Ret rate →
  ∃ s', run cpu (v2_gpt_setup_tctl imxtm) s = Done tt s' ∧
        io_log s' =
          io_log s ++
          [ Wr (base imxtm + V2_REG_CR) 0;
            Wr (base imxtm + V2_REG_PR) 0;
            Wr (base imxtm + V2_REG_CR)
               (Z.lor (Z.lor V2_CR_WAITEN V2_CR_EN_24M) V2_CR_CLKSRC_IPG_CLK_24M);
            Wr (base imxtm + V2_REG_PR)
               (if rate =? 3000000 then V2_PR_PRE24M_DIV_8
                else V2_PR_PRE24M_DIV_3) ] ∧
        reg s' (base imxtm + V2_REG_PR) =
          (if rate =? 3000000 then V2_PR_PRE24M_DIV_8 else V2_PR_PRE24M_DIV_3) ∧
        reg s' (base imxtm + V2_REG_CR) =
          Z.lor (Z.lor V2_CR_WAITEN V2_CR_EN_24M) V2_CR_CLKSRC_IPG_CLK_24M.
Proof.
  intros Hrate. unfold v2_gpt_setup_tctl. rewrite Hrate.
  change V2_TIMER_RATE_OSC_DIV8 with 3000000. simpl.
  destruct (rate =? 3000000).
  - eexists. split; [reflexivity|]. split; [|split].
    + simpl. by rewrite <- !app_assoc.
    + by rewrite reg_st_writel_eq.
    + rewrite reg_st_writel_ne by (unfold V2_REG_PR, V2_REG_CR; lia).
      by rewrite reg_st_writel_eq.
  - eexists. split; [reflexivity|]. split; [|split].
    + simpl. by rewrite <- !app_assoc.
    + by rewrite reg_st_writel_eq.
    + rewrite reg_st_writel_ne by (unfold V2_REG_PR, V2_REG_CR; lia).
      by rewrite reg_st_writel_eq.
Qed.

(** A 3 MHz peripheral clock selects the divide-by-8 prescaler value. *)
Lemma v2_gpt_setup_tctl_prescaler_witness :
  clk_get_rate (clk_per bound_timer) = Ret 3000000 ∧
  ∃ s', run 0 (v2_gpt_setup_tctl bound_timer) boot_state = Done tt s' ∧
        io_log s' =
          io_log boot_state ++
          [ Wr (base bound_timer + V2_REG_CR) 0;
            Wr (base bound_timer + V2_REG_PR) 0;
            Wr (base bound_timer + V2_REG_CR)
               (Z.lor (Z.lor V2_CR_WAITEN V2_CR_EN_24M) V2_CR_CLKSRC_IPG_CLK_24M);
            Wr (base bound_timer + V2_REG_PR)
               (if 3000000 =? 3000000 then V2_PR_PRE24M_DIV_8
                else V2_PR_PRE24M_DIV_3) ] ∧
        reg s' (base bound_timer + V2_REG_PR) =
          (if 3000000 =? 3000000 then V2_PR_PRE24M_DIV_8 else V2_PR_PRE24M_DIV_3) ∧
        reg s' (base bound_timer + V2_REG_CR) =
          Z.lor (Z.lor V2_CR_WAITEN V2_CR_EN_24M) V2_CR_CLKSRC_IPG_CLK_24M.
Proof.
  split; [reflexivity|].
  apply (v2_gpt_setup_tctl_prescaler 0 bound_timer boot_state 3000000).
  reflexivity.
Defined.

(** ** Channel validation *)

Lemma guard_invalid n chan :
  chan = 0 ∨ chan > n → (chan >? n) || (chan =? 0) = true.
Proof.
  intros [->|H].
  - apply orb_true_r.
  - apply orb_true_iff. left. apply Z.gtb_lt. lia.
Qed.

(** C6.  With a channel index that is 0 or above the number of channels of
    its kind, every channel operation returns with the state as it was (no
    register is read or written) and without a fault; so does
    [v2_gpt_ic_setup] with a mode above [V2_IM_MODE_BOTH], whatever the
    channel. *)
Theorem invalid_channel_is_a_noop cpu imxtm s chan_oc chan_ic chan mode val :
  chan_oc = 0 ∨ chan_oc > 3 →
  chan_ic = 0 ∨ chan_ic > 2 →
  mode > 3 →
  run cpu (v2_gpt_oc_setup imxtm chan_oc val) s = Done tt s ∧
  run cpu (v2_gpt_oc_irq_enable imxtm chan_oc) s = Done tt s ∧
  run cpu (v2_gpt_oc_irq_disable imxtm chan_oc) s = Done tt s ∧
  run cpu (v2_gpt_oc_irq_acknowledge imxtm chan_oc) s = Done tt s ∧
  run cpu (v2_gpt_is_oc_irq imxtm chan_oc) s = Done false s ∧
  run cpu (v2_gpt_ic_setup imxtm chan_ic val) s = Done tt s ∧
  run cpu (v2_gpt_ic_irq_enable imxtm chan_ic) s = Done tt s ∧
  run cpu (v2_gpt_ic_irq_disable imxtm chan_ic) s = Done tt s ∧
  run cpu (v2_gpt_ic_irq_acknowledge imxtm chan_ic) s = Done tt s ∧
  run cpu (v2_gpt_is_ic_irq imxtm chan_ic) s = Done false s ∧
  run cpu (v2_gpt_ic_setup imxtm chan mode) s = Done tt s.
Proof.
  intros Hoc Hic Hmode.
  pose proof (guard_invalid 3 chan_oc Hoc) as G3.
  pose proof (guard_invalid 2 chan_ic Hic) as G2.
  assert (chan_oc = 0 ∨ chan_oc > 2) as Hoc2 by lia.
  pose proof (guard_invalid 2 chan_oc Hoc2) as G2'.
  assert ((mode >? 3) = true) as Gm by (apply Z.gtb_lt; lia).
  unfold v2_gpt_oc_setup, v2_gpt_oc_irq_enable, v2_gpt_oc_irq_disable,
    v2_gpt_oc_irq_acknowledge, v2_gpt_is_oc_irq, v2_gpt_ic_setup,
    v2_gpt_ic_irq_enable, v2_gpt_ic_irq_disable, v2_gpt_ic_irq_acknowledge,
    v2_gpt_is_ic_irq, V2_OM_NUM, V2_IM_NUM, V2_IM_MODE_BOTH.
  rewrite G3, G2, G2', Gm, orb_true_r. simpl. repeat split; reflexivity.
Qed.

(** Index 0 and index 4294967295, mode 4. *)
Lemma invalid_channel_is_a_noop_witness :
  (0 = 0 ∨ 0 > 3) ∧ (4294967295 = 0 ∨ 4294967295 > 2) ∧ (4 > 3) ∧
  run 0 (v2_gpt_oc_setup bound_timer 0 7) (regs_state 0x549 0x1f)
  = Done tt (regs_state 0x549 0x1f) ∧
  run 0 (v2_gpt_ic_irq_enable bound_timer 4294967295) (regs_state 0x549 0x1f)
  = Done tt (regs_state 0x549 0x1f) ∧
  run 0 (v2_gpt_ic_setup bound_timer 1 4) (regs_state 0x549 0x1f)
  = Done tt (regs_state 0x549 0x1f).
Proof.
  assert (H1 : 0 = 0 ∨ 0 > 3) by (left; reflexivity).
  assert (H2 : 4294967295 = 0 ∨ 4294967295 > 2) by (right; reflexivity).
  assert (H3 : 4 > 3) by reflexivity.
  pose proof (invalid_channel_is_a_noop 0 bound_timer (regs_state 0x549 0x1f)
                0 4294967295 1 4 7 H1 H2 H3) as H.
  split; [exact H1|]. split; [exact H2|]. split; [exact H3|].
  split; [apply H|]. split; apply H.
Defined.

(** ** Output compare acknowledge *)

(** Channels 1 and 2 are acknowledged by writing their status bit. *)
Lemma v2_gpt_oc_irq_acknowledge_12 cpu imxtm s :
  run cpu (v2_gpt_oc_irq_acknowledge imxtm 1) s
  = Done tt (st_writel V2_SR_OF1 (base imxtm + V2_REG_SR) s) ∧
  run cpu (v2_gpt_oc_irq_acknowledge imxtm 2) s
  = Done tt (st_writel V2_SR_OF2 (base imxtm + V2_REG_SR) s).
Proof. split; reflexivity. Qed.

(** The other output compare operations take channel 3. *)
Lemma v2_gpt_oc_channel_3 cpu imxtm s val :
  run cpu (v2_gpt_oc_setup imxtm 3 val) s
  = Done tt (st_writel val (base imxtm + V2_REG_OCR3) s) ∧
  run cpu (v2_gpt_is_oc_irq imxtm 3) s
  = Done (if Z.land (reg s (base imxtm + V2_REG_SR)) V2_SR_OF3 =? 0
          then false else true)
         (st_readl (base imxtm + V2_REG_SR) s).
Proof. split; reflexivity. Qed.

(** C7, [v2_gpt_oc_irq_acknowledge].  The guard compares the channel with
    [V2_IM_NUM] (2, the number of input capture channels) where the mask
    array has [V2_OM_NUM] (3) entries: channel 3 is rejected and nothing is
    written to the status register. *)
Theorem v2_gpt_oc_irq_acknowledge_rejects_3 cpu imxtm s :
  run cpu (v2_gpt_oc_irq_acknowledge imxtm 3) s = Done tt s.
Proof. reflexivity. Qed.

(** ** Input capture mode *)

(** C8.  For a valid channel and mode, [v2_gpt_ic_setup] ors the mode,
    shifted to the offset of the channel, into the control register: a bit
    that was set stays set. *)
Theorem v2_gpt_ic_setup_ors_mode cpu imxtm s chan mode :
  chan = 1 ∨ chan = 2 →
  0 ≤ mode ≤ 3 →
  0 ≤ reg s (base imxtm + V2_REG_CR) < 2 ^ 32 →
  ∃ s', run cpu (v2_gpt_ic_setup imxtm chan mode) s = Done tt s' ∧
        reg s' (base imxtm + V2_REG_CR)
        = Z.lor (reg s (base imxtm + V2_REG_CR))
                (Z.shiftl mode (im_mode_offset chan)) ∧
        ∀ i, Z.testbit (reg s (base imxtm + V2_REG_CR)) i = true →
             Z.testbit (reg s' (base imxtm + V2_REG_CR)) i = true.
Proof.
  intros Hc Hm Hv.
  assert (Hguard : (mode >? V2_IM_MODE_BOTH) = false).
  { unfold V2_IM_MODE_BOTH. rewrite Z.gtb_ltb. apply Z.ltb_ge. lia. }
  assert (Hrange : ∀ o, 0 ≤ o ≤ 18 → 0 ≤ Z.shiftl mode o < 2 ^ 32).
  { intros o Ho. rewrite Z.shiftl_mul_pow2 by lia.
    assert (0 < 2 ^ o) by (apply Z.pow_pos_nonneg; lia).
    assert (2 ^ o ≤ 2 ^ 18) by (apply Z.pow_le_mono_r; lia).
    change (2 ^ 18) with 262144 in *. change (2 ^ 32) with 4294967296.
    nia. }
  assert (Hsh : ∀ o, 0 ≤ o ≤ 18 → shl32 mode o = Z.shiftl mode o).
  { intros o Ho. unfold shl32. apply u32_small, Hrange, Ho. }
  assert (∃ s', run cpu (v2_gpt_ic_setup imxtm chan mode) s = Done tt s' ∧
                reg s' (base imxtm + V2_REG_CR)
                = Z.lor (reg s (base imxtm + V2_REG_CR))
                    (Z.shiftl mode (im_mode_offset chan))) as (s' & Hrun & Hreg).
  { destruct Hc as [-> | ->]; unfold v2_gpt_ic_setup; rewrite Hguard; simpl;
      (eexists; split; [reflexivity|]); rewrite reg_st_writel_eq.
    - change (im_mode_offset 1) with 16. change V2_IM1_MODE_OFFSET with 16.
      rewrite Hsh by lia. apply u32_lor; [done | apply Hrange; lia].
    - change (im_mode_offset 2) with 18. change V2_IM2_MODE_OFFSET with 18.
      rewrite Hsh by lia. apply u32_lor; [done | apply Hrange; lia]. }
  exists s'. split; [done|]. split; [done|].
  intros i Hi. rewrite Hreg, Z.lor_spec, Hi. reflexivity.
Qed.

(** Channel 1 already in rising-edge mode (bit 16), set up for falling
    edge (mode 2): both mode bits are set afterwards. *)
Lemma v2_gpt_ic_setup_ors_mode_witness :
  (1 = 1 ∨ 1 = 2) ∧ 0 ≤ 2 ≤ 3 ∧
  0 ≤ reg (regs_state 0x10549 0) (base bound_timer + V2_REG_CR) < 2 ^ 32 ∧
  ∃ s', run 0 (v2_gpt_ic_setup bound_timer 1 2) (regs_state 0x10549 0)
        = Done tt s' ∧
        reg s' (base bound_timer + V2_REG_CR)
        = Z.lor (reg (regs_state 0x10549 0) (base bound_timer + V2_REG_CR))
                (Z.shiftl 2 (im_mode_offset 1)) ∧
        ∀ i, Z.testbit (reg (regs_state 0x10549 0)
                          (base bound_timer + V2_REG_CR)) i = true →
             Z.testbit (reg s' (base bound_timer + V2_REG_CR)) i = true.
Proof.
  assert (H1 : 1 = 1 ∨ 1 = 2) by (left; reflexivity).
  assert (H2 : 0 ≤ 2 ≤ 3) by (split; discriminate).
  assert (H3 : 0 ≤ reg (regs_state 0x10549 0) (base bound_timer + V2_REG_CR) < 2 ^ 32)
    by (split; [discriminate | reflexivity]).
  split; [exact H1|]. split; [exact H2|]. split; [exact H3|].
  exact (v2_gpt_ic_setup_ors_mode 0 bound_timer (regs_state 0x10549 0) 1 2 H1 H2 H3).
Defined.

(** ** The initialisation sequence *)

(** With the latch set the probe returns at once. *)
Lemma probe_latched cpu pdev s :
  initialized s ≠ 0 → run cpu (gpt_probe pdev) s = Done 0 s.
Proof.
  intros H. unfold gpt_probe. cbn [mbind prog_mbind prog_bind call run handle].
  apply Z.eqb_neq in H. rewrite H. reflexivity.
Qed.

(** The three compatible strings of [gpt_of_match] all select
    [v2_gpt_data]. *)
Lemma of_device_get_match_data_matched pdev :
  In (compatible (dev_of_node pdev)) (map fst gpt_of_match) →
  of_device_get_match_data pdev = Some v2_gpt_data.
Proof.
  unfold of_device_get_match_data. simpl.
  intros [<-|[<-|[<-|[]]]]; reflexivity.
Qed.

Lemma gpt_setup_matched imxtm pdev :
  In (compatible (dev_of_node pdev)) (map fst gpt_of_match) →
  gpt_setup imxtm pdev =
  (v2_gpt_setup_tctl imxtm;;
   v2_gpt_oc_setup imxtm 1 0xFFFFFFFF;;
   v2_gpt_ic_setup imxtm 1 V2_IM_MODE_BOTH;;
   v2_gpt_ic_irq_enable imxtm 1;;
   v2_gpt_enable imxtm;;
   Ret 0).
Proof.
  intros H. unfold gpt_setup. rewrite (of_device_get_match_data_matched _ H).
  reflexivity.
Qed.

Lemma run_v2_gpt_setup_tctl cpu imxtm s rate :
  clk_get_rate (clk_per imxtm) = Ret rate →
  run cpu (v2_gpt_setup_tctl imxtm) s =
  Done tt
    (st_writel (if rate =? 3000000 then V2_PR_PRE24M_DIV_8 else V2_PR_PRE24M_DIV_3)
       (base imxtm + V2_REG_PR)
       (st_writel (Z.lor (Z.lor V2_CR_WAITEN V2_CR_EN_24M) V2_CR_CLKSRC_IPG_CLK_24M)
          (base imxtm + V2_REG_CR)
          (st_writel 0 (base imxtm + V2_REG_PR)
             (st_writel 0 (base imxtm + V2_REG_CR) s)))).
Proof.
  intros Hrate. unfold v2_gpt_setup_tctl. rewrite Hrate.
  change V2_TIMER_RATE_OSC_DIV8 with 3000000. simpl.
  destruct (rate =? 3000000); reflexivity.
Qed.

Lemma run_v2_gpt_oc_setup_1 cpu imxtm s val :
  run cpu (v2_gpt_oc_setup imxtm 1 val) s
  = Done tt (st_writel val (base imxtm + V2_REG_OCR1) s).
Proof. reflexivity. Qed.

Lemma run_v2_gpt_ic_setup_1 cpu imxtm s mode :
  (mode >? V2_IM_MODE_BOTH) = false →
  run cpu (v2_gpt_ic_setup imxtm 1 mode) s
  = Done tt (st_writel (Z.lor (reg s (base imxtm + V2_REG_CR))
                          (shl32 mode V2_IM1_MODE_OFFSET))
               (base imxtm + V2_REG_CR) (st_readl (base imxtm + V2_REG_CR) s)).
Proof. intros H. unfold v2_gpt_ic_setup. rewrite H. reflexivity. Qed.

Lemma io_log_rmw_result cpu a f s :
  io_log (rmw_result cpu a f s)
  = io_log s ++ [Rd a (reg s a); Wr a (u32 (f (reg s a)))].
Proof. unfold rmw_result. simpl. by rewrite <- app_assoc. Qed.

(** Register offsets of the block are pairwise distinct. *)
Ltac offsets :=
  unfold V2_REG_CR, V2_REG_PR, V2_REG_SR, V2_REG_IR, V2_REG_OCR1,
    V2_REG_OCR2, V2_REG_OCR3, V2_REG_ICR1, V2_REG_ICR2, V2_REG_CNT; lia.

(** What [gpt_setup] leaves on a matched device: the five operations ran
    in source order; the log lists their register accesses. *)
Lemma gpt_setup_run cpu imxtm pdev t :
  IS_ERR (clk_per imxtm) = false →
  icap_lock_held t = false →
  In (compatible (dev_of_node pdev)) (map fst gpt_of_match) →
  ∃ t' pr,
    run cpu (gpt_setup imxtm pdev) t = Done 0 t' ∧
    (pr = V2_PR_PRE24M_DIV_8 ∨ pr = V2_PR_PRE24M_DIV_3) ∧
    io_log t' =
      io_log t ++
      [ Wr (base imxtm + V2_REG_CR) 0;
        Wr (base imxtm + V2_REG_PR) 0;
        Wr (base imxtm + V2_REG_CR) 0x548;
        Wr (base imxtm + V2_REG_PR) pr;
        Wr (base imxtm + V2_REG_OCR1) 0xFFFFFFFF;
        Rd (base imxtm + V2_REG_CR) 0x548;
        Wr (base imxtm + V2_REG_CR) 0x30548;
        Rd (base imxtm + V2_REG_IR) (reg t (base imxtm + V2_REG_IR));
        Wr (base imxtm + V2_REG_IR)
           (u32 (Z.lor (reg t (base imxtm + V2_REG_IR)) V2_IR_IF1IE));
        Rd (base imxtm + V2_REG_CR) 0x30548;
        Wr (base imxtm + V2_REG_CR) 0x30549 ] ∧
    reg t' (base imxtm + V2_REG_CR) = 0x30549 ∧
    reg t' (base imxtm + V2_REG_OCR1) = 0xFFFFFFFF ∧
    reg t' (base imxtm + V2_REG_IR)
    = u32 (Z.lor (reg t (base imxtm + V2_REG_IR)) V2_IR_IF1IE) ∧
    initialized t' = initialized t ∧
    icap_lock_held t' = false ∧
    kobjs t' = kobjs t ∧ iomaps t' = iomaps t ∧ virqs t' = virqs t.
Proof.
  intros Hclk Hlock Hm. rewrite (gpt_setup_matched _ _ Hm).
  assert (∃ rate, clk_get_rate (clk_per imxtm) = Ret rate) as [rate Hrate].
  { destruct (clk_per imxtm); [by eexists..|discriminate]. }
  set (cr := base imxtm + V2_REG_CR). set (ir := base imxtm + V2_REG_IR).
  set (oc := base imxtm + V2_REG_OCR1).
  assert (Hci : cr ≠ ir) by (subst cr ir; offsets).
  assert (Hco : cr ≠ oc) by (subst cr oc; offsets).
  assert (Hio : ir ≠ oc) by (subst ir oc; offsets).
  assert (Hcp : base imxtm + V2_REG_PR ≠ cr) by (subst cr; offsets).
  assert (Hip : base imxtm + V2_REG_PR ≠ ir) by (subst ir; offsets).
  (* setup *)
  rewrite run_bind, (run_v2_gpt_setup_tctl _ _ _ _ Hrate). fold cr.
  set (pr := if rate =? 3000000 then V2_PR_PRE24M_DIV_8 else V2_PR_PRE24M_DIV_3).
  assert (Hpr : pr = V2_PR_PRE24M_DIV_8 ∨ pr = V2_PR_PRE24M_DIV_3).
  { subst pr. destruct (rate =? 3000000); [by left | by right]. }
  assert (Hpr32 : u32 pr = pr) by (destruct Hpr as [-> | ->]; reflexivity).
  set (t1 := st_writel pr _ _).
  assert (C1 : reg t1 cr = 0x548).
  { subst t1. rewrite reg_st_writel_ne, reg_st_writel_eq by done. reflexivity. }
  assert (I1 : reg t1 ir = reg t ir).
  { subst t1. by rewrite !reg_st_writel_ne by (done || by apply not_eq_sym). }
  assert (L1 : io_log t1 = io_log t ++
                [Wr cr 0; Wr (base imxtm + V2_REG_PR) 0; Wr cr 0x548;
                 Wr (base imxtm + V2_REG_PR) pr]).
  { subst t1. rewrite !io_log_st_writel, Hpr32, <- !app_assoc. reflexivity. }
  (* oc_setup (1, 0xFFFFFFFF) *)
  rewrite run_bind, run_v2_gpt_oc_setup_1. fold oc.
  set (t2 := st_writel _ oc t1).
  assert (C2 : reg t2 cr = 0x548).
  { subst t2. rewrite reg_st_writel_ne by by apply not_eq_sym. exact C1. }
  assert (I2 : reg t2 ir = reg t ir).
  { subst t2. rewrite reg_st_writel_ne by by apply not_eq_sym. exact I1. }
  assert (O2 : reg t2 oc = 0xFFFFFFFF).
  { subst t2. rewrite reg_st_writel_eq. reflexivity. }
  assert (L2 : io_log t2 = io_log t1 ++ [Wr oc 0xFFFFFFFF]) by reflexivity.
  (* ic_setup (1, Both) *)
  rewrite run_bind, run_v2_gpt_ic_setup_1 by reflexivity. fold cr. rewrite C2.
  set (t3 := st_writel _ cr _).
  assert (C3 : reg t3 cr = 0x30548).
  { subst t3. rewrite reg_st_writel_eq. reflexivity. }
  assert (I3 : reg t3 ir = reg t ir).
  { subst t3. rewrite reg_st_writel_ne, reg_st_readl by done. exact I2. }
  assert (O3 : reg t3 oc = 0xFFFFFFFF).
  { subst t3. rewrite reg_st_writel_ne, reg_st_readl by done. exact O2. }
  assert (L3 : io_log t3 = io_log t2 ++ [Rd cr 0x548; Wr cr 0x30548]).
  { subst t3. rewrite io_log_st_writel, io_log_st_readl, C2, <- app_assoc.
    reflexivity. }
  (* ic_irq_enable (1) *)
  rewrite run_bind, (run_irq_op cpu imxtm (IcIrqEnable 1))
    by (done || (simpl; lia)). fold ir.
  set (t4 := rmw_result _ ir _ t3).
  assert (C4 : reg t4 cr = 0x30548).
  { subst t4. rewrite reg_rmw_result_ne by by apply not_eq_sym. exact C3. }
  assert (I4 : reg t4 ir = u32 (Z.lor (reg t ir) V2_IR_IF1IE)).
  { subst t4. rewrite reg_rmw_result_eq, I3. reflexivity. }
  assert (O4 : reg t4 oc = 0xFFFFFFFF).
  { subst t4. rewrite reg_rmw_result_ne by done. exact O3. }
  assert (L4 : io_log t4 = io_log t3 ++
                [Rd ir (reg t ir); Wr ir (u32 (Z.lor (reg t ir) V2_IR_IF1IE))]).
  { subst t4. rewrite io_log_rmw_result, I3. reflexivity. }
  (* enable *)
  rewrite run_bind, run_v2_gpt_enable. fold cr. rewrite C4.
  set (t5 := st_writel _ cr _).
  exists t5, pr. split; [reflexivity|]. split; [exact Hpr|].
  split; [|split; [|split; [|split]]].
  - subst t5. rewrite io_log_st_writel, io_log_st_readl, C4, L4, L3, L2, L1.
    rewrite <- !app_assoc. reflexivity.
  - subst t5. rewrite reg_st_writel_eq. reflexivity.
  - subst t5. rewrite reg_st_writel_ne, reg_st_readl by done. exact O4.
  - subst t5. rewrite reg_st_writel_ne, reg_st_readl by done. exact I4.
  - repeat split; reflexivity.
Qed.

Lemma s32_0 : s32 0 = 0.
Proof. reflexivity. Qed.

(** Evaluation of [gpt_probe] up to its next test. *)
Ltac probe_step :=
  cbn -[gpt_setup s32 clk_lookup Z.eqb Z.leb filter PTR_ERR].

(** The part of [gpt_probe] before [gpt_setup], when every resource is
    there: the timer object it builds and the state it reaches. *)
Lemma gpt_probe_acquire cpu pdev s p rest :
  initialized s = 0 →
  slab s = p :: rest →
  p ≠ 0 →
  reg0 (dev_of_node pdev) ≠ 0 →
  0 < s32 (interrupt0 (dev_of_node pdev)) →
  IS_ERR (clk_lookup (dev_of_node pdev) "ipg") = false →
  IS_ERR (clk_lookup (dev_of_node pdev) "osc_per") = false ∨
  IS_ERR (clk_lookup (dev_of_node pdev) "per") = false →
  ∃ imxtm t,
    run cpu (gpt_probe pdev) s =
      match run cpu (gpt_setup imxtm pdev) t with
      | Done ret t' =>
          if negb (ret =? 0) then Done ret t' else Done 0 (upd_initialized 1 t')
      | Fault t' => Fault t'
      | Deadlock t' => Deadlock t'
      end ∧
    base imxtm = reg0 (dev_of_node pdev) ∧
    IS_ERR (clk_per imxtm) = false ∧
    iomem t = iomem s ∧ io_log t = io_log s ∧
    icap_lock_held t = icap_lock_held s.
Proof.
  intros Hinit Hslab Hp Hreg Hirq Hipg Hper.
  assert (Hirq0 : (interrupt0 (dev_of_node pdev) =? 0) = false).
  { apply Z.eqb_neq. intros E. rewrite E, s32_0 in Hirq. lia. }
  assert (Hirq1 : (s32 (interrupt0 (dev_of_node pdev)) <=? 0) = false)
    by (apply Z.leb_gt; exact Hirq).
  apply Z.eqb_neq in Hp, Hreg.
  unfold gpt_probe.
  probe_step.
  rewrite Hinit. change (0 =? 0) with true.
  probe_step.
  rewrite Hslab. probe_step.
  rewrite Hp. probe_step.
  rewrite Hreg. probe_step.
  rewrite Hirq0, Hirq1. probe_step.
  destruct (clk_lookup (dev_of_node pdev) "ipg") as [|ai ci|ei] eqn:Eipg;
    try discriminate Hipg;
    destruct (clk_lookup (dev_of_node pdev) "osc_per") as [|ao co|eo] eqn:Eosc;
    probe_step;
    try (destruct Hper as [Hper|Hper]; [discriminate Hper|];
         destruct (clk_lookup (dev_of_node pdev) "per") as [|ap cp|ep] eqn:Eper;
         try discriminate Hper;
         probe_step);
    rewrite run_bind;
    match goal with
    | |- context [run cpu (gpt_setup ?i pdev) ?t] =>
        exists i, t; split;
        [ destruct (run cpu (gpt_setup i pdev) t) as [ret t'| |];
          [destruct (negb (ret =? 0))|..]; reflexivity
        | repeat split; reflexivity ]
    end.
Qed.

(** ** Probe *)

(** C1.  On a matched device whose resources are all there, with the latch
    clear, [gpt_probe] returns 0 after running, through the operation
    table, setup, oc_setup (1, 0xFFFFFFFF), ic_setup (1, Both),
    ic_irq_enable (1) and enable in this order (the log lists exactly their
    register accesses).  It leaves the run-enable bit set, the compare
    register of output compare channel 1 at 0xFFFFFFFF, the mode field of
    input capture channel 1 at Both, the interrupt-enable bit of input
    capture channel 1 set, and the latch set; from then on every probe
    returns 0 and leaves the whole state, so also the registers and the
    log, as it was. *)
Theorem gpt_probe_runs_sequence_once cpu pdev s p rest :
  initialized s = 0 →
  icap_lock_held s = false →
  In (compatible (dev_of_node pdev)) (map fst gpt_of_match) →
  slab s = p :: rest →
  p ≠ 0 →
  reg0 (dev_of_node pdev) ≠ 0 →
  0 < s32 (interrupt0 (dev_of_node pdev)) →
  IS_ERR (clk_lookup (dev_of_node pdev) "ipg") = false →
  IS_ERR (clk_lookup (dev_of_node pdev) "osc_per") = false ∨
  IS_ERR (clk_lookup (dev_of_node pdev) "per") = false →
  (∀ imxtm,
     gpt_setup imxtm pdev =
     (v2_gpt_setup_tctl imxtm;;
      v2_gpt_oc_setup imxtm 1 0xFFFFFFFF;;
      v2_gpt_ic_setup imxtm 1 V2_IM_MODE_BOTH;;
      v2_gpt_ic_irq_enable imxtm 1;;
      v2_gpt_enable imxtm;;
      Ret 0)) ∧
  ∃ s' pr,
    run cpu (gpt_probe pdev) s = Done 0 s' ∧
    (pr = V2_PR_PRE24M_DIV_8 ∨ pr = V2_PR_PRE24M_DIV_3) ∧
    io_log s' =
      io_log s ++
      [ (* setup *)
        Wr (reg0 (dev_of_node pdev) + V2_REG_CR) 0;
        Wr (reg0 (dev_of_node pdev) + V2_REG_PR) 0;
        Wr (reg0 (dev_of_node pdev) + V2_REG_CR) 0x548;
        Wr (reg0 (dev_of_node pdev) + V2_REG_PR) pr;
        (* oc_setup (1, 0xFFFFFFFF) *)
        Wr (reg0 (dev_of_node pdev) + V2_REG_OCR1) 0xFFFFFFFF;
        (* ic_setup (1, Both) *)
        Rd (reg0 (dev_of_node pdev) + V2_REG_CR) 0x548;
        Wr (reg0 (dev_of_node pdev) + V2_REG_CR) 0x30548;
        (* ic_irq_enable (1) *)
        Rd (reg0 (dev_of_node pdev) + V2_REG_IR)
           (reg s (reg0 (dev_of_node pdev) + V2_REG_IR));
        Wr (reg0 (dev_of_node pdev) + V2_REG_IR)
           (u32 (Z.lor (reg s (reg0 (dev_of_node pdev) + V2_REG_IR)) V2_IR_IF1IE));
        (* enable *)
        Rd (reg0 (dev_of_node pdev) + V2_REG_CR) 0x30548;
        Wr (reg0 (dev_of_node pdev) + V2_REG_CR) 0x30549 ] ∧
    Z.testbit (reg s' (reg0 (dev_of_node pdev) + V2_REG_CR)) 0 = true ∧
    reg s' (reg0 (dev_of_node pdev) + V2_REG_OCR1) = 0xFFFFFFFF ∧
    Z.land (Z.shiftr (reg s' (reg0 (dev_of_node pdev) + V2_REG_CR))
                     V2_IM1_MODE_OFFSET) 3 = V2_IM_MODE_BOTH ∧
    Z.testbit (reg s' (reg0 (dev_of_node pdev) + V2_REG_IR)) 3 = true ∧
    initialized s' = 1 ∧
    ∀ cpu' pdev', run cpu' (gpt_probe pdev') s' = Done 0 s'.
Proof.
  intros Hinit Hlock Hm Hslab Hp Hreg Hirq Hipg Hper.
  split; [intros imxtm; by apply gpt_setup_matched|].
  destruct (gpt_probe_acquire cpu pdev s p rest Hinit Hslab Hp Hreg Hirq Hipg Hper)
    as (imxtm & t & Hrun & Hbase & Hclk & Hmem & Hlog & Hl).
  rewrite Hlock in Hl.
  destruct (gpt_setup_run cpu imxtm pdev t Hclk Hl Hm)
    as (t' & pr & Hset & Hpr & Hlog' & Hcr & Hoc & Hir & Hini & _).
  rewrite Hset in Hrun. cbv beta iota in Hrun.
  change (negb (0 =? 0)) with false in Hrun. cbv iota in Hrun.
  rewrite Hbase in Hlog', Hcr, Hoc, Hir.
  assert (Hregs : ∀ a, reg t a = reg s a) by (intros a; unfold reg; by rewrite Hmem).
  rewrite Hregs in Hlog', Hir. rewrite Hlog in Hlog'.
  exists (upd_initialized 1 t'), pr.
  split; [exact Hrun|]. split; [exact Hpr|]. split; [exact Hlog'|].
  assert (Hupd : ∀ a, reg (upd_initialized 1 t') a = reg t' a) by reflexivity.
  rewrite !Hupd, Hcr, Hoc, Hir.
  split; [reflexivity|]. split; [reflexivity|]. split; [reflexivity|].
  split; [|split; [reflexivity|]].
  - rewrite u32_testbit, Z.lor_spec by lia.
    unfold V2_IR_IF1IE. rewrite pow2_testbit by lia.
    change (3 =? 3) with true. change (3 <? 32) with true.
    by rewrite orb_true_r.
  - intros cpu' pdev'. by apply probe_latched.
Qed.

(** The i.MX8MM timer node, probed from the boot state. *)
Lemma gpt_probe_runs_sequence_once_witness :
  initialized boot_state = 0 ∧
  icap_lock_held boot_state = false ∧
  In (compatible (dev_of_node imx8mm_gpt)) (map fst gpt_of_match) ∧
  slab boot_state = [0x8000] ∧
  reg0 (dev_of_node imx8mm_gpt) ≠ 0 ∧
  0 < s32 (interrupt0 (dev_of_node imx8mm_gpt)) ∧
  IS_ERR (clk_lookup (dev_of_node imx8mm_gpt) "ipg") = false ∧
  IS_ERR (clk_lookup (dev_of_node imx8mm_gpt) "per") = false ∧
  ∃ s', run 0 (gpt_probe imx8mm_gpt) boot_state = Done 0 s' ∧
        reg s' (0x1000 + V2_REG_CR) = 0x30549 ∧
        reg s' (0x1000 + V2_REG_OCR1) = 0xFFFFFFFF ∧
        reg s' (0x1000 + V2_REG_IR) = 8 ∧
        run 1 (gpt_probe imx8mm_gpt) s' = Done 0 s'.
Proof.
  assert (H1 : initialized boot_state = 0) by reflexivity.
  assert (H2 : icap_lock_held boot_state = false) by reflexivity.
  assert (H3 : In (compatible (dev_of_node imx8mm_gpt)) (map fst gpt_of_match))
    by (right; left; reflexivity).
  assert (H4 : slab boot_state = [0x8000]) by reflexivity.
  assert (H5 : 0x8000 ≠ 0) by discriminate.
  assert (H6 : reg0 (dev_of_node imx8mm_gpt) ≠ 0) by discriminate.
  assert (H7 : 0 < s32 (interrupt0 (dev_of_node imx8mm_gpt))) by reflexivity.
  assert (H8 : IS_ERR (clk_lookup (dev_of_node imx8mm_gpt) "ipg") = false)
    by reflexivity.
  assert (H9 : IS_ERR (clk_lookup (dev_of_node imx8mm_gpt) "per") = false)
    by reflexivity.
  repeat (split; [assumption|]).
  destruct (gpt_probe_runs_sequence_once 0 imx8mm_gpt boot_state 0x8000 []
              H1 H2 H3 H4 H5 H6 H7 H8 (or_intror H9))
    as (_ & s' & pr & Hrun & _ & _ & _ & Hoc & _ & _ & _ & Hagain).
  exists s'. split; [exact Hrun|].
  assert (Hs' : Done 0 s' = run 0 (gpt_probe imx8mm_gpt) boot_state)
    by (symmetry; exact Hrun).
  vm_compute in Hs'. injection Hs' as ->.
  split; [reflexivity|]. split; [reflexivity|]. split; [reflexivity|].
  apply Hagain.
Defined.

Lemma filter_ne_fresh (p : Z) (l : list Z) :
  p ∉ l → filter (λ q, q ≠ p) (p :: l) = l.
Proof.
  intros Hp. rewrite filter_cons_False by (intros H; by apply H).
  induction l as [|x l IH]; [done|].
  apply not_elem_of_cons in Hp as [Hx Hl].
  rewrite filter_cons_True by (by apply not_eq_sym). by rewrite IH.
Qed.

(** C9, as amended.  The two mapping-failure exits of [gpt_probe] free the
    timer object and return an errno: -ENXIO when the register block
    cannot be mapped, -EINVAL when there is no interrupt, the register
    block then staying mapped.  When neither "osc_per" nor "per" names a
    clock the probe returns the error of the "per" lookup, the register
    block and the interrupt staying mapped.  The driver has no unmapping
    anywhere. *)
Theorem gpt_probe_failure_exits cpu pdev s p rest :
  initialized s = 0 →
  slab s = p :: rest →
  p ≠ 0 →
  p ∉ kobjs s →
  (reg0 (dev_of_node pdev) = 0 →
   ∃ s', run cpu (gpt_probe pdev) s = Done (- ENXIO) s' ∧
         kobjs s' = kobjs s ∧ iomaps s' = iomaps s ∧ virqs s' = virqs s) ∧
  (reg0 (dev_of_node pdev) ≠ 0 →
   s32 (interrupt0 (dev_of_node pdev)) ≤ 0 →
   ∃ s', run cpu (gpt_probe pdev) s = Done (- EINVAL) s' ∧
         kobjs s' = kobjs s ∧
         iomaps s' = reg0 (dev_of_node pdev) :: iomaps s) ∧
  (reg0 (dev_of_node pdev) ≠ 0 →
   0 < s32 (interrupt0 (dev_of_node pdev)) →
   IS_ERR (clk_lookup (dev_of_node pdev) "osc_per") = true →
   IS_ERR (clk_lookup (dev_of_node pdev) "per") = true →
   ∃ s', run cpu (gpt_probe pdev) s
         = Done (s32 (PTR_ERR (clk_lookup (dev_of_node pdev) "per"))) s' ∧
         iomaps s' = reg0 (dev_of_node pdev) :: iomaps s ∧
         virqs s' = interrupt0 (dev_of_node pdev) :: virqs s).
Proof.
  intros Hinit Hslab Hp Hfresh. apply Z.eqb_neq in Hp.
  split; [|split].
  - intros Hreg. unfold gpt_probe. probe_step.
    rewrite Hinit. change (0 =? 0) with true. probe_step.
    rewrite Hslab. probe_step. rewrite Hp. probe_step.
    rewrite Hreg. change (0 =? 0) with true. probe_step.
    eexists. split; [reflexivity|]. simpl.
    split; [by apply filter_ne_fresh | by split].
  - intros Hreg Hirq. apply Z.eqb_neq in Hreg. apply Z.leb_le in Hirq.
    unfold gpt_probe. probe_step.
    rewrite Hinit. change (0 =? 0) with true. probe_step.
    rewrite Hslab. probe_step. rewrite Hp. probe_step.
    rewrite Hreg. probe_step. rewrite Hirq. probe_step.
    eexists. split; [reflexivity|].
    destruct (interrupt0 (dev_of_node pdev) =? 0); simpl;
      (split; [by apply filter_ne_fresh | reflexivity]).
  - intros Hreg Hirq Hosc Hper.
    assert (Hirq0 : (interrupt0 (dev_of_node pdev) =? 0) = false).
    { apply Z.eqb_neq. intros E. rewrite E, s32_0 in Hirq. lia. }
    apply Z.eqb_neq in Hreg. apply Z.leb_gt in Hirq.
    unfold gpt_probe. probe_step.
    rewrite Hinit. change (0 =? 0) with true. probe_step.
    rewrite Hslab. probe_step. rewrite Hp. probe_step.
    rewrite Hreg. probe_step. rewrite Hirq, Hirq0. probe_step.
    destruct (clk_lookup (dev_of_node pdev) "osc_per") as [|ao co|eo];
      try discriminate Hosc. probe_step.
    destruct (clk_lookup (dev_of_node pdev) "per") as [|ap cp|ep];
      try discriminate Hper. probe_step.
    eexists. split; [reflexivity|]. by split.
Qed.

(** A node without an interrupt: the probe returns -EINVAL, the timer
    object is freed, the register block stays mapped. *)
Lemma gpt_probe_failure_exits_witness :
  initialized boot_state = 0 ∧
  slab boot_state = [0x8000] ∧
  reg0 gpt_node_no_irq ≠ 0 ∧
  s32 (interrupt0 gpt_node_no_irq) ≤ 0 ∧
  ∃ s', run 0 (gpt_probe {| dev_of_node := gpt_node_no_irq |}) boot_state
        = Done (- EINVAL) s' ∧
        kobjs s' = [] ∧ iomaps s' = [0x1000].
Proof.
  assert (H1 : initialized boot_state = 0) by reflexivity.
  assert (H2 : slab boot_state = [0x8000]) by reflexivity.
  assert (H3 : 0x8000 ≠ 0) by discriminate.
  assert (H4 : 0x8000 ∉ kobjs boot_state) by apply not_elem_of_nil.
  assert (H5 : reg0 gpt_node_no_irq ≠ 0) by discriminate.
  assert (H6 : s32 (interrupt0 gpt_node_no_irq) ≤ 0) by discriminate.
  split; [exact H1|]. split; [exact H2|]. split; [exact H5|]. split; [exact H6|].
  destruct (gpt_probe_failure_exits 0 {| dev_of_node := gpt_node_no_irq |}
              boot_state 0x8000 [] H1 H2 H3 H4) as (_ & Hirq & _).
  exact (Hirq H5 H6).
Defined.

(** C9, as stated, fails: after the probe of a node without an interrupt
    the register block mapped earlier on that path is still mapped. *)
Lemma gpt_probe_irq_failure_keeps_mapping :
  ¬ (∀ ret s',
       run 0 (gpt_probe {| dev_of_node := gpt_node_no_irq |}) boot_state
       = Done ret s' →
       ret < 0 ∧ kobjs s' = kobjs boot_state ∧
       iomaps s' = iomaps boot_state ∧ virqs s' = virqs boot_state).
Proof.
  intros H.
  assert (∃ s', run 0 (gpt_probe {| dev_of_node := gpt_node_no_irq |}) boot_state
                = Done (- EINVAL) s' ∧ iomaps s' = [0x1000]) as (s' & Hrun & Hmap).
  { eexists. split; [vm_compute; reflexivity | reflexivity]. }
  destruct (H _ _ Hrun) as (_ & _ & Hrel & _).
  rewrite Hmap in Hrel. discriminate Hrel.
Qed.

(** Without clocks the probe returns -ENOENT and nothing it acquired is
    released, the timer object included; this exit has no [kfree].  When
    only the "ipg" clock is missing the value returned is [PTR_ERR] of the
    valid peripheral clock pointer. *)
Lemma gpt_probe_clock_failure_exit :
  (∃ s', run 0 (gpt_probe {| dev_of_node := gpt_node_no_clocks |}) boot_state
         = Done (- ENOENT) s' ∧
         kobjs s' = [0x8000] ∧ iomaps s' = [0x1000] ∧ virqs s' = [55]) ∧
  (∃ s', run 0 (gpt_probe {| dev_of_node := gpt_node_no_ipg |}) boot_state
         = Done 0x2040 s' ∧
         kobjs s' = [0x8000] ∧ iomaps s' = [0x1000] ∧ virqs s' = [55] ∧
         initialized s' = 0 ∧ io_log s' = []).
Proof.
  split; eexists; (split; [vm_compute; reflexivity|]);
    repeat split; reflexivity.
Qed.

(** ** The operation table *)

(** The members that [v2_gpt_data] binds, each to the V2 function of the
    same name. *)
Lemma v2_gpt_data_bound_members :
  gpt_setup_tctl v2_gpt_data = Some v2_gpt_setup_tctl ∧
  gpt_enable v2_gpt_data = Some v2_gpt_enable ∧
  gpt_disable v2_gpt_data = Some v2_gpt_disable ∧
  gpt_irq_acknowledge v2_gpt_data = Some v2_gpt_irq_acknowledge ∧
  gpt_is_rollover v2_gpt_data = Some v2_gpt_is_rollover ∧
  gpt_oc_setup v2_gpt_data = Some v2_gpt_oc_setup ∧
  gpt_oc_irq_enable v2_gpt_data = Some v2_gpt_oc_irq_enable ∧
  gpt_oc_irq_disable v2_gpt_data = Some v2_gpt_oc_irq_disable ∧
  gpt_oc_irq_acknowledge v2_gpt_data = Some v2_gpt_oc_irq_acknowledge ∧
  gpt_ic_setup v2_gpt_data = Some v2_gpt_ic_setup ∧
  gpt_ic_irq_enable v2_gpt_data = Some v2_gpt_ic_irq_enable ∧
  gpt_ic_irq_disable v2_gpt_data = Some v2_gpt_ic_irq_disable ∧
  gpt_ic_irq_acknowledge v2_gpt_data = Some v2_gpt_ic_irq_acknowledge ∧
  gpt_is_ic_irq v2_gpt_data = Some v2_gpt_is_ic_irq.
Proof. repeat split; reflexivity. Qed.

(** C4.  The initializer of [v2_gpt_data] names [gpt_is_ic_irq] twice (the
    first time with [v2_gpt_is_oc_irq]) and [gpt_is_oc_irq] never: that
    member is NULL and a call through it faults. *)
Theorem v2_gpt_data_is_oc_irq_null :
  gpt_is_oc_irq v2_gpt_data = None ∧
  gpt_is_ic_irq v2_gpt_data = Some v2_gpt_is_ic_irq ∧
  ∀ cpu imxtm chan s,
    run cpu (f ← member (Some v2_gpt_data) gpt_is_oc_irq; f imxtm chan) s
    = Fault s.
Proof. repeat split; reflexivity. Qed.

(** ** Two contexts on the interrupt-enable register *)

Section locked_rmw.

(** The register the two contexts update, and the state they start from. *)
Context (a : Z) (s0 : kstate).

Lemma step_rmw_code cpu f pt s p' s' :
  step_ctx cpu (rmw_code a f pt) s = Some (p', s') →
  ∃ pt', p' = rmw_code a f pt' ∧ rmw_next cpu a f pt s pt' s'.
Proof.
  destruct pt as [|fl|fl v|fl|]; simpl.
  - destruct (icap_lock_held s) eqn:Hl; [discriminate|].
    intros [= <- <-]. exists (AtRead (bool_decide (cpu ∉ irq_off s))).
    split; [reflexivity|]. by constructor.
  - intros [= <- <-]. exists (AtWrite fl (reg s a)).
    split; [reflexivity|]. constructor.
  - intros [= <- <-]. exists (AtUnlock fl). split; [reflexivity|]. constructor.
  - intros [= <- <-]. exists AtEnd. split; [reflexivity|]. constructor.
  - discriminate.
Qed.

Lemma rmw_next_step cpu f pt s pt' s' :
  rmw_next cpu a f pt s pt' s' →
  step_ctx cpu (rmw_code a f pt) s = Some (rmw_code a f pt', s').
Proof.
  intros H. destruct H as [s Hl|fl s|fl v s|fl s]; simpl; [by rewrite Hl|done..].
Qed.

Lemma rmw_next_remaining cpu f pt s pt' s' :
  rmw_next cpu a f pt s pt' s' → remaining pt = S (remaining pt').
Proof. intros H. by destruct H. Qed.

Lemma rmw_code_done f pt : rmw_code a f pt = Ret tt → pt = AtEnd.
Proof. destruct pt; [discriminate..|reflexivity]. Qed.

Lemma serial_value_sym g0 g1 v0 w0 w1 v :
  serial_value g0 g1 v0 w0 w1 v → serial_value g1 g0 v0 w1 w0 v.
Proof. destruct w0, w1; simpl; [intros [H|H]; [by right | by left] | done..]. Qed.

Lemma rmw_inv_sym f0 f1 pt0 pt1 s :
  rmw_inv a f0 f1 s0 pt0 pt1 s → rmw_inv a f1 f0 s0 pt1 pt0 s.
Proof.
  intros [Hl He H0 H1 Hv Hf]. split; try done.
  - by rewrite orb_comm.
  - by rewrite andb_comm.
  - by apply serial_value_sym.
Qed.

Lemma rmw_inv_init f0 f1 :
  icap_lock_held s0 = false → rmw_inv a f0 f1 s0 AtLock AtLock s0.
Proof. intros Hl. by split. Qed.

Lemma reads_current_reg pt s s' :
  reg s' a = reg s a → reads_current a pt s → reads_current a pt s'.
Proof. intros E. destruct pt; simpl; try done. by rewrite E. Qed.

Lemma holds_lock_excl pt0 pt1 :
  holds_lock pt0 = true → holds_lock pt0 && holds_lock pt1 = false →
  holds_lock pt1 = false.
Proof. intros ->. done. Qed.

(** A step of the first context keeps the invariant. *)
Lemma rmw_inv_next cpu f0 f1 pt0 pt1 s pt0' s' :
  rmw_inv a f0 f1 s0 pt0 pt1 s →
  rmw_next cpu a f0 pt0 s pt0' s' →
  rmw_inv a f0 f1 s0 pt0' pt1 s'.
Proof.
  intros [Hl He H0 H1 Hv Hf] Hn.
  destruct Hn as [s Hfree|fl s|fl v s|fl s].
  - (* lock: nobody holds it *)
    rewrite Hfree in Hl. simpl in Hl. symmetry in Hl.
    split.
    + reflexivity.
    + simpl. exact Hl.
    + exact I.
    + by apply (reads_current_reg pt1 s).
    + exact Hv.
    + exact Hf.
  - (* read *)
    split.
    + exact Hl.
    + exact He.
    + reflexivity.
    + by apply (reads_current_reg pt1 s).
    + exact Hv.
    + exact Hf.
  - (* write: the other context is outside its critical section *)
    pose proof (holds_lock_excl (AtWrite fl v) pt1 eq_refl He) as Hout.
    simpl in H0. subst v.
    split.
    + exact Hl.
    + exact He.
    + exact I.
    + destruct pt1; try exact I. discriminate Hout.
    + rewrite reg_st_writel_eq.
      destruct pt1; try discriminate Hout; simpl in Hv |- *.
      * by rewrite Hv.
      * right. by rewrite Hv.
    + intros b Hb. rewrite reg_st_writel_ne by (by apply not_eq_sym).
      by apply Hf.
  - (* unlock *)
    pose proof (holds_lock_excl (AtUnlock fl) pt1 eq_refl He) as Hout.
    split.
    + simpl. by rewrite Hout.
    + reflexivity.
    + exact I.
    + by apply (reads_current_reg pt1 s).
    + exact Hv.
    + exact Hf.
Qed.

Lemma smp_inv_step f0 f1 m m' :
  smp_inv a f0 f1 s0 m → smp_step m m' → smp_inv a f0 f1 s0 m'.
Proof.
  intros (pt0 & pt1 & E0 & E1 & Hinv) Hstep.
  destruct Hstep as [p0 p1 s p0' s' Hs|p0 p1 s p1' s' Hs]; simpl in *; subst.
  - apply step_rmw_code in Hs as (pt0' & -> & Hn).
    exists pt0', pt1. split; [done|]. split; [done|]. simpl.
    by eapply rmw_inv_next.
  - apply step_rmw_code in Hs as (pt1' & -> & Hn).
    exists pt0, pt1'. split; [done|]. split; [done|]. simpl.
    apply rmw_inv_sym. eapply rmw_inv_next; [|exact Hn]. by apply rmw_inv_sym.
Qed.

Lemma smp_inv_rtc f0 f1 m m' :
  smp_inv a f0 f1 s0 m → rtc smp_step m m' → smp_inv a f0 f1 s0 m'.
Proof.
  intros Hinv Hsteps. induction Hsteps as [|m1 m2 m3 Hstep _ IH]; [done|].
  apply IH. by eapply smp_inv_step.
Qed.

(** A context that has not returned can take a step unless it waits for
    the lock. *)
Lemma rmw_can_step cpu f pt s :
  pt ≠ AtEnd →
  (pt = AtLock → icap_lock_held s = false) →
  ∃ pt' s', rmw_next cpu a f pt s pt' s'.
Proof.
  intros Hne Hl. destruct pt as [|fl|fl v|fl|]; [|by eexists _, _; constructor..|done].
  eexists _, _. constructor. by apply Hl.
Qed.

Lemma smp_inv_progress f0 f1 m :
  smp_inv a f0 f1 s0 m → smp_done m ∨ ∃ m', smp_step m m'.
Proof.
  intros (pt0 & pt1 & E0 & E1 & [Hl He _ _ _ _]).
  destruct m as [p0 p1 s]; simpl in *; subst.
  destruct (decide (holds_lock pt1 = true)) as [H1|H1].
  { (* context 1 is in its critical section *)
    destruct (rmw_can_step 1 f1 pt1 s) as (pt' & s' & Hn).
    - intros ->; discriminate.
    - intros ->; discriminate.
    - right. eexists. apply smp_step_cpu1. by apply rmw_next_step. }
  apply not_true_is_false in H1. rewrite H1, orb_false_r in Hl.
  destruct (decide (pt0 = AtEnd)) as [->|H0].
  - destruct (decide (pt1 = AtEnd)) as [->|H1'].
    + by left.
    + destruct (rmw_can_step 1 f1 pt1 s) as (pt' & s' & Hn); [done|done|].
      right. eexists. apply smp_step_cpu1. by apply rmw_next_step.
  - destruct (rmw_can_step 0 f0 pt0 s) as (pt' & s' & Hn); [done| |].
    + intros ->. exact Hl.
    + right. eexists. apply smp_step_cpu0. by apply rmw_next_step.
Qed.

(** *** A task and an interrupt handler on one CPU *)

Lemma rmw_inv_ext f0 f1 pt0 pt1 s s' :
  icap_lock_held s' = icap_lock_held s →
  (∀ b, reg s' b = reg s b) →
  rmw_inv a f0 f1 s0 pt0 pt1 s → rmw_inv a f0 f1 s0 pt0 pt1 s'.
Proof.
  intros El Er [Hl He H0 H1 Hv Hf]. split.
  - by rewrite El.
  - exact He.
  - by apply (reads_current_reg pt0 s).
  - by apply (reads_current_reg pt1 s).
  - by rewrite Er.
  - intros b Hb. rewrite Er. by apply Hf.
Qed.

Lemma irq_off_entry cpu s : cpu ∈ irq_off (st_irq_entry cpu s).
Proof. simpl. apply elem_of_union. left. by apply elem_of_singleton. Qed.

Lemma irq_off_exit cpu s : cpu ∉ irq_off (st_irq_exit cpu s).
Proof.
  simpl. rewrite elem_of_difference, elem_of_singleton. intros [_ H]. by apply H.
Qed.

(** A step of a context that runs with interrupts enabled outside its
    critical section: interrupts are off exactly while it holds the lock,
    and the flags it saved say "enabled". *)
Lemma task_step_flag cpu f pt s pt' s' :
  rmw_next cpu a f pt s pt' s' →
  (cpu ∈ irq_off s ↔ holds_lock pt = true) →
  (∀ fl, saved_flags pt = Some fl → fl = true) →
  (cpu ∈ irq_off s' ↔ holds_lock pt' = true) ∧
  (∀ fl, saved_flags pt' = Some fl → fl = true).
Proof.
  intros Hn Hoff Hfl. destruct Hn as [s Hfree|fl s|fl v s|fl s]; simpl in *.
  - split.
    + split; [done|]. intros _. apply elem_of_union. left.
      by apply elem_of_singleton.
    + intros fl [= <-]. apply bool_decide_eq_true_2.
      intros Hin. apply Hoff in Hin. discriminate.
  - split; [exact Hoff | exact Hfl].
  - split; [exact Hoff | exact Hfl].
  - rewrite (Hfl fl eq_refl). split; [|intros fl' [=]].
    split; [|discriminate].
    rewrite elem_of_difference, elem_of_singleton. intros [_ H]. by destruct H.
Qed.

(** A step of a context that runs with interrupts disabled throughout (an
    interrupt handler): they stay disabled, and the flags it saved say
    "disabled". *)
Lemma handler_step_flag cpu f pt s pt' s' :
  rmw_next cpu a f pt s pt' s' →
  cpu ∈ irq_off s →
  (∀ fl, saved_flags pt = Some fl → fl = false) →
  cpu ∈ irq_off s' ∧
  (∀ fl, saved_flags pt' = Some fl → fl = false).
Proof.
  intros Hn Hoff Hfl. destruct Hn as [s Hfree|fl s|fl v s|fl s]; simpl in *.
  - split.
    + apply elem_of_union. left. by apply elem_of_singleton.
    + intros fl [= <-]. apply bool_decide_eq_false_2. intros H. by apply H.
  - split; [exact Hoff | exact Hfl].
  - split; [exact Hoff | exact Hfl].
  - rewrite (Hfl fl eq_refl). split; [exact Hoff | intros fl' [=]].
Qed.

Lemma uni_inv_init f0 f1 :
  icap_lock_held s0 = false →
  0%nat ∉ irq_off s0 →
  uni_inv a f0 f1 s0
    (Build_uni (rmw_code a f0 AtLock) (Pending (rmw_code a f1 AtLock)) s0)
    AtLock AtLock.
Proof.
  intros Hl Hi. split; simpl.
  - reflexivity.
  - by split.
  - by apply rmw_inv_init.
  - split; [done|]. intros [H|H]; discriminate.
  - discriminate.
  - discriminate.
  - discriminate.
Qed.

Lemma uni_inv_step f0 f1 m m' pt0 pt1 :
  uni_inv a f0 f1 s0 m pt0 pt1 →
  irq_step m m' →
  ∃ pt0' pt1',
    uni_inv a f0 f1 s0 m' pt0' pt1' ∧
    (remaining pt0 + handler_remaining (handler m) pt1
     = S (remaining pt0' + handler_remaining (handler m') pt1'))%nat.
Proof.
  intros [Ht Hh Hr Hi He F0 F1] Hstep.
  destruct Hstep as [t h s t' s' Hna Hs|t p s Hon|t p s p' s' Hs|t s];
    simpl in *.
  - (* the task steps; the handler is not active *)
    subst t. apply step_rmw_code in Hs as (pt0' & -> & Hn).
    rewrite Hna in Hi.
    assert (Hoff : 0%nat ∈ irq_off s ↔ holds_lock pt0 = true).
    { rewrite Hi. split; [intros [H|H]; [done|discriminate] | by left]. }
    destruct (task_step_flag _ _ _ _ _ _ Hn Hoff F0) as [Hoff' F0'].
    exists pt0', pt1.
    split; [|by rewrite (rmw_next_remaining _ _ _ _ _ _ Hn)].
    split; simpl.
    + reflexivity.
    + exact Hh.
    + by eapply rmw_inv_next.
    + rewrite Hoff', Hna. split; [by left | intros [H|H]; [done|discriminate]].
    + rewrite Hna. discriminate.
    + exact F0'.
    + exact F1.
  - (* the interrupt is taken *)
    destruct Hh as [-> ->].
    assert (Hout : holds_lock pt0 = false).
    { destruct (holds_lock pt0) eqn:E; [|done]. exfalso. apply Hon, Hi. by left. }
    exists pt0, AtLock. split; [|simpl; lia]. split; simpl.
    + exact Ht.
    + reflexivity.
    + by apply (rmw_inv_ext _ _ _ _ s).
    + split; [by right | intros _; apply irq_off_entry].
    + done.
    + exact F0.
    + exact F1.
  - (* the handler steps *)
    subst p. apply step_rmw_code in Hs as (pt1' & -> & Hn).
    assert (Hoff : 0%nat ∈ irq_off s) by (apply Hi; by right).
    destruct (handler_step_flag _ _ _ _ _ _ Hn Hoff F1) as [Hoff' F1'].
    exists pt0, pt1'.
    split; [|simpl; rewrite (rmw_next_remaining _ _ _ _ _ _ Hn); lia].
    split; simpl.
    + exact Ht.
    + reflexivity.
    + apply rmw_inv_sym. eapply rmw_inv_next; [|exact Hn]. by apply rmw_inv_sym.
    + split; [by right | done].
    + exact He.
    + exact F0.
    + exact F1'.
  - (* the handler returns *)
    symmetry in Hh. apply rmw_code_done in Hh as ->.
    exists pt0, AtEnd. split; [|simpl; lia]. split; simpl.
    + exact Ht.
    + reflexivity.
    + by apply (rmw_inv_ext _ _ _ _ s).
    + split; [intros H; by apply irq_off_exit in H|].
      rewrite (He eq_refl). intros [H|H]; discriminate.
    + discriminate.
    + exact F0.
    + discriminate.
Qed.

Lemma uni_inv_rtc f0 f1 m m' pt0 pt1 :
  uni_inv a f0 f1 s0 m pt0 pt1 →
  rtc irq_step m m' →
  ∃ pt0' pt1', uni_inv a f0 f1 s0 m' pt0' pt1'.
Proof.
  intros Hinv Hsteps. revert pt0 pt1 Hinv.
  induction Hsteps as [|m1 m2 m3 Hstep _ IH]; intros pt0 pt1 Hinv.
  - by exists pt0, pt1.
  - destruct (uni_inv_step _ _ _ _ _ _ Hinv Hstep)
      as (pt0' & pt1' & Hinv' & _).
    by eapply IH.
Qed.

Lemma uni_inv_progress f0 f1 m pt0 pt1 :
  uni_inv a f0 f1 s0 m pt0 pt1 → uni_done m ∨ ∃ m', irq_step m m'.
Proof.
  intros [Ht Hh [Hl Hx _ _ _ _] Hi He F0 F1].
  destruct m as [t h s]; simpl in *; subst t.
  destruct h as [p|p|]; simpl in *.
  - (* pending *)
    destruct Hh as [-> ->].
    destruct (holds_lock pt0) eqn:Ehold.
    + destruct (rmw_can_step 0 f0 pt0 s) as (pt' & s' & Hn).
      * intros ->; discriminate.
      * intros ->; discriminate.
      * right. eexists. apply irq_step_task; [done|]. by apply rmw_next_step.
    + right. eexists. apply irq_step_entry.
      rewrite Hi. intros [H|H]; discriminate.
  - (* active *)
    subst p. rewrite (He eq_refl) in Hl. simpl in Hl.
    destruct (decide (pt1 = AtEnd)) as [->|Hne].
    + right. eexists. apply irq_step_exit.
    + destruct (rmw_can_step 0 f1 pt1 s) as (pt' & s' & Hn); [done| |].
      * intros ->. exact Hl.
      * right. eexists. apply irq_step_handler. by apply rmw_next_step.
  - (* returned *)
    subst pt1. rewrite orb_false_r in Hl.
    destruct (decide (pt0 = AtEnd)) as [->|Hne].
    + by left.
    + destruct (rmw_can_step 0 f0 pt0 s) as (pt' & s' & Hn); [done| |].
      * intros ->. exact Hl.
      * right. eexists. apply irq_step_task; [done|]. by apply rmw_next_step.
Qed.

(** *** Serialisation *)

Lemma run_rmw_seq cpu f0 f1 :
  icap_lock_held s0 = false →
  run cpu (rmw_code a f0 AtLock;; rmw_code a f1 AtLock) s0
  = Done tt (rmw_result cpu a f1 (rmw_result cpu a f0 s0)).
Proof.
  intros Hl. rewrite run_bind, run_rmw_code by done.
  by rewrite run_rmw_code by apply icap_lock_rmw_result.
Qed.

Lemma serial_value_outcome f0 f1 v :
  icap_lock_held s0 = false →
  serial_value (λ v, u32 (f0 v)) (λ v, u32 (f1 v)) (reg s0 a) true true v →
  serial_outcome (rmw_code a f0 AtLock) (rmw_code a f1 AtLock) s0 a v.
Proof.
  intros Hl [->| ->].
  - eexists. split; [left; by apply run_rmw_seq|].
    by rewrite !reg_rmw_result_eq.
  - eexists. split; [right; by apply run_rmw_seq|].
    by rewrite !reg_rmw_result_eq.
Qed.

(** Two CPUs: no reachable state is stuck, and when both contexts have
    returned the register holds what one of the two sequential orders
    leaves. *)
Lemma smp_rmw_serializable f0 f1 m :
  icap_lock_held s0 = false →
  rtc smp_step (Build_smp (rmw_code a f0 AtLock) (rmw_code a f1 AtLock) s0) m →
  (smp_done m ∨ ∃ m', smp_step m m') ∧
  (smp_done m →
   serial_value (λ v, u32 (f0 v)) (λ v, u32 (f1 v)) (reg s0 a) true true
     (reg (smp_state m) a)).
Proof.
  intros Hl Hsteps.
  assert (Hinv : smp_inv a f0 f1 s0 m).
  { eapply smp_inv_rtc; [|exact Hsteps].
    exists AtLock, AtLock. split; [done|]. split; [done|]. by apply rmw_inv_init. }
  split; [by eapply smp_inv_progress|].
  intros [D0 D1]. destruct Hinv as (pt0 & pt1 & E0 & E1 & Hr).
  rewrite D0 in E0. rewrite D1 in E1. symmetry in E0, E1.
  apply rmw_code_done in E0 as ->. apply rmw_code_done in E1 as ->.
  exact (inv_value _ _ _ _ _ _ _ Hr).
Qed.

(** One CPU, a task and an interrupt handler: the same. *)
Lemma uni_rmw_serializable f0 f1 m :
  icap_lock_held s0 = false →
  0%nat ∉ irq_off s0 →
  rtc irq_step
    (Build_uni (rmw_code a f0 AtLock) (Pending (rmw_code a f1 AtLock)) s0) m →
  (uni_done m ∨ ∃ m', irq_step m m') ∧
  (uni_done m →
   serial_value (λ v, u32 (f0 v)) (λ v, u32 (f1 v)) (reg s0 a) true true
     (reg (uni_state m) a)).
Proof.
  intros Hl Hi Hsteps.
  destruct (uni_inv_rtc f0 f1 _ m AtLock AtLock
              (uni_inv_init f0 f1 Hl Hi) Hsteps) as (pt0 & pt1 & Hinv).
  split; [by eapply uni_inv_progress|].
  intros [D0 D1]. destruct Hinv as [Ht Hh Hr _ _ _ _].
  rewrite D0 in Ht. symmetry in Ht. apply rmw_code_done in Ht as ->.
  rewrite D1 in Hh. simpl in Hh. subst pt1.
  exact (inv_value _ _ _ _ _ _ _ Hr).
Qed.

(** *** Every execution completes *)

Lemma smp_step_measure f0 f1 m m' pt0 pt1 :
  cpu0 m = rmw_code a f0 pt0 →
  cpu1 m = rmw_code a f1 pt1 →
  rmw_inv a f0 f1 s0 pt0 pt1 (smp_state m) →
  smp_step m m' →
  ∃ pt0' pt1',
    cpu0 m' = rmw_code a f0 pt0' ∧ cpu1 m' = rmw_code a f1 pt1' ∧
    rmw_inv a f0 f1 s0 pt0' pt1' (smp_state m') ∧
    (remaining pt0 + remaining pt1 = S (remaining pt0' + remaining pt1'))%nat.
Proof.
  intros E0 E1 Hinv Hstep.
  destruct Hstep as [p0 p1 s p0' s' Hs|p0 p1 s p1' s' Hs]; simpl in *; subst.
  - apply step_rmw_code in Hs as (pt0' & -> & Hn).
    exists pt0', pt1. split; [done|]. split; [done|]. split.
    + by eapply rmw_inv_next.
    + by rewrite (rmw_next_remaining _ _ _ _ _ _ Hn).
  - apply step_rmw_code in Hs as (pt1' & -> & Hn).
    exists pt0, pt1'. split; [done|]. split; [done|]. split.
    + apply rmw_inv_sym. eapply rmw_inv_next; [|exact Hn]. by apply rmw_inv_sym.
    + rewrite (rmw_next_remaining _ _ _ _ _ _ Hn). lia.
Qed.

(** Two CPUs: from every reachable state, whatever the schedule does next,
    the two calls return after exactly the kernel calls they have left. *)
Lemma smp_rmw_completes f0 f1 n : ∀ m pt0 pt1,
  cpu0 m = rmw_code a f0 pt0 →
  cpu1 m = rmw_code a f1 pt1 →
  rmw_inv a f0 f1 s0 pt0 pt1 (smp_state m) →
  (remaining pt0 + remaining pt1 = n)%nat →
  ∃ m', nsteps smp_step n m m' ∧ smp_done m'.
Proof.
  induction n as [|n IH]; intros m pt0 pt1 E0 E1 Hinv Hn.
  - exists m. split; [constructor|].
    destruct pt0; try discriminate Hn. destruct pt1; try discriminate Hn.
    by split.
  - destruct (smp_inv_progress f0 f1 m) as [[D0 D1]|[m1 Hstep]].
    { by exists pt0, pt1. }
    { rewrite D0 in E0. rewrite D1 in E1. symmetry in E0, E1.
      apply rmw_code_done in E0 as ->. apply rmw_code_done in E1 as ->.
      discriminate Hn. }
    destruct (smp_step_measure _ _ _ _ _ _ E0 E1 Hinv Hstep)
      as (pt0' & pt1' & E0' & E1' & Hinv' & Hm).
    destruct (IH m1 pt0' pt1' E0' E1' Hinv') as (m' & Hsteps & Hd); [lia|].
    exists m'. split; [|exact Hd]. by eapply nsteps_l.
Qed.

(** One CPU: the same, the entry and the return of the handler counted. *)
Lemma uni_rmw_completes f0 f1 n : ∀ m pt0 pt1,
  uni_inv a f0 f1 s0 m pt0 pt1 →
  (remaining pt0 + handler_remaining (handler m) pt1 = n)%nat →
  ∃ m', nsteps irq_step n m m' ∧ uni_done m'.
Proof.
  induction n as [|n IH]; intros m pt0 pt1 Hinv Hn.
  - exists m. split; [constructor|].
    pose proof Hinv as [Ht Hh _ _ _ _ _].
    destruct pt0; try discriminate Hn.
    destruct (handler m) eqn:Eh; try discriminate Hn.
    by split.
  - destruct (uni_inv_progress f0 f1 m pt0 pt1 Hinv) as [[D0 D1]|[m1 Hstep]].
    { pose proof Hinv as [Ht _ _ _ _ _ _].
      rewrite D0 in Ht. symmetry in Ht. apply rmw_code_done in Ht as ->.
      rewrite D1 in Hn. discriminate Hn. }
    destruct (uni_inv_step _ _ _ _ _ _ Hinv Hstep)
      as (pt0' & pt1' & Hinv' & Hm).
    destruct (IH m1 pt0' pt1' Hinv') as (m' & Hsteps & Hd); [lia|].
    exists m'. split; [|exact Hd]. by eapply nsteps_l.
Qed.

(** From every state two valid calls can reach on two CPUs, they both
    return, whatever the schedule. *)
Lemma smp_reachable_completes f0 f1 m :
  icap_lock_held s0 = false →
  rtc smp_step (Build_smp (rmw_code a f0 AtLock) (rmw_code a f1 AtLock) s0) m →
  ∃ m', rtc smp_step m m' ∧ smp_done m'.
Proof.
  intros Hl Hsteps.
  assert (Hinv : smp_inv a f0 f1 s0 m).
  { eapply smp_inv_rtc; [|exact Hsteps].
    exists AtLock, AtLock. split; [done|]. split; [done|]. by apply rmw_inv_init. }
  destruct Hinv as (pt0 & pt1 & E0 & E1 & Hr).
  destruct (smp_rmw_completes f0 f1 _ m pt0 pt1 E0 E1 Hr eq_refl)
    as (m' & Hn & Hd).
  exists m'. split; [|exact Hd]. by eapply rtc_nsteps_2.
Qed.

(** The same for a task and an interrupt handler on one CPU. *)
Lemma uni_reachable_completes f0 f1 m :
  icap_lock_held s0 = false →
  0%nat ∉ irq_off s0 →
  rtc irq_step
    (Build_uni (rmw_code a f0 AtLock) (Pending (rmw_code a f1 AtLock)) s0) m →
  ∃ m', rtc irq_step m m' ∧ uni_done m'.
Proof.
  intros Hl Hi Hsteps.
  destruct (uni_inv_rtc f0 f1 _ m AtLock AtLock
              (uni_inv_init f0 f1 Hl Hi) Hsteps) as (pt0 & pt1 & Hinv).
  destruct (uni_rmw_completes f0 f1 _ m pt0 pt1 Hinv eq_refl)
    as (m' & Hn & Hd).
  exists m'. split; [|exact Hd]. by eapply rtc_nsteps_2.
Qed.

End locked_rmw.

(** *** What the lock and the disabled interrupts are needed for *)

(** Were the task interrupted inside its critical section (the lock held,
    local interrupts enabled), the handler would spin on the lock for
    ever: the state after its entry has no step.  [spin_lock_irqsave]
    makes such a state unreachable ([uni_irq_off]). *)
Lemma interrupted_critical_section_is_stuck a f0 f1 s flags m :
  icap_lock_held s = true →
  ¬ irq_step
      (Build_uni (rmw_code a f0 (AtRead flags))
         (Active (rmw_code a f1 AtLock)) (st_irq_entry 0 s)) m.
Proof.
  intros Hl Hstep.
  inversion Hstep
    as [t h s1 t' s' Hna Hs|t p s1 Hon|t p s1 p' s' Hs|t s1]; subst.
  - discriminate Hna.
  - simpl in Hs. rewrite Hl in Hs. discriminate Hs.
Qed.

(** Were both contexts inside the critical section at once, an update
    could be lost: both read IR = 0, and the context that writes first
    (bit 3) has its write overwritten by the other (bit 0).  The
    interleaving semantics does not serialise by itself; the lock does. *)
Lemma update_lost_without_exclusion :
  ∃ m,
    rtc smp_step
      (Build_smp
         (rmw_code (base bound_timer + V2_REG_IR)
            (irq_op_modify (OcIrqEnable 1)) (AtRead true))
         (rmw_code (base bound_timer + V2_REG_IR)
            (irq_op_modify (IcIrqEnable 1)) (AtRead true))
         (regs_state 0x549 0)) m ∧
    smp_done m ∧
    reg (smp_state m) (base bound_timer + V2_REG_IR) = V2_IR_OF1IE.
Proof.
  eexists. split; [|split].
  - eapply rtc_l; [apply smp_step_cpu0; reflexivity|].
    eapply rtc_l; [apply smp_step_cpu1; reflexivity|].
    eapply rtc_l; [apply smp_step_cpu1; reflexivity|].
    eapply rtc_l; [apply smp_step_cpu1; reflexivity|].
    eapply rtc_l; [apply smp_step_cpu0; reflexivity|].
    eapply rtc_l; [apply smp_step_cpu0; reflexivity|].
    apply rtc_refl.
  - split; reflexivity.
  - reflexivity.
Qed.

(** *** The operations of the driver *)

Lemma both_enable_bits v0 v :
  serial_value (λ v, u32 (irq_op_modify (OcIrqEnable 1) v))
    (λ v, u32 (irq_op_modify (IcIrqEnable 1) v)) v0 true true v →
  Z.testbit v 0 = true ∧ Z.testbit v 3 = true.
Proof.
  unfold serial_value. cbv beta iota.
  rewrite !(irq_op_modify_oc_enable 1), !(irq_op_modify_ic_enable 1) by lia.
  change (oc_bit 1) with 0. change (ic_bit 1) with 3.
  intros [-> | ->]; split;
    rewrite !u32_testbit, !Z.lor_spec, !u32_testbit, !Z.lor_spec,
      !pow2_testbit by lia;
    simpl; by rewrite ?orb_true_r.
Qed.

(** C10.  The four operations on the interrupt-enable register are
    read-modify-writes under [icap_lock], taken with
    [spin_lock_irqsave].  For any two valid calls, on two CPUs or as a task
    and an interrupt handler on one CPU, no reachable state is stuck and
    when both calls have returned the register holds what the two calls
    leave when run one after the other.  For [v2_gpt_oc_irq_enable (1)] and
    [v2_gpt_ic_irq_enable (1)] both enable bits (0 and 3) are then set. *)
Theorem icap_lock_serializes_irq_register imxtm oA oB s0 :
  irq_op_valid oA →
  irq_op_valid oB →
  icap_lock_held s0 = false →
  0%nat ∉ irq_off s0 →
  (∀ m,
     rtc smp_step (Build_smp (irq_op_prog imxtm oA) (irq_op_prog imxtm oB) s0) m →
     (smp_done m ∨ ∃ m', smp_step m m') ∧
     (smp_done m →
      serial_outcome (irq_op_prog imxtm oA) (irq_op_prog imxtm oB) s0
        (base imxtm + V2_REG_IR) (reg (smp_state m) (base imxtm + V2_REG_IR)))) ∧
  (∀ m,
     rtc irq_step
       (Build_uni (irq_op_prog imxtm oA) (Pending (irq_op_prog imxtm oB)) s0) m →
     (uni_done m ∨ ∃ m', irq_step m m') ∧
     (uni_done m →
      serial_outcome (irq_op_prog imxtm oA) (irq_op_prog imxtm oB) s0
        (base imxtm + V2_REG_IR) (reg (uni_state m) (base imxtm + V2_REG_IR)))) ∧
  (∀ m,
     rtc smp_step
       (Build_smp (v2_gpt_oc_irq_enable imxtm 1)
          (v2_gpt_ic_irq_enable imxtm 1) s0) m →
     smp_done m →
     Z.testbit (reg (smp_state m) (base imxtm + V2_REG_IR)) 0 = true ∧
     Z.testbit (reg (smp_state m) (base imxtm + V2_REG_IR)) 3 = true) ∧
  (∀ m,
     rtc irq_step
       (Build_uni (v2_gpt_oc_irq_enable imxtm 1)
          (Pending (v2_gpt_ic_irq_enable imxtm 1)) s0) m →
     uni_done m →
     Z.testbit (reg (uni_state m) (base imxtm + V2_REG_IR)) 0 = true ∧
     Z.testbit (reg (uni_state m) (base imxtm + V2_REG_IR)) 3 = true).
Proof.
  intros HA HB Hl Hi.
  rewrite !irq_op_prog_rmw by done.
  assert (H1 : irq_op_valid (OcIrqEnable 1)) by (simpl; unfold V2_OM_NUM; lia).
  assert (H2 : irq_op_valid (IcIrqEnable 1)) by (simpl; unfold V2_IM_NUM; lia).
  change (v2_gpt_oc_irq_enable imxtm 1) with (irq_op_prog imxtm (OcIrqEnable 1)).
  change (v2_gpt_ic_irq_enable imxtm 1) with (irq_op_prog imxtm (IcIrqEnable 1)).
  rewrite !(irq_op_prog_rmw imxtm (OcIrqEnable 1)) by done.
  rewrite !(irq_op_prog_rmw imxtm (IcIrqEnable 1)) by done.
  split; [|split; [|split]].
  - intros m Hsteps.
    destruct (smp_rmw_serializable _ _ _ _ _ Hl Hsteps) as [Hp Hv].
    split; [exact Hp|]. intros Hd. by apply serial_value_outcome, Hv.
  - intros m Hsteps.
    destruct (uni_rmw_serializable _ _ _ _ _ Hl Hi Hsteps) as [Hp Hv].
    split; [exact Hp|]. intros Hd. by apply serial_value_outcome, Hv.
  - intros m Hsteps Hd.
    destruct (smp_rmw_serializable _ _ _ _ _ Hl Hsteps) as [_ Hv].
    by eapply both_enable_bits, Hv.
  - intros m Hsteps Hd.
    destruct (uni_rmw_serializable _ _ _ _ _ Hl Hi Hsteps) as [_ Hv].
    by eapply both_enable_bits, Hv.
Qed.

(** CPU 1 enables input capture channel 1 while CPU 0 enables output
    compare channel 1, CPU 1 taking the lock first: IR ends at 9. *)
Lemma icap_lock_serializes_irq_register_witness :
  irq_op_valid (OcIrqEnable 1) ∧
  irq_op_valid (IcIrqEnable 1) ∧
  icap_lock_held (regs_state 0x549 0) = false ∧
  (0%nat ∉ irq_off (regs_state 0x549 0)) ∧
  ∃ m,
    rtc smp_step
      (Build_smp (v2_gpt_oc_irq_enable bound_timer 1)
         (v2_gpt_ic_irq_enable bound_timer 1) (regs_state 0x549 0)) m ∧
    smp_done m ∧
    reg (smp_state m) (base bound_timer + V2_REG_IR) = 9 ∧
    Z.testbit (reg (smp_state m) (base bound_timer + V2_REG_IR)) 0 = true ∧
    Z.testbit (reg (smp_state m) (base bound_timer + V2_REG_IR)) 3 = true.
Proof.
  assert (H1 : irq_op_valid (OcIrqEnable 1)) by (split; discriminate).
  assert (H2 : irq_op_valid (IcIrqEnable 1)) by (split; discriminate).
  assert (H3 : icap_lock_held (regs_state 0x549 0) = false) by reflexivity.
  assert (H4 : 0%nat ∉ irq_off (regs_state 0x549 0)).
  { intros H. by apply elem_of_empty in H. }
  split; [exact H1|]. split; [exact H2|]. split; [exact H3|]. split; [exact H4|].
  destruct (icap_lock_serializes_irq_register bound_timer
              (OcIrqEnable 1) (IcIrqEnable 1) (regs_state 0x549 0) H1 H2 H3 H4)
    as (_ & _ & Hbits & _).
  assert (Hexec : ∃ m,
    rtc smp_step
      (Build_smp (v2_gpt_oc_irq_enable bound_timer 1)
         (v2_gpt_ic_irq_enable bound_timer 1) (regs_state 0x549 0)) m ∧
    smp_done m ∧
    reg (smp_state m) (base bound_timer + V2_REG_IR) = 9).
  { eexists. split; [|split].
    - do 4 (eapply rtc_l; [apply smp_step_cpu1; reflexivity|]).
      do 4 (eapply rtc_l; [apply smp_step_cpu0; reflexivity|]).
      apply rtc_refl.
    - split; reflexivity.
    - reflexivity. }
  destruct Hexec as (m & Hsteps & Hd & Hreg).
  exists m. split; [exact Hsteps|]. split; [exact Hd|]. split; [exact Hreg|].
  by apply Hbits.
Defined.

(** * Further properties of the driver *)

(** ** Compare registers *)

(** X1.  The value written to the compare register of a valid output compare
    channel reads back; the channels have distinct registers and no other
    register changes. *)
Theorem v2_gpt_oc_setup_round_trip cpu imxtm s chan val :
  1 ≤ chan ≤ 3 →
  ∃ s',
    run cpu (v2_gpt_oc_setup imxtm chan val) s = Done tt s' ∧
    run cpu (readl_relaxed (base imxtm + oc_compare_reg chan)) s'
    = Done (u32 val) (st_readl (base imxtm + oc_compare_reg chan) s') ∧
    (∀ b, b ≠ base imxtm + oc_compare_reg chan → reg s' b = reg s b) ∧
    io_log s' = io_log s ++ [Wr (base imxtm + oc_compare_reg chan) (u32 val)].
Proof.
  intros Hc.
  assert (chan = 1 ∨ chan = 2 ∨ chan = 3) as [->|[->| ->]] by lia;
    (eexists; split; [reflexivity|]; split; [|split; [|reflexivity]]).
  all: try (intros b Hb; by rewrite reg_st_writel_ne by (by apply not_eq_sym)).
  all: simpl; unfold reg; simpl; by rewrite lookup_insert_eq.
Qed.

Lemma v2_gpt_oc_setup_round_trip_witness :
  1 ≤ 2 ≤ 3 ∧
  ∃ s',
    run 0 (v2_gpt_oc_setup bound_timer 2 0x12345678) (regs_state 0x549 0)
    = Done tt s' ∧
    reg s' (0x1000 + V2_REG_OCR2) = 0x12345678 ∧
    reg s' (0x1000 + V2_REG_CR) = 0x549.
Proof.
  assert (H : 1 ≤ 2 ≤ 3) by (split; discriminate).
  split; [exact H|].
  destruct (v2_gpt_oc_setup_round_trip 0 bound_timer (regs_state 0x549 0)
              2 0x12345678 H) as (s' & Hrun & _ & Hframe & _).
  exists s'. split; [exact Hrun|].
  assert (Hs' : Done tt s'
                = run 0 (v2_gpt_oc_setup bound_timer 2 0x12345678)
                    (regs_state 0x549 0)) by (symmetry; exact Hrun).
  vm_compute in Hs'. injection Hs' as ->. split; reflexivity.
Defined.

(** ** Status flags *)

Lemma land_pow2_testbit v k :
  0 ≤ k →
  (if Z.land v (Z.shiftl 1 k) =? 0 then false else true) = Z.testbit v k.
Proof.
  intros Hk.
  assert (Hland : Z.land v (Z.shiftl 1 k)
                  = if Z.testbit v k then Z.shiftl 1 k else 0).
  { apply Z.bits_inj'. intros i Hi.
    rewrite Z.land_spec, pow2_testbit by lia.
    destruct (Z.eqb_spec i k) as [->|Hne].
    - rewrite andb_true_r. destruct (Z.testbit v k).
      + rewrite pow2_testbit by lia. symmetry. by apply Z.eqb_eq.
      + by rewrite Z.bits_0.
    - rewrite andb_false_r. destruct (Z.testbit v k).
      + rewrite pow2_testbit by lia. symmetry. by apply Z.eqb_neq.
      + by rewrite Z.bits_0. }
  rewrite Hland. destruct (Z.testbit v k); [|reflexivity].
  assert (0 < Z.shiftl 1 k).
  { rewrite Z.shiftl_1_l. by apply Z.pow_pos_nonneg. }
  destruct (Z.eqb_spec (Z.shiftl 1 k) 0); [lia | reflexivity].
Qed.

(** X2.  Each status predicate returns the flag of its source in the status
    register, after one read and without changing any register. *)
Theorem is_pending_reads_status_bit cpu imxtm s src :
  testable src →
  run cpu (is_pending imxtm src) s
  = Done (Z.testbit (reg s (base imxtm + V2_REG_SR)) (status_bit src))
         (st_readl (base imxtm + V2_REG_SR) s).
Proof.
  destruct src as [|chan|chan]; simpl; intros Hc.
  - unfold v2_gpt_is_rollover. simpl. unfold V2_SR_ROV.
    by rewrite land_pow2_testbit.
  - assert (chan = 1 ∨ chan = 2 ∨ chan = 3) as [->|[->| ->]] by lia;
      unfold v2_gpt_is_oc_irq; simpl.
    + unfold V2_SR_OF1. by rewrite land_pow2_testbit.
    + unfold V2_SR_OF2. by rewrite land_pow2_testbit.
    + unfold V2_SR_OF3. by rewrite land_pow2_testbit.
  - assert (chan = 1 ∨ chan = 2) as [->| ->] by lia;
      unfold v2_gpt_is_ic_irq; simpl.
    + unfold V2_IR_IF1IE. by rewrite land_pow2_testbit.
    + unfold V2_IR_IF2IE. by rewrite land_pow2_testbit.
Qed.

(** Output compare flag 3 alone raised: channel 3 is pending, the
    rollover is not. *)
Lemma is_pending_reads_status_bit_witness :
  testable (OutputCompare 3) ∧
  run 0 (is_pending bound_timer (OutputCompare 3))
    (st_writel 4 (0x1000 + V2_REG_SR) boot_state)
  = Done (Z.testbit (reg (st_writel 4 (0x1000 + V2_REG_SR) boot_state)
                       (base bound_timer + V2_REG_SR))
            (status_bit (OutputCompare 3)))
         (st_readl (base bound_timer + V2_REG_SR)
            (st_writel 4 (0x1000 + V2_REG_SR) boot_state)).
Proof.
  assert (H : testable (OutputCompare 3)) by (split; discriminate).
  split; [exact H|].
  exact (is_pending_reads_status_bit 0 bound_timer _ (OutputCompare 3) H).
Defined.

(** X3.  An acknowledge is one write to the status register, of the flag that
    the status predicate of the same source tests and of no flag of
    another source. *)
Theorem acknowledge_writes_own_flag cpu imxtm s src :
  acknowledgeable src →
  run cpu (acknowledge imxtm src) s
  = Done tt (st_writel (Z.shiftl 1 (status_bit src)) (base imxtm + V2_REG_SR) s) ∧
  ∀ src', testable src' →
    Z.testbit (Z.shiftl 1 (status_bit src)) (status_bit src')
    = bool_decide (status_bit src' = status_bit src).
Proof.
  intros Hc. split.
  - destruct src as [|chan|chan]; simpl in *.
    + reflexivity.
    + assert (chan = 1 ∨ chan = 2) as [->| ->] by lia; reflexivity.
    + assert (chan = 1 ∨ chan = 2) as [->| ->] by lia; reflexivity.
  - intros src' Hc'.
    assert (0 ≤ status_bit src) by (destruct src; simpl in *; lia).
    assert (0 ≤ status_bit src') by (destruct src'; simpl in *; lia).
    rewrite pow2_testbit by lia.
    destruct (Z.eqb_spec (status_bit src') (status_bit src)) as [E|E].
    + by rewrite bool_decide_eq_true_2.
    + by rewrite bool_decide_eq_false_2.
Qed.

Lemma acknowledge_writes_own_flag_witness :
  acknowledgeable (InputCapture 2) ∧
  run 0 (acknowledge bound_timer (InputCapture 2)) boot_state
  = Done tt (st_writel 16 (0x1000 + V2_REG_SR) boot_state).
Proof.
  assert (H : acknowledgeable (InputCapture 2)) by (split; discriminate).
  split; [exact H|].
  exact (proj1 (acknowledge_writes_own_flag 0 bound_timer boot_state
                  (InputCapture 2) H)).
Defined.

(** ** Interrupt enables compose *)

Lemma irq_op_modify_enable o :
  irq_op_valid o → is_enable o = true →
  ∃ k, 0 ≤ k < 32 ∧ ∀ v, irq_op_modify o v = Z.lor v (Z.shiftl 1 k).
Proof.
  destruct o as [chan|chan|chan|chan]; unfold irq_op_valid, V2_OM_NUM, V2_IM_NUM;
    intros Hc He; try discriminate He.
  - exists (oc_bit chan). split; [unfold oc_bit; lia|].
    intros v. by apply irq_op_modify_oc_enable.
  - exists (ic_bit chan). split; [unfold ic_bit; lia|].
    intros v. by apply irq_op_modify_ic_enable.
Qed.

Lemma u32_lor_lor v a b :
  u32 (Z.lor (u32 (Z.lor v a)) b) = u32 (Z.lor (Z.lor v a) b).
Proof.
  apply Z.bits_inj'. intros i Hi.
  rewrite !u32_testbit, !Z.lor_spec, u32_testbit, Z.lor_spec by lia.
  destruct (Z.testbit v i), (Z.testbit a i), (Z.testbit b i), (i <? 32);
    reflexivity.
Qed.

Lemma run_irq_op_seq cpu imxtm oA oB s :
  irq_op_valid oA → irq_op_valid oB → icap_lock_held s = false →
  run cpu (irq_op_prog imxtm oA;; irq_op_prog imxtm oB) s
  = Done tt (rmw_result cpu (base imxtm + V2_REG_IR) (irq_op_modify oB)
               (rmw_result cpu (base imxtm + V2_REG_IR) (irq_op_modify oA) s)).
Proof.
  intros HA HB Hl. rewrite run_bind, run_irq_op by done.
  by rewrite run_irq_op by (done || apply icap_lock_rmw_result).
Qed.

(** X4.  Two interrupt enables, of any two valid channels of either kind,
    leave the same register contents in both orders. *)
Theorem irq_enables_commute cpu imxtm oA oB s :
  irq_op_valid oA → irq_op_valid oB →
  is_enable oA = true → is_enable oB = true →
  icap_lock_held s = false →
  ∃ sAB sBA,
    run cpu (irq_op_prog imxtm oA;; irq_op_prog imxtm oB) s = Done tt sAB ∧
    run cpu (irq_op_prog imxtm oB;; irq_op_prog imxtm oA) s = Done tt sBA ∧
    ∀ b, reg sAB b = reg sBA b.
Proof.
  intros HA HB EA EB Hl.
  destruct (irq_op_modify_enable oA HA EA) as (ka & Hka & MA).
  destruct (irq_op_modify_enable oB HB EB) as (kb & Hkb & MB).
  eexists _, _. split; [by apply run_irq_op_seq|].
  split; [by apply run_irq_op_seq|].
  intros b. destruct (decide (base imxtm + V2_REG_IR = b)) as [<-|Hne].
  - rewrite !reg_rmw_result_eq, !MA, !MB, !u32_lor_lor.
    f_equal. rewrite <- !Z.lor_assoc. f_equal. apply Z.lor_comm.
  - by rewrite !reg_rmw_result_ne.
Qed.

Lemma irq_enables_commute_witness :
  irq_op_valid (OcIrqEnable 3) ∧ irq_op_valid (IcIrqEnable 2) ∧
  ∃ sAB sBA,
    run 0 (irq_op_prog bound_timer (OcIrqEnable 3);;
           irq_op_prog bound_timer (IcIrqEnable 2)) (regs_state 0x549 1)
    = Done tt sAB ∧
    run 0 (irq_op_prog bound_timer (IcIrqEnable 2);;
           irq_op_prog bound_timer (OcIrqEnable 3)) (regs_state 0x549 1)
    = Done tt sBA ∧
    ∀ b, reg sAB b = reg sBA b.
Proof.
  assert (H1 : irq_op_valid (OcIrqEnable 3)) by (split; discriminate).
  assert (H2 : irq_op_valid (IcIrqEnable 2)) by (split; discriminate).
  split; [exact H1|]. split; [exact H2|].
  exact (irq_enables_commute 0 bound_timer (OcIrqEnable 3) (IcIrqEnable 2)
           (regs_state 0x549 1) H1 H2 eq_refl eq_refl eq_refl).
Defined.

(** X5.  Enabling an interrupt that is already enabled changes no register:
    the call run twice leaves what it leaves run once. *)
Theorem irq_enable_idempotent cpu imxtm o s :
  irq_op_valid o → is_enable o = true → icap_lock_held s = false →
  ∃ s1 s2,
    run cpu (irq_op_prog imxtm o) s = Done tt s1 ∧
    run cpu (irq_op_prog imxtm o;; irq_op_prog imxtm o) s = Done tt s2 ∧
    ∀ b, reg s2 b = reg s1 b.
Proof.
  intros Hv He Hl.
  destruct (irq_op_modify_enable o Hv He) as (k & Hk & M).
  eexists _, _. split; [by apply run_irq_op|].
  split; [by apply run_irq_op_seq|].
  intros b. destruct (decide (base imxtm + V2_REG_IR = b)) as [<-|Hne].
  - rewrite !reg_rmw_result_eq, !M, u32_lor_lor.
    f_equal. rewrite <- Z.lor_assoc. f_equal. apply Z.lor_diag.
  - by rewrite !reg_rmw_result_ne.
Qed.

Lemma irq_enable_idempotent_witness :
  irq_op_valid (IcIrqEnable 1) ∧
  ∃ s1 s2,
    run 0 (irq_op_prog bound_timer (IcIrqEnable 1)) (regs_state 0x549 0)
    = Done tt s1 ∧
    run 0 (irq_op_prog bound_timer (IcIrqEnable 1);;
           irq_op_prog bound_timer (IcIrqEnable 1)) (regs_state 0x549 0)
    = Done tt s2 ∧
    ∀ b, reg s2 b = reg s1 b.
Proof.
  assert (H1 : irq_op_valid (IcIrqEnable 1)) by (split; discriminate).
  split; [exact H1|].
  exact (irq_enable_idempotent 0 bound_timer (IcIrqEnable 1)
           (regs_state 0x549 0) H1 eq_refl eq_refl).
Defined.

(** ** Lock discipline *)



(** ** Array bounds *)

(** X7.  For every channel index and argument of type [u32], no channel
    operation indexes its array out of bounds: with [icap_lock] free each
    call returns. *)
Theorem channel_operations_return cpu imxtm s chan arg :
  0 ≤ chan < 2 ^ 32 →
  icap_lock_held s = false →
  (∃ s', run cpu (v2_gpt_oc_setup imxtm chan arg) s = Done tt s') ∧
  (∃ s', run cpu (v2_gpt_oc_irq_enable imxtm chan) s = Done tt s') ∧
  (∃ s', run cpu (v2_gpt_oc_irq_disable imxtm chan) s = Done tt s') ∧
  (∃ s', run cpu (v2_gpt_oc_irq_acknowledge imxtm chan) s = Done tt s') ∧
  (∃ r s', run cpu (v2_gpt_is_oc_irq imxtm chan) s = Done r s') ∧
  (∃ s', run cpu (v2_gpt_ic_setup imxtm chan arg) s = Done tt s') ∧
  (∃ s', run cpu (v2_gpt_ic_irq_enable imxtm chan) s = Done tt s') ∧
  (∃ s', run cpu (v2_gpt_ic_irq_disable imxtm chan) s = Done tt s') ∧
  (∃ s', run cpu (v2_gpt_ic_irq_acknowledge imxtm chan) s = Done tt s') ∧
  (∃ r s', run cpu (v2_gpt_is_ic_irq imxtm chan) s = Done r s').
Proof.
  intros Hc Hl.
  assert (chan = 0 ∨ chan = 1 ∨ chan = 2 ∨ chan = 3 ∨ chan > 3)
    as [->|[->|[->|[->|Hbig]]]] by lia.
  5: { assert (G3 : (chan >? 3) || (chan =? 0) = true)
         by (apply guard_invalid; by right).
       assert (G2 : (chan >? 2) || (chan =? 0) = true)
         by (apply guard_invalid; right; lia).
       unfold v2_gpt_oc_setup, v2_gpt_oc_irq_enable, v2_gpt_oc_irq_disable,
         v2_gpt_oc_irq_acknowledge, v2_gpt_is_oc_irq, v2_gpt_ic_setup,
         v2_gpt_ic_irq_enable, v2_gpt_ic_irq_disable, v2_gpt_ic_irq_acknowledge,
         v2_gpt_is_ic_irq, V2_OM_NUM, V2_IM_NUM.
       rewrite G3, G2. simpl. repeat split; by repeat eexists. }
  all: unfold v2_gpt_ic_setup, V2_IM_MODE_BOTH;
    destruct (arg >? 3); simpl; rewrite ?Hl; repeat split; by repeat eexists.
Qed.

Lemma channel_operations_return_witness :
  0 ≤ 4294967295 < 2 ^ 32 ∧
  icap_lock_held (regs_state 0x549 0) = false ∧
  ∃ s', run 0 (v2_gpt_oc_setup bound_timer 4294967295 1) (regs_state 0x549 0)
        = Done tt s'.
Proof.
  assert (H1 : 0 ≤ 4294967295 < 2 ^ 32) by (split; [discriminate|reflexivity]).
  split; [exact H1|]. split; [reflexivity|].
  exact (proj1 (channel_operations_return 0 bound_timer (regs_state 0x549 0)
                  4294967295 1 H1 eq_refl)).
Defined.

(** ** The control register *)

(** X8.  Whatever the control and prescaler registers held,
    [v2_gpt_setup_tctl] leaves the timer stopped (run-enable clear) with
    both input capture modes disabled, and changes no register other than
    these two. *)
Theorem v2_gpt_setup_tctl_resets cpu imxtm s :
  IS_ERR (clk_per imxtm) = false →
  ∃ s', run cpu (v2_gpt_setup_tctl imxtm) s = Done tt s' ∧
        Z.testbit (reg s' (base imxtm + V2_REG_CR)) 0 = false ∧
        (∀ i, 16 ≤ i < 20 →
              Z.testbit (reg s' (base imxtm + V2_REG_CR)) i = false) ∧
        (∀ b, b ≠ base imxtm + V2_REG_CR → b ≠ base imxtm + V2_REG_PR →
              reg s' b = reg s b) ∧
        icap_lock_held s' = icap_lock_held s.
Proof.
  intros Hclk.
  assert (∃ rate, clk_get_rate (clk_per imxtm) = Ret rate) as [rate Hrate].
  { destruct (clk_per imxtm); [by eexists..|discriminate]. }
  eexists. split; [by apply (run_v2_gpt_setup_tctl _ _ _ rate)|].
  assert (Hcr : ∀ pr t,
            reg (st_writel pr (base imxtm + V2_REG_PR)
                   (st_writel (Z.lor (Z.lor V2_CR_WAITEN V2_CR_EN_24M)
                                 V2_CR_CLKSRC_IPG_CLK_24M)
                      (base imxtm + V2_REG_CR) t)) (base imxtm + V2_REG_CR)
            = 0x548).
  { intros pr t. rewrite reg_st_writel_ne by offsets.
    by rewrite reg_st_writel_eq. }
  split; [by rewrite Hcr|]. split; [|split; [|reflexivity]].
  - intros i Hi. rewrite Hcr.
    assert (i = 16 ∨ i = 17 ∨ i = 18 ∨ i = 19) as [->|[->|[->| ->]]] by lia;
      reflexivity.
  - intros b Hc Hp.
    by rewrite !reg_st_writel_ne by (by apply not_eq_sym).
Qed.

(** A running timer with both capture modes set (CR = 0xf0549). *)
Lemma v2_gpt_setup_tctl_resets_witness :
  IS_ERR (clk_per bound_timer) = false ∧
  Z.testbit (reg (regs_state 0xf0549 9) (base bound_timer + V2_REG_CR)) 0 = true ∧
  ∃ s', run 0 (v2_gpt_setup_tctl bound_timer) (regs_state 0xf0549 9)
        = Done tt s' ∧
        Z.testbit (reg s' (base bound_timer + V2_REG_CR)) 0 = false ∧
        reg s' (base bound_timer + V2_REG_IR) = 9.
Proof.
  split; [reflexivity|]. split; [reflexivity|].
  destruct (v2_gpt_setup_tctl_resets 0 bound_timer (regs_state 0xf0549 9)
              eq_refl) as (s' & Hrun & Hen & _ & Hframe & _).
  exists s'. split; [exact Hrun|]. split; [exact Hen|].
  rewrite Hframe by (simpl; discriminate). reflexivity.
Defined.

Lemma shl32_mode mode o :
  0 ≤ mode ≤ 3 → 0 ≤ o ≤ 18 →
  shl32 mode o = Z.shiftl mode o ∧ 0 ≤ Z.shiftl mode o < 2 ^ 32.
Proof.
  intros Hm Ho.
  assert (Hrange : 0 ≤ Z.shiftl mode o < 2 ^ 32).
  { rewrite Z.shiftl_mul_pow2 by lia.
    assert (0 < 2 ^ o) by (apply Z.pow_pos_nonneg; lia).
    assert (2 ^ o ≤ 2 ^ 18) by (apply Z.pow_le_mono_r; lia).
    change (2 ^ 18) with 262144 in *. change (2 ^ 32) with 4294967296.
    nia. }
  split; [|exact Hrange]. unfold shl32. by apply u32_small.
Qed.

Lemma run_v2_gpt_ic_setup cpu imxtm s chan mode :
  chan = 1 ∨ chan = 2 → 0 ≤ mode ≤ 3 →
  run cpu (v2_gpt_ic_setup imxtm chan mode) s
  = Done tt (st_writel (Z.lor (reg s (base imxtm + V2_REG_CR))
                          (Z.shiftl mode (im_mode_offset chan)))
               (base imxtm + V2_REG_CR) (st_readl (base imxtm + V2_REG_CR) s)).
Proof.
  intros Hc Hm.
  assert (Hguard : (mode >? V2_IM_MODE_BOTH) = false).
  { unfold V2_IM_MODE_BOTH. rewrite Z.gtb_ltb. apply Z.ltb_ge. lia. }
  destruct Hc as [-> | ->]; unfold v2_gpt_ic_setup; rewrite Hguard; simpl.
  - change V2_IM1_MODE_OFFSET with 16. change (im_mode_offset 1) with 16.
    by rewrite (proj1 (shl32_mode mode 16 Hm ltac:(lia))).
  - change V2_IM2_MODE_OFFSET with 18. change (im_mode_offset 2) with 18.
    by rewrite (proj1 (shl32_mode mode 18 Hm ltac:(lia))).
Qed.

Lemma lor_mode_range m1 m2 : 0 ≤ m1 ≤ 3 → 0 ≤ m2 ≤ 3 → 0 ≤ Z.lor m1 m2 ≤ 3.
Proof.
  intros H1 H2.
  assert (m1 = 0 ∨ m1 = 1 ∨ m1 = 2 ∨ m1 = 3) as [->|[->|[->| ->]]] by lia;
    assert (m2 = 0 ∨ m2 = 1 ∨ m2 = 2 ∨ m2 = 3) as [->|[->|[->| ->]]] by lia;
    split; discriminate.
Qed.

(** X9.  The mode field of an input capture channel accumulates: setting
    up mode [m1] and then mode [m2] leaves the registers that one setup
    with [m1 | m2] leaves, so a setup with [V2_IM_MODE_DISABLED] leaves the
    control register as it was and an edge once selected stays selected.
    No other register changes. *)
Theorem v2_gpt_ic_setup_accumulates cpu imxtm s chan m1 m2 :
  chan = 1 ∨ chan = 2 →
  0 ≤ m1 ≤ 3 → 0 ≤ m2 ≤ 3 →
  0 ≤ reg s (base imxtm + V2_REG_CR) < 2 ^ 32 →
  ∃ s12 s' sd,
    run cpu (v2_gpt_ic_setup imxtm chan m1;; v2_gpt_ic_setup imxtm chan m2) s
    = Done tt s12 ∧
    run cpu (v2_gpt_ic_setup imxtm chan (Z.lor m1 m2)) s = Done tt s' ∧
    run cpu (v2_gpt_ic_setup imxtm chan V2_IM_MODE_DISABLED) s = Done tt sd ∧
    (∀ b, reg s12 b = reg s' b) ∧
    (∀ b, reg sd b = reg s b).
Proof.
  intros Hc H1 H2 Hv.
  pose proof (lor_mode_range m1 m2 H1 H2) as H12.
  assert (Ho : 0 ≤ im_mode_offset chan ≤ 18)
    by (destruct Hc as [-> | ->]; split; discriminate).
  eexists _, _, _.
  split; [rewrite run_bind, run_v2_gpt_ic_setup by done;
          by apply run_v2_gpt_ic_setup|].
  split; [by apply run_v2_gpt_ic_setup|].
  split; [apply run_v2_gpt_ic_setup; [done | split; discriminate]|].
  split; intros b;
    (destruct (decide (base imxtm + V2_REG_CR = b)) as [<-|Hne];
     [|by repeat (first [rewrite reg_st_writel_ne by done | rewrite reg_st_readl])]).
  - rewrite !reg_st_writel_eq, u32_lor_lor.
    by rewrite <- Z.lor_assoc, <- Z.shiftl_lor.
  - rewrite reg_st_writel_eq.
    unfold V2_IM_MODE_DISABLED. rewrite Z.shiftl_0_l, Z.lor_0_r.
    by apply u32_small.
Qed.

(** Channel 2 in rising-edge mode, set up for falling edge: both edges. *)
Lemma v2_gpt_ic_setup_accumulates_witness :
  (2 = 1 ∨ 2 = 2) ∧ 0 ≤ 1 ≤ 3 ∧ 0 ≤ 2 ≤ 3 ∧
  0 ≤ reg (regs_state 0x549 0) (base bound_timer + V2_REG_CR) < 2 ^ 32 ∧
  ∃ s12 s' sd,
    run 0 (v2_gpt_ic_setup bound_timer 2 1;; v2_gpt_ic_setup bound_timer 2 2)
      (regs_state 0x549 0) = Done tt s12 ∧
    run 0 (v2_gpt_ic_setup bound_timer 2 (Z.lor 1 2)) (regs_state 0x549 0)
    = Done tt s' ∧
    run 0 (v2_gpt_ic_setup bound_timer 2 V2_IM_MODE_DISABLED)
      (regs_state 0x549 0) = Done tt sd ∧
    (∀ b, reg s12 b = reg s' b) ∧
    (∀ b, reg sd b = reg (regs_state 0x549 0) b).
Proof.
  assert (H0 : 2 = 1 ∨ 2 = 2) by (right; reflexivity).
  assert (H1 : 0 ≤ 1 ≤ 3) by (split; discriminate).
  assert (H2 : 0 ≤ 2 ≤ 3) by (split; discriminate).
  assert (H3 : 0 ≤ reg (regs_state 0x549 0) (base bound_timer + V2_REG_CR)
               < 2 ^ 32) by (split; [discriminate | reflexivity]).
  split; [exact H0|]. split; [exact H1|]. split; [exact H2|]. split; [exact H3|].
  exact (v2_gpt_ic_setup_accumulates 0 bound_timer (regs_state 0x549 0) 2 1 2
           H0 H1 H2 H3).
Defined.

(** X10.  [v2_gpt_enable] is idempotent and changes no register other than
    the control register; it takes no lock, and returns also while
    [icap_lock] is held. *)
Theorem v2_gpt_enable_idempotent cpu imxtm s :
  ∃ s1 s2,
    run cpu (v2_gpt_enable imxtm) s = Done tt s1 ∧
    run cpu (v2_gpt_enable imxtm;; v2_gpt_enable imxtm) s = Done tt s2 ∧
    (∀ b, reg s2 b = reg s1 b) ∧
    (∀ b, b ≠ base imxtm + V2_REG_CR → reg s1 b = reg s b) ∧
    Z.testbit (reg s1 (base imxtm + V2_REG_CR)) 0 = true ∧
    icap_lock_held s2 = icap_lock_held s.
Proof.
  eexists _, _. split; [apply run_v2_gpt_enable|].
  split; [rewrite run_bind, run_v2_gpt_enable; apply run_v2_gpt_enable|].
  split; [|split; [|split; [|reflexivity]]].
  - intros b. destruct (decide (base imxtm + V2_REG_CR = b)) as [<-|Hne];
      [|by repeat (first [rewrite reg_st_writel_ne by done | rewrite reg_st_readl])].
    rewrite !reg_st_writel_eq, u32_lor_lor.
    by rewrite <- Z.lor_assoc, Z.lor_diag.
  - intros b Hb. rewrite reg_st_writel_ne by (by apply not_eq_sym).
    apply reg_st_readl.
  - rewrite reg_st_writel_eq, u32_testbit, Z.lor_spec by lia.
    unfold V2_CR_EN. rewrite pow2_testbit by lia. by rewrite orb_true_r.
Qed.

(** X11.  The read-modify-writes of the control register are not under
    [icap_lock]: when [v2_gpt_enable] on one CPU and [v2_gpt_ic_setup] on
    another interleave, both return and the run-enable bit written by the
    first can be lost. *)
Theorem control_register_update_can_be_lost imxtm s0 :
  ∃ m,
    rtc smp_step
      (Build_smp (v2_gpt_enable imxtm)
         (v2_gpt_ic_setup imxtm 1 V2_IM_MODE_BOTH) s0) m ∧
    smp_done m ∧
    reg (smp_state m) (base imxtm + V2_REG_CR)
    = u32 (Z.lor (reg s0 (base imxtm + V2_REG_CR)) 0x30000) ∧
    (Z.testbit (reg s0 (base imxtm + V2_REG_CR)) 0 = false →
     Z.testbit (reg (smp_state m) (base imxtm + V2_REG_CR)) 0 = false).
Proof.
  eexists. split; [|split; [|split]].
  - eapply rtc_l; [apply smp_step_cpu0; reflexivity|].
    eapply rtc_l; [apply smp_step_cpu1; reflexivity|].
    eapply rtc_l; [apply smp_step_cpu0; reflexivity|].
    eapply rtc_l; [apply smp_step_cpu1; reflexivity|].
    apply rtc_refl.
  - split; reflexivity.
  - simpl smp_state. rewrite reg_st_writel_eq. reflexivity.
  - intros Hb. simpl smp_state.
    rewrite reg_st_writel_eq, u32_testbit, Z.lor_spec by lia.
    rewrite reg_st_readl, Hb. reflexivity.
Qed.

(** ** Probe: resources, clocks and the latch *)

Lemma of_device_get_match_data_unmatched pdev :
  ¬ In (compatible (dev_of_node pdev)) (map fst gpt_of_match) →
  of_device_get_match_data pdev = None.
Proof.
  intros Hn. unfold of_device_get_match_data.
  destruct (list_find _ gpt_of_match) as [[i [c d]]|] eqn:E; [|reflexivity].
  apply list_find_Some in E as (Hi & Hc & _). simpl in Hc.
  exfalso. apply Hn. rewrite <- Hc.
  apply list_elem_of_lookup_2, list_elem_of_In in Hi.
  by apply (in_map fst) in Hi.
Qed.

Lemma run_irq_op_held cpu imxtm o s :
  irq_op_valid o → icap_lock_held s = true →
  run cpu (irq_op_prog imxtm o) s = Deadlock s.
Proof. intros Hv Hl. rewrite irq_op_prog_rmw by done. simpl. by rewrite Hl. Qed.

(** What [gpt_setup] does on a timer object with a usable peripheral
    clock. *)
Lemma gpt_setup_outcome cpu imxtm pdev t :
  IS_ERR (clk_per imxtm) = false →
  match run cpu (gpt_setup imxtm pdev) t with
  | Done ret t' =>
      ret = 0 ∧ initialized t' = initialized t ∧
      icap_lock_held t = false ∧
      In (compatible (dev_of_node pdev)) (map fst gpt_of_match) ∧
      reg t' (base imxtm + V2_REG_CR) = 0x30549 ∧
      reg t' (base imxtm + V2_REG_OCR1) = 0xFFFFFFFF ∧
      reg t' (base imxtm + V2_REG_IR)
      = u32 (Z.lor (reg t (base imxtm + V2_REG_IR)) V2_IR_IF1IE)
  | Fault t' => t' = t
  | Deadlock t' => initialized t' = initialized t ∧ icap_lock_held t = true
  end.
Proof.
  intros Hclk.
  destruct (decide (In (compatible (dev_of_node pdev)) (map fst gpt_of_match)))
    as [Hm|Hm].
  - destruct (icap_lock_held t) eqn:Hl.
    + rewrite (gpt_setup_matched _ _ Hm).
      assert (∃ rate, clk_get_rate (clk_per imxtm) = Ret rate) as [rate Hrate].
      { destruct (clk_per imxtm); [by eexists..|discriminate]. }
      rewrite run_bind, (run_v2_gpt_setup_tctl _ _ _ _ Hrate).
      rewrite run_bind, run_v2_gpt_oc_setup_1.
      rewrite run_bind, run_v2_gpt_ic_setup_1 by reflexivity.
      rewrite run_bind, (run_irq_op_held cpu imxtm (IcIrqEnable 1))
        by (done || (simpl; unfold V2_IM_NUM; lia)).
      by split.
    + destruct (gpt_setup_run cpu imxtm pdev t Hclk Hl Hm)
        as (t' & pr & Hrun & _ & _ & Hcr & Hoc & Hir & Hin & _).
      rewrite Hrun. by repeat split.
  - unfold gpt_setup. rewrite (of_device_get_match_data_unmatched _ Hm).
    reflexivity.
Qed.

(** X12.  A probe with the latch clear programs the timer and sets the
    latch, returning 0, or leaves the latch clear; whenever it returns
    with the latch clear it has accessed no register.  A probe that
    does not return leaves the latch clear as well. *)
Theorem gpt_probe_all_or_nothing cpu pdev s :
  initialized s = 0 →
  match run cpu (gpt_probe pdev) s with
  | Done ret s' =>
      (initialized s' = 0 ∧ iomem s' = iomem s ∧ io_log s' = io_log s) ∨
      (ret = 0 ∧ initialized s' = 1 ∧
       reg s' (reg0 (dev_of_node pdev) + V2_REG_CR) = 0x30549 ∧
       reg s' (reg0 (dev_of_node pdev) + V2_REG_OCR1) = 0xFFFFFFFF ∧
       reg s' (reg0 (dev_of_node pdev) + V2_REG_IR)
       = u32 (Z.lor (reg s (reg0 (dev_of_node pdev) + V2_REG_IR)) V2_IR_IF1IE))
  | Fault s' | Deadlock s' => initialized s' = 0
  end.
Proof.
  intros Hinit. unfold gpt_probe. probe_step.
  rewrite Hinit. change (0 =? 0) with true. probe_step.
  destruct (slab s) as [|p rest] eqn:Hslab; probe_step.
  { left. by repeat split. }
  destruct (p =? 0) eqn:Hp; probe_step.
  { left. by repeat split. }
  destruct (reg0 (dev_of_node pdev) =? 0) eqn:Hreg; probe_step.
  { left. by repeat split. }
  destruct (s32 (interrupt0 (dev_of_node pdev)) <=? 0) eqn:Hirq.
  { destruct (interrupt0 (dev_of_node pdev) =? 0); probe_step;
      left; by repeat split. }
  assert (Hirq0 : (interrupt0 (dev_of_node pdev) =? 0) = false).
  { apply Z.eqb_neq. intros E. rewrite E, s32_0 in Hirq. discriminate Hirq. }
  rewrite Hirq0. probe_step.
  destruct (clk_lookup (dev_of_node pdev) "ipg") as [|ai ci|ei];
    destruct (clk_lookup (dev_of_node pdev) "osc_per") as [|ao co|eo];
    probe_step;
    try (destruct (clk_lookup (dev_of_node pdev) "per") as [|ap cp|ep];
         probe_step);
    try (left; by repeat split).
  all: rewrite run_bind;
    match goal with
    | |- context [run ?c (gpt_setup ?i ?d) ?t] =>
        pose proof (gpt_setup_outcome c i d t eq_refl) as Hs;
        destruct (run c (gpt_setup i d) t) as [ret t'|t'|t'];
        [ destruct Hs as (-> & Hi & _ & _ & Hcr & Hoc & Hir);
          right; split; [reflexivity|];
          split; [reflexivity|];
          split; [exact Hcr|]; split; [exact Hoc | exact Hir]
        | rewrite Hs; exact Hinit
        | destruct Hs as [Hs _]; simpl; by rewrite Hs ]
    end.
Qed.

Lemma gpt_probe_all_or_nothing_witness :
  initialized boot_state = 0 ∧
  match run 0 (gpt_probe imx8mm_gpt) boot_state with
  | Done ret s' => ret = 0 ∧ initialized s' = 1
  | _ => False
  end ∧
  match run 0 (gpt_probe {| dev_of_node := gpt_node_no_clocks |}) boot_state with
  | Done ret s' => ret = - ENOENT ∧ io_log s' = []
  | _ => False
  end.
Proof.
  split; [reflexivity|]. split.
  - pose proof (gpt_probe_all_or_nothing 0 imx8mm_gpt boot_state eq_refl) as H.
    destruct (run 0 (gpt_probe imx8mm_gpt) boot_state) as [ret s'|s'|s'] eqn:E.
    + vm_compute in E. injection E as <- <-. split; reflexivity.
    + vm_compute in E. discriminate E.
    + vm_compute in E. discriminate E.
  - pose proof (gpt_probe_all_or_nothing 0
                  {| dev_of_node := gpt_node_no_clocks |} boot_state eq_refl) as H.
    destruct (run 0 (gpt_probe {| dev_of_node := gpt_node_no_clocks |})
                boot_state) as [ret s'|s'|s'] eqn:E.
    + destruct H as [(_ & _ & Hlog)|(Hret & Hlatch & _)].
      * vm_compute in E. injection E as <- <-. split; reflexivity.
      * vm_compute in E. injection E as <- <-. discriminate Hret.
    + vm_compute in E. discriminate E.
    + vm_compute in E. discriminate E.
Defined.

(** The part of [gpt_probe] before [gpt_setup], with what it has acquired:
    the timer object, the mappings and the enabled clocks. *)
Lemma gpt_probe_resources cpu pdev s p rest :
  initialized s = 0 →
  slab s = p :: rest →
  p ≠ 0 →
  reg0 (dev_of_node pdev) ≠ 0 →
  0 < s32 (interrupt0 (dev_of_node pdev)) →
  IS_ERR (clk_lookup (dev_of_node pdev) "ipg") = false →
  IS_ERR (clk_per_lookup (dev_of_node pdev)) = false →
  ∃ imxtm t,
    run cpu (gpt_probe pdev) s =
      match run cpu (gpt_setup imxtm pdev) t with
      | Done ret t' =>
          if negb (ret =? 0) then Done ret t' else Done 0 (upd_initialized 1 t')
      | Fault t' => Fault t'
      | Deadlock t' => Deadlock t'
      end ∧
    base imxtm = reg0 (dev_of_node pdev) ∧
    clk_per imxtm = clk_per_lookup (dev_of_node pdev) ∧
    clk_ipg imxtm = clk_lookup (dev_of_node pdev) "ipg" ∧
    iomem t = iomem s ∧ io_log t = io_log s ∧
    icap_lock_held t = icap_lock_held s ∧
    slab t = rest ∧
    kobjs t = p :: kobjs s ∧
    iomaps t = reg0 (dev_of_node pdev) :: iomaps s ∧
    virqs t = interrupt0 (dev_of_node pdev) :: virqs s ∧
    clk_on t = enabled_clk (clk_per_lookup (dev_of_node pdev)) ++
               enabled_clk (clk_lookup (dev_of_node pdev) "ipg") ++ clk_on s.
Proof.
  intros Hinit Hslab Hp Hreg Hirq Hipg Hper.
  assert (Hirq0 : (interrupt0 (dev_of_node pdev) =? 0) = false).
  { apply Z.eqb_neq. intros E. rewrite E, s32_0 in Hirq. lia. }
  assert (Hirq1 : (s32 (interrupt0 (dev_of_node pdev)) <=? 0) = false)
    by (apply Z.leb_gt; exact Hirq).
  apply Z.eqb_neq in Hp, Hreg.
  unfold clk_per_lookup in *.
  unfold gpt_probe.
  probe_step.
  rewrite Hinit. change (0 =? 0) with true.
  probe_step.
  rewrite Hslab. probe_step.
  rewrite Hp. probe_step.
  rewrite Hreg. probe_step.
  rewrite Hirq0, Hirq1. probe_step.
  destruct (clk_lookup (dev_of_node pdev) "ipg") as [|ai ci|ei];
    try discriminate Hipg;
    destruct (clk_lookup (dev_of_node pdev) "osc_per") as [|ao co|eo];
    probe_step;
    try (destruct (clk_lookup (dev_of_node pdev) "per") as [|ap cp|ep];
         try discriminate Hper;
         probe_step);
    rewrite run_bind;
    match goal with
    | |- context [run ?c (gpt_setup ?i ?d) ?t] =>
        exists i, t; split;
        [ destruct (run c (gpt_setup i d) t) as [ret t'| |];
          [destruct (negb (ret =? 0))|..]; reflexivity
        | repeat split; reflexivity ]
    end.
Qed.

(** The prescaler [gpt_setup] leaves, and what it does not touch. *)
Lemma gpt_setup_prescaler cpu imxtm pdev t rate :
  clk_get_rate (clk_per imxtm) = Ret rate →
  icap_lock_held t = false →
  In (compatible (dev_of_node pdev)) (map fst gpt_of_match) →
  ∃ t',
    run cpu (gpt_setup imxtm pdev) t = Done 0 t' ∧
    reg t' (base imxtm + V2_REG_PR)
    = (if rate =? 3000000 then V2_PR_PRE24M_DIV_8 else V2_PR_PRE24M_DIV_3) ∧
    slab t' = slab t ∧ kobjs t' = kobjs t ∧ iomaps t' = iomaps t ∧
    virqs t' = virqs t ∧ clk_on t' = clk_on t.
Proof.
  intros Hrate Hl Hm. rewrite (gpt_setup_matched _ _ Hm).
  rewrite run_bind, (run_v2_gpt_setup_tctl _ _ _ _ Hrate).
  rewrite run_bind, run_v2_gpt_oc_setup_1.
  rewrite run_bind, run_v2_gpt_ic_setup_1 by reflexivity.
  rewrite run_bind, (run_irq_op cpu imxtm (IcIrqEnable 1))
    by (done || (simpl; unfold V2_IM_NUM; lia)).
  rewrite run_bind, run_v2_gpt_enable.
  eexists. split; [reflexivity|]. split; [|by repeat split].
  rewrite reg_st_writel_ne, reg_st_readl by offsets.
  rewrite reg_rmw_result_ne by offsets.
  rewrite reg_st_writel_ne, reg_st_readl by offsets.
  rewrite reg_st_writel_ne by offsets.
  rewrite reg_st_writel_eq.
  destruct (rate =? 3000000); reflexivity.
Qed.

(** X13.  A successful probe takes the peripheral clock named "osc_per"
    when the node has one and "per" otherwise, derives the prescaler from
    the rate of that clock, and keeps what it acquired: the timer object,
    the two mappings and the two clocks, "ipg" enabled before the
    peripheral clock. *)
Theorem gpt_probe_clock_selection cpu pdev s p rest rate :
  initialized s = 0 →
  icap_lock_held s = false →
  In (compatible (dev_of_node pdev)) (map fst gpt_of_match) →
  slab s = p :: rest →
  p ≠ 0 →
  reg0 (dev_of_node pdev) ≠ 0 →
  0 < s32 (interrupt0 (dev_of_node pdev)) →
  IS_ERR (clk_lookup (dev_of_node pdev) "ipg") = false →
  clk_get_rate (clk_per_lookup (dev_of_node pdev)) = Ret rate →
  ∃ s',
    run cpu (gpt_probe pdev) s = Done 0 s' ∧
    reg s' (reg0 (dev_of_node pdev) + V2_REG_PR)
    = (if rate =? 3000000 then V2_PR_PRE24M_DIV_8 else V2_PR_PRE24M_DIV_3) ∧
    clk_on s' = enabled_clk (clk_per_lookup (dev_of_node pdev)) ++
                enabled_clk (clk_lookup (dev_of_node pdev) "ipg") ++ clk_on s ∧
    slab s' = rest ∧
    kobjs s' = p :: kobjs s ∧
    iomaps s' = reg0 (dev_of_node pdev) :: iomaps s ∧
    virqs s' = interrupt0 (dev_of_node pdev) :: virqs s.
Proof.
  intros Hinit Hl Hm Hslab Hp Hreg Hirq Hipg Hrate.
  assert (Hper : IS_ERR (clk_per_lookup (dev_of_node pdev)) = false).
  { destruct (clk_per_lookup (dev_of_node pdev)); [done..|discriminate Hrate]. }
  destruct (gpt_probe_resources cpu pdev s p rest Hinit Hslab Hp Hreg Hirq
              Hipg Hper)
    as (imxtm & t & Hrun & Hb & Hcp & Hci & Hio & Hlog & Hlk & Hsl & Hko
        & Him & Hvi & Hck).
  rewrite <- Hcp in Hrate. rewrite <- Hlk in Hl.
  destruct (gpt_setup_prescaler cpu imxtm pdev t rate Hrate Hl Hm)
    as (t' & Hset & Hpr & Hsl' & Hko' & Him' & Hvi' & Hck').
  rewrite Hset in Hrun. simpl in Hrun.
  exists (upd_initialized 1 t'). split; [exact Hrun|].
  split; [rewrite <- Hb; exact Hpr|]. simpl.
  rewrite Hck', Hsl', Hko', Him', Hvi'. by repeat split.
Qed.

(** The i.MX8MM node names "per" only (24 MHz): divide by 3. *)
Lemma gpt_probe_clock_selection_witness :
  initialized boot_state = 0 ∧
  slab boot_state = [0x8000] ∧
  clk_get_rate (clk_per_lookup (dev_of_node imx8mm_gpt)) = Ret 24000000 ∧
  ∃ s',
    run 0 (gpt_probe imx8mm_gpt) boot_state = Done 0 s' ∧
    reg s' (reg0 (dev_of_node imx8mm_gpt) + V2_REG_PR) = V2_PR_PRE24M_DIV_3 ∧
    clk_on s' = [0x2040; 0x2000].
Proof.
  assert (H1 : initialized boot_state = 0) by reflexivity.
  assert (H2 : icap_lock_held boot_state = false) by reflexivity.
  assert (H3 : In (compatible (dev_of_node imx8mm_gpt)) (map fst gpt_of_match))
    by (right; left; reflexivity).
  assert (H4 : slab boot_state = [0x8000]) by reflexivity.
  assert (H5 : 0x8000 ≠ 0) by discriminate.
  assert (H6 : reg0 (dev_of_node imx8mm_gpt) ≠ 0) by discriminate.
  assert (H7 : 0 < s32 (interrupt0 (dev_of_node imx8mm_gpt))) by reflexivity.
  assert (H8 : IS_ERR (clk_lookup (dev_of_node imx8mm_gpt) "ipg") = false)
    by reflexivity.
  assert (H9 : clk_get_rate (clk_per_lookup (dev_of_node imx8mm_gpt))
               = Ret 24000000) by reflexivity.
  split; [exact H1|]. split; [exact H4|]. split; [exact H9|].
  destruct (gpt_probe_clock_selection 0 imx8mm_gpt boot_state 0x8000 []
              24000000 H1 H2 H3 H4 H5 H6 H7 H8 H9)
    as (s' & Hrun & Hpr & Hck & _).
  exists s'. split; [exact Hrun|]. split; [exact Hpr | exact Hck].
Defined.

(** X20.  When the "ipg" clock is missing, the probe returns [PTR_ERR] of
    the peripheral clock pointer whatever that pointer is: an errno when
    the peripheral clock is missing too, the address of the clock when it
    is there.  No clock is enabled, no register is accessed, the latch
    stays clear and the timer object stays allocated. *)
Theorem gpt_probe_ipg_failure cpu pdev s p rest :
  initialized s = 0 →
  slab s = p :: rest →
  p ≠ 0 →
  reg0 (dev_of_node pdev) ≠ 0 →
  0 < s32 (interrupt0 (dev_of_node pdev)) →
  IS_ERR (clk_lookup (dev_of_node pdev) "ipg") = true →
  ∃ s',
    run cpu (gpt_probe pdev) s
    = Done (s32 (PTR_ERR (clk_per_lookup (dev_of_node pdev)))) s' ∧
    iomem s' = iomem s ∧ io_log s' = io_log s ∧
    initialized s' = 0 ∧
    clk_on s' = clk_on s ∧
    kobjs s' = p :: kobjs s.
Proof.
  intros Hinit Hslab Hp Hreg Hirq Hipg.
  assert (Hirq0 : (interrupt0 (dev_of_node pdev) =? 0) = false).
  { apply Z.eqb_neq. intros E. rewrite E, s32_0 in Hirq. lia. }
  assert (Hirq1 : (s32 (interrupt0 (dev_of_node pdev)) <=? 0) = false)
    by (apply Z.leb_gt; exact Hirq).
  apply Z.eqb_neq in Hp, Hreg.
  unfold clk_per_lookup, gpt_probe.
  probe_step.
  rewrite Hinit. change (0 =? 0) with true.
  probe_step.
  rewrite Hslab. probe_step.
  rewrite Hp. probe_step.
  rewrite Hreg. probe_step.
  rewrite Hirq0, Hirq1. probe_step.
  destruct (clk_lookup (dev_of_node pdev) "ipg") as [|ai ci|ei];
    try discriminate Hipg;
    destruct (clk_lookup (dev_of_node pdev) "osc_per") as [|ao co|eo];
    probe_step;
    try (destruct (clk_lookup (dev_of_node pdev) "per") as [|ap cp|ep];
         probe_step);
    (eexists; split; [reflexivity|]; by repeat split).
Qed.

(** A node with a peripheral clock at 0x2040 and no "ipg" clock: the probe
    returns 0x2040. *)
Lemma gpt_probe_ipg_failure_witness :
  initialized boot_state = 0 ∧
  slab boot_state = [0x8000] ∧
  IS_ERR (clk_lookup gpt_node_no_ipg "ipg") = true ∧
  ∃ s',
    run 0 (gpt_probe {| dev_of_node := gpt_node_no_ipg |}) boot_state
    = Done 0x2040 s' ∧
    initialized s' = 0 ∧ clk_on s' = [].
Proof.
  assert (H1 : initialized boot_state = 0) by reflexivity.
  assert (H2 : slab boot_state = [0x8000]) by reflexivity.
  assert (H3 : 0x8000 ≠ 0) by discriminate.
  assert (H4 : reg0 gpt_node_no_ipg ≠ 0) by discriminate.
  assert (H5 : 0 < s32 (interrupt0 gpt_node_no_ipg)) by reflexivity.
  assert (H6 : IS_ERR (clk_lookup gpt_node_no_ipg "ipg") = true) by reflexivity.
  split; [exact H1|]. split; [exact H2|]. split; [exact H6|].
  destruct (gpt_probe_ipg_failure 0 {| dev_of_node := gpt_node_no_ipg |}
              boot_state 0x8000 [] H1 H2 H3 H4 H5 H6)
    as (s' & Hrun & _ & _ & Hi & Hck & _).
  exists s'. split; [exact Hrun|]. split; [exact Hi | exact Hck].
Defined.

(** ** The driver callbacks *)

(** X14.  Once the latch is set, whatever devices the driver core binds
    and unbinds, every callback returns 0 and the state stays as it is:
    unbinding releases nothing and does not clear the latch, and no
    further device is programmed. *)
Theorem gpt_driver_latched cpu calls s :
  initialized s ≠ 0 →
  run cpu (driver_core_calls gpt_driver calls) s
  = Done (map (λ _, 0) calls) s.
Proof.
  intros Hinit. induction calls as [|c calls IH]; [reflexivity|].
  cbn [driver_core_calls map]. rewrite run_bind.
  assert (Hc : run cpu (driver_core_call gpt_driver c) s = Done 0 s).
  { destruct c as [pdev|pdev]; [by apply probe_latched | reflexivity]. }
  rewrite Hc, run_bind, IH. reflexivity.
Qed.

Lemma gpt_driver_latched_witness :
  initialized (regs_state 0x30549 8) ≠ 0 ∧
  run 0 (driver_core_calls gpt_driver
           [Unbind imx8mm_gpt; Bind imx8mm_gpt;
            Bind {| dev_of_node := gpt_node_no_irq |}])
    (regs_state 0x30549 8)
  = Done [0; 0; 0] (regs_state 0x30549 8).
Proof.
  assert (H : initialized (regs_state 0x30549 8) ≠ 0) by discriminate.
  split; [exact H|].
  exact (gpt_driver_latched 0
           [Unbind imx8mm_gpt; Bind imx8mm_gpt;
            Bind {| dev_of_node := gpt_node_no_irq |}]
           (regs_state 0x30549 8) H).
Defined.

(** ** The match table *)

(** X15.  A device has match data exactly when its compatible string is
    one of the three of [gpt_of_match], and the data is then
    [v2_gpt_data]; [gpt_setup] does not test the data for NULL, and on any
    other device it faults before it accesses a register. *)
Theorem gpt_of_match_data pdev :
  (of_device_get_match_data pdev = Some v2_gpt_data ↔
   compatible (dev_of_node pdev) = "fsl,imx8mn-gpt"%string ∨
   compatible (dev_of_node pdev) = "fsl,imx8mm-gpt"%string ∨
   compatible (dev_of_node pdev) = "fsl,imx8mp-gpt"%string) ∧
  (of_device_get_match_data pdev = None ∨
   of_device_get_match_data pdev = Some v2_gpt_data) ∧
  (of_device_get_match_data pdev = None →
   ∀ cpu imxtm t, run cpu (gpt_setup imxtm pdev) t = Fault t).
Proof.
  assert (Hin : In (compatible (dev_of_node pdev)) (map fst gpt_of_match) ↔
                compatible (dev_of_node pdev) = "fsl,imx8mn-gpt"%string ∨
                compatible (dev_of_node pdev) = "fsl,imx8mm-gpt"%string ∨
                compatible (dev_of_node pdev) = "fsl,imx8mp-gpt"%string).
  { simpl. split.
    - intros [H|[H|[H|[]]]]; auto.
    - intros [H|[H|H]]; auto. }
  destruct (decide (In (compatible (dev_of_node pdev)) (map fst gpt_of_match)))
    as [Hm|Hm].
  - pose proof (of_device_get_match_data_matched _ Hm) as E.
    split; [|split].
    + split; [intros _; by apply Hin | intros _; exact E].
    + by right.
    + rewrite E. discriminate.
  - pose proof (of_device_get_match_data_unmatched _ Hm) as E.
    split; [|split].
    + split; [rewrite E; discriminate | intros H; by apply Hin in H].
    + by left.
    + intros _ cpu imxtm t. unfold gpt_setup. rewrite E. reflexivity.
Qed.

(** ** Two contexts: exclusion and termination *)

Lemma in_critical_section_rmw_code a f pt :
  in_critical_section (rmw_code a f pt) = holds_lock pt.
Proof. by destruct pt. Qed.

Lemma smp_inv_reachable imxtm oA oB s0 m :
  irq_op_valid oA → irq_op_valid oB →
  icap_lock_held s0 = false →
  rtc smp_step (Build_smp (irq_op_prog imxtm oA) (irq_op_prog imxtm oB) s0) m →
  smp_inv (base imxtm + V2_REG_IR) (irq_op_modify oA) (irq_op_modify oB) s0 m.
Proof.
  intros HA HB Hl Hsteps. rewrite !irq_op_prog_rmw in Hsteps by done.
  eapply smp_inv_rtc; [|exact Hsteps].
  exists AtLock, AtLock. split; [done|]. split; [done|]. by apply rmw_inv_init.
Qed.

Lemma uni_inv_reachable imxtm oA oB s0 m :
  irq_op_valid oA → irq_op_valid oB →
  icap_lock_held s0 = false →
  0%nat ∉ irq_off s0 →
  rtc irq_step
    (Build_uni (irq_op_prog imxtm oA) (Pending (irq_op_prog imxtm oB)) s0) m →
  ∃ pt0 pt1,
    uni_inv (base imxtm + V2_REG_IR) (irq_op_modify oA) (irq_op_modify oB)
      s0 m pt0 pt1.
Proof.
  intros HA HB Hl Hi Hsteps. rewrite !irq_op_prog_rmw in Hsteps by done.
  eapply uni_inv_rtc; [|exact Hsteps]. by apply uni_inv_init.
Qed.

(** X16.  Two valid interrupt enable or disable calls on two CPUs: in
    every state they can reach at most one of them is between taking and
    releasing [icap_lock], the lock is held exactly then, and no register
    other than the interrupt-enable register has changed. *)
Theorem smp_irq_ops_mutual_exclusion imxtm oA oB s0 m :
  irq_op_valid oA → irq_op_valid oB →
  icap_lock_held s0 = false →
  rtc smp_step (Build_smp (irq_op_prog imxtm oA) (irq_op_prog imxtm oB) s0) m →
  in_critical_section (cpu0 m) && in_critical_section (cpu1 m) = false ∧
  icap_lock_held (smp_state m)
  = in_critical_section (cpu0 m) || in_critical_section (cpu1 m) ∧
  ∀ b, b ≠ base imxtm + V2_REG_IR → reg (smp_state m) b = reg s0 b.
Proof.
  intros HA HB Hl Hsteps.
  destruct (smp_inv_reachable imxtm oA oB s0 m HA HB Hl Hsteps)
    as (pt0 & pt1 & E0 & E1 & [Hlock Hexcl _ _ _ Hframe]).
  rewrite E0, E1, !in_critical_section_rmw_code. by repeat split.
Qed.

(** CPU 1 has taken the lock and read the register; CPU 0 has not
    started. *)
Lemma smp_irq_ops_mutual_exclusion_witness :
  irq_op_valid (OcIrqEnable 1) ∧ irq_op_valid (IcIrqDisable 2) ∧
  ∃ m,
    rtc smp_step
      (Build_smp (irq_op_prog bound_timer (OcIrqEnable 1))
         (irq_op_prog bound_timer (IcIrqDisable 2)) (regs_state 0x549 9)) m ∧
    in_critical_section (cpu1 m) = true ∧
    in_critical_section (cpu0 m) && in_critical_section (cpu1 m) = false ∧
    icap_lock_held (smp_state m) = true.
Proof.
  assert (H1 : irq_op_valid (OcIrqEnable 1)) by (split; discriminate).
  assert (H2 : irq_op_valid (IcIrqDisable 2)) by (split; discriminate).
  split; [exact H1|]. split; [exact H2|].
  assert (Hexec : ∃ m,
    rtc smp_step
      (Build_smp (irq_op_prog bound_timer (OcIrqEnable 1))
         (irq_op_prog bound_timer (IcIrqDisable 2)) (regs_state 0x549 9)) m ∧
    in_critical_section (cpu1 m) = true ∧
    icap_lock_held (smp_state m) = true).
  { eexists. split; [|split].
    - do 2 (eapply rtc_l; [apply smp_step_cpu1; reflexivity|]). apply rtc_refl.
    - reflexivity.
    - reflexivity. }
  destruct Hexec as (m & Hsteps & Hc & Hl).
  exists m. split; [exact Hsteps|]. split; [exact Hc|]. split; [|exact Hl].
  exact (proj1 (smp_irq_ops_mutual_exclusion bound_timer (OcIrqEnable 1)
                  (IcIrqDisable 2) (regs_state 0x549 9) m H1 H2 eq_refl Hsteps)).
Defined.

(** X17.  A task and an interrupt handler on one CPU, each making a valid
    interrupt enable or disable call: in every state they can reach the
    handler is not running while the task is between taking and releasing
    [icap_lock], local interrupts are disabled whenever the lock is held,
    and no register other than the interrupt-enable register has
    changed. *)
Theorem uni_irq_ops_exclusion imxtm oA oB s0 m :
  irq_op_valid oA → irq_op_valid oB →
  icap_lock_held s0 = false →
  0%nat ∉ irq_off s0 →
  rtc irq_step
    (Build_uni (irq_op_prog imxtm oA) (Pending (irq_op_prog imxtm oB)) s0) m →
  (is_active (handler m) = true → in_critical_section (task m) = false) ∧
  (icap_lock_held (uni_state m) = true → 0%nat ∈ irq_off (uni_state m)) ∧
  ∀ b, b ≠ base imxtm + V2_REG_IR → reg (uni_state m) b = reg s0 b.
Proof.
  intros HA HB Hl Hi Hsteps.
  destruct (uni_inv_reachable imxtm oA oB s0 m HA HB Hl Hi Hsteps)
    as (pt0 & pt1 & [Ht Hh [Hlock _ _ _ _ Hframe] Hoff Hexcl _ _]).
  split; [|split; [|exact Hframe]].
  - intros Ha. rewrite Ht, in_critical_section_rmw_code. by apply Hexcl.
  - intros Hheld. apply Hoff. rewrite Hlock in Hheld.
    apply orb_true_iff in Hheld as [H0|H1]; [by left|right].
    destruct (handler m) as [p|p|]; simpl in Hh.
    + destruct Hh as [_ ->]. discriminate H1.
    + reflexivity.
    + subst pt1. discriminate H1.
Qed.

(** The task has taken the lock: interrupts are off. *)
Lemma uni_irq_ops_exclusion_witness :
  irq_op_valid (OcIrqEnable 1) ∧ irq_op_valid (IcIrqEnable 1) ∧
  (0%nat ∉ irq_off (regs_state 0x549 0)) ∧
  ∃ m,
    rtc irq_step
      (Build_uni (irq_op_prog bound_timer (OcIrqEnable 1))
         (Pending (irq_op_prog bound_timer (IcIrqEnable 1)))
         (regs_state 0x549 0)) m ∧
    icap_lock_held (uni_state m) = true ∧
    (0%nat ∈ irq_off (uni_state m)).
Proof.
  assert (H1 : irq_op_valid (OcIrqEnable 1)) by (split; discriminate).
  assert (H2 : irq_op_valid (IcIrqEnable 1)) by (split; discriminate).
  assert (H4 : 0%nat ∉ irq_off (regs_state 0x549 0)).
  { intros H. by apply elem_of_empty in H. }
  split; [exact H1|]. split; [exact H2|]. split; [exact H4|].
  assert (Hexec : ∃ m,
    rtc irq_step
      (Build_uni (irq_op_prog bound_timer (OcIrqEnable 1))
         (Pending (irq_op_prog bound_timer (IcIrqEnable 1)))
         (regs_state 0x549 0)) m ∧
    icap_lock_held (uni_state m) = true).
  { eexists. split.
    - eapply rtc_l; [apply irq_step_task; reflexivity|]. apply rtc_refl.
    - reflexivity. }
  destruct Hexec as (m & Hsteps & Hheld).
  exists m. split; [exact Hsteps|]. split; [exact Hheld|].
  destruct (uni_irq_ops_exclusion bound_timer (OcIrqEnable 1) (IcIrqEnable 1)
              (regs_state 0x549 0) m H1 H2 eq_refl H4 Hsteps) as (_ & Hoff & _).
  exact (Hoff Hheld).
Defined.

Lemma remaining_0 pt : remaining pt = 0%nat → pt = AtEnd.
Proof. by destruct pt. Qed.

Lemma smp_steps_measure a s0 f0 f1 n : ∀ m m' pt0 pt1,
  cpu0 m = rmw_code a f0 pt0 →
  cpu1 m = rmw_code a f1 pt1 →
  rmw_inv a f0 f1 s0 pt0 pt1 (smp_state m) →
  nsteps smp_step n m m' →
  ∃ pt0' pt1',
    cpu0 m' = rmw_code a f0 pt0' ∧ cpu1 m' = rmw_code a f1 pt1' ∧
    rmw_inv a f0 f1 s0 pt0' pt1' (smp_state m') ∧
    (remaining pt0 + remaining pt1 = n + (remaining pt0' + remaining pt1'))%nat.
Proof.
  induction n as [|n IH]; intros m m' pt0 pt1 E0 E1 Hinv Hn.
  - inversion Hn; subst. by exists pt0, pt1.
  - inversion Hn as [|n' x y z Hstep Hrest]; subst.
    destruct (smp_step_measure a s0 f0 f1 m y pt0 pt1 E0 E1 Hinv Hstep)
      as (q0 & q1 & F0 & F1 & Hinv' & Hm).
    destruct (IH y m' q0 q1 F0 F1 Hinv' Hrest)
      as (r0 & r1 & G0 & G1 & Hinv'' & Hm').
    exists r0, r1. split; [done|]. split; [done|]. split; [done|]. lia.
Qed.

Lemma uni_steps_measure a s0 f0 f1 n : ∀ m m' pt0 pt1,
  uni_inv a f0 f1 s0 m pt0 pt1 →
  nsteps irq_step n m m' →
  ∃ pt0' pt1',
    uni_inv a f0 f1 s0 m' pt0' pt1' ∧
    (remaining pt0 + handler_remaining (handler m) pt1
     = n + (remaining pt0' + handler_remaining (handler m') pt1'))%nat.
Proof.
  induction n as [|n IH]; intros m m' pt0 pt1 Hinv Hn.
  - inversion Hn; subst. by exists pt0, pt1.
  - inversion Hn as [|n' x y z Hstep Hrest]; subst.
    destruct (uni_inv_step a s0 f0 f1 m y pt0 pt1 Hinv Hstep)
      as (q0 & q1 & Hinv' & Hm).
    destruct (IH y m' q0 q1 Hinv' Hrest) as (r0 & r1 & Hinv'' & Hm').
    exists r0, r1. split; [done|]. lia.
Qed.

(** X18.  Two valid interrupt enable or disable calls on two CPUs return
    after exactly eight kernel calls, however the CPUs are scheduled: no
    execution has more than eight steps, an execution of fewer can be
    continued, and the calls have both returned exactly after the
    eighth. *)
Theorem smp_irq_ops_terminate imxtm oA oB s0 n m :
  irq_op_valid oA → irq_op_valid oB →
  icap_lock_held s0 = false →
  nsteps smp_step n
    (Build_smp (irq_op_prog imxtm oA) (irq_op_prog imxtm oB) s0) m →
  (n ≤ 8)%nat ∧
  (smp_done m ↔ n = 8%nat) ∧
  ((n < 8)%nat → ∃ m', smp_step m m').
Proof.
  intros HA HB Hl Hn. rewrite !irq_op_prog_rmw in Hn by done.
  destruct (smp_steps_measure (base imxtm + V2_REG_IR) s0 (irq_op_modify oA)
              (irq_op_modify oB) n (Build_smp _ _ s0) m AtLock AtLock
              eq_refl eq_refl (rmw_inv_init _ s0 _ _ Hl) Hn)
    as (pt0 & pt1 & E0 & E1 & Hinv & Hm).
  simpl in Hm.
  assert (Hdone : smp_done m ↔ n = 8%nat).
  { split.
    - intros [D0 D1]. rewrite D0 in E0. rewrite D1 in E1.
      symmetry in E0, E1.
      apply rmw_code_done in E0 as ->. apply rmw_code_done in E1 as ->.
      simpl in Hm. lia.
    - intros ->.
      assert (pt0 = AtEnd) as -> by (apply remaining_0; lia).
      assert (pt1 = AtEnd) as -> by (apply remaining_0; lia).
      by split. }
  split; [lia|]. split; [exact Hdone|].
  intros Hlt.
  assert (Hsmp : smp_inv (base imxtm + V2_REG_IR) (irq_op_modify oA)
                   (irq_op_modify oB) s0 m) by (by exists pt0, pt1).
  destruct (smp_inv_progress _ s0 _ _ m Hsmp) as [Hd|Hs]; [|exact Hs].
  apply Hdone in Hd. lia.
Qed.

(** CPU 0 runs its call to the end, then CPU 1. *)
Lemma smp_irq_ops_terminate_witness :
  irq_op_valid (OcIrqEnable 2) ∧ irq_op_valid (OcIrqDisable 3) ∧
  ∃ m,
    nsteps smp_step 8
      (Build_smp (irq_op_prog bound_timer (OcIrqEnable 2))
         (irq_op_prog bound_timer (OcIrqDisable 3)) (regs_state 0x549 0)) m ∧
    smp_done m.
Proof.
  assert (H1 : irq_op_valid (OcIrqEnable 2)) by (split; discriminate).
  assert (H2 : irq_op_valid (OcIrqDisable 3)) by (split; discriminate).
  split; [exact H1|]. split; [exact H2|].
  assert (Hexec : ∃ m,
    nsteps smp_step 8
      (Build_smp (irq_op_prog bound_timer (OcIrqEnable 2))
         (irq_op_prog bound_timer (OcIrqDisable 3)) (regs_state 0x549 0)) m).
  { eexists.
    do 4 (eapply nsteps_l; [apply smp_step_cpu0; reflexivity|]).
    do 4 (eapply nsteps_l; [apply smp_step_cpu1; reflexivity|]).
    apply nsteps_O. }
  destruct Hexec as (m & Hn).
  exists m. split; [exact Hn|].
  destruct (smp_irq_ops_terminate bound_timer (OcIrqEnable 2) (OcIrqDisable 3)
              (regs_state 0x549 0) 8 m H1 H2 eq_refl Hn) as (_ & Hd & _).
  by apply Hd.
Defined.

(** X19.  A task and an interrupt handler on one CPU, each making a valid
    interrupt enable or disable call: both have returned after exactly
    ten steps (eight kernel calls, the entry and the return of the
    handler), whenever the interrupt arrives. *)
Theorem uni_irq_ops_terminate imxtm oA oB s0 n m :
  irq_op_valid oA → irq_op_valid oB →
  icap_lock_held s0 = false →
  0%nat ∉ irq_off s0 →
  nsteps irq_step n
    (Build_uni (irq_op_prog imxtm oA) (Pending (irq_op_prog imxtm oB)) s0) m →
  (n ≤ 10)%nat ∧
  (uni_done m ↔ n = 10%nat) ∧
  ((n < 10)%nat → ∃ m', irq_step m m').
Proof.
  intros HA HB Hl Hi Hn. rewrite !irq_op_prog_rmw in Hn by done.
  destruct (uni_steps_measure (base imxtm + V2_REG_IR) s0 (irq_op_modify oA)
              (irq_op_modify oB) n _ m AtLock AtLock
              (uni_inv_init _ s0 _ _ Hl Hi) Hn)
    as (pt0 & pt1 & Hinv & Hm).
  simpl in Hm.
  assert (Hdone : uni_done m ↔ n = 10%nat).
  { pose proof Hinv as [Ht Hh _ _ _ _ _]. split.
    - intros [D0 D1]. rewrite D0 in Ht. symmetry in Ht.
      apply rmw_code_done in Ht as ->. rewrite D1 in Hm. simpl in Hm. lia.
    - intros ->.
      assert (pt0 = AtEnd) as -> by (apply remaining_0; lia).
      split; [exact Ht|].
      destruct (handler m) as [p|p|]; simpl in Hm; [lia | lia | reflexivity]. }
  split; [lia|]. split; [exact Hdone|].
  intros Hlt.
  destruct (uni_inv_progress _ s0 _ _ m pt0 pt1 Hinv) as [Hd|Hs]; [|exact Hs].
  apply Hdone in Hd. lia.
Qed.

(** The interrupt arrives before the task starts. *)
Lemma uni_irq_ops_terminate_witness :
  irq_op_valid (OcIrqEnable 1) ∧ irq_op_valid (IcIrqEnable 1) ∧
  (0%nat ∉ irq_off (regs_state 0x549 0)) ∧
  ∃ m,
    nsteps irq_step 10
      (Build_uni (irq_op_prog bound_timer (OcIrqEnable 1))
         (Pending (irq_op_prog bound_timer (IcIrqEnable 1)))
         (regs_state 0x549 0)) m ∧
    uni_done m.
Proof.
  assert (H1 : irq_op_valid (OcIrqEnable 1)) by (split; discriminate).
  assert (H2 : irq_op_valid (IcIrqEnable 1)) by (split; discriminate).
  assert (H4 : 0%nat ∉ irq_off (regs_state 0x549 0)).
  { intros H. by apply elem_of_empty in H. }
  split; [exact H1|]. split; [exact H2|]. split; [exact H4|].
  assert (Hexec : ∃ m,
    nsteps irq_step 10
      (Build_uni (irq_op_prog bound_timer (OcIrqEnable 1))
         (Pending (irq_op_prog bound_timer (IcIrqEnable 1)))
         (regs_state 0x549 0)) m).
  { eexists.
    eapply nsteps_l; [apply irq_step_entry; exact H4|].
    do 4 (eapply nsteps_l; [apply irq_step_handler; reflexivity|]).
    eapply nsteps_l; [apply irq_step_exit|].
    do 4 (eapply nsteps_l; [apply irq_step_task; reflexivity|]).
    apply nsteps_O. }
  destruct Hexec as (m & Hn).
  exists m. split; [exact Hn|].
  destruct (uni_irq_ops_terminate bound_timer (OcIrqEnable 1) (IcIrqEnable 1)
              (regs_state 0x549 0) 10 m H1 H2 eq_refl H4 Hn) as (_ & Hd & _).
  by apply Hd.
Defined.

(** * The HX8399C panel driver *)

Section panel_driver.
Import Panel.

Lemma exec_bind {A B} (m : M A) (f : A → M B) w :
  exec (m ≫= f) w =
  match exec m w with
  | Some (a, w') => exec (f a) w'
  | None => None
  end.
Proof. reflexivity. Qed.

Lemma exec_to_himax_panel w c :
  ctx w = Some c → exec to_himax_panel w = Some (c, w).
Proof. intros H. unfold to_himax_panel. simpl. by rewrite H. Qed.

Lemma exec_store f w c :
  ctx w = Some c → exec (store f) w = Some (tt, upd_ctx (Some (f c)) w).
Proof. intros H. unfold store. simpl. by rewrite H. Qed.

(** Evaluation of a driver function on a state whose panel object is
    known. *)
Ltac panel_run H := repeat progress (simpl; rewrite ?H).

(** ** Power sequencing *)

Lemma exec_himax_panel_prepare w c :
  ctx w = Some c →
  exec himax_panel_prepare w =
  Some (0,
        if prepared c then w
        else upd_ctx (Some (set_prepared true c))
               (upd_trace
                  (trace w ++
                   Usleep 1010 2010 ::
                   match reset c with
                   | NullPtr => []
                   | ValidPtr a _ => [GpioSet a 0; Msleep 50]
                   | ErrPtr _ => [Msleep 50]
                   end) (dsi_replies w) w)).
Proof.
  intros Hc. unfold himax_panel_prepare.
  destruct c as [rs bl pd [] en]; [by panel_run Hc|].
  destruct rs as [|a g|e]; panel_run Hc; rewrite <- ?app_assoc; reflexivity.
Qed.

Lemma exec_himax_panel_unprepare w c :
  ctx w = Some c →
  exec himax_panel_unprepare w =
  Some (0,
        upd_ctx (Some (set_prepared false c))
          (if prepared c then w
           else upd_trace
                  (trace w ++
                   match reset c with
                   | ValidPtr a _ =>
                       [GpioSet a 1; Usleep 15000 17000; GpioSet a 0]
                   | _ => [Usleep 15000 17000]
                   end) (dsi_replies w) w)).
Proof.
  intros Hc. unfold himax_panel_unprepare.
  destruct c as [rs bl pd [] en]; [by panel_run Hc|].
  destruct rs as [|a g|e]; panel_run Hc; rewrite <- ?app_assoc; reflexivity.
Qed.

(** X21.  [himax_panel_prepare] returns 0 with the panel prepared, and is
    idempotent: called again it does nothing.  On a panel that was not
    prepared it waits, releases the reset line when there is one and waits
    the 50 ms of the reset time. *)
Theorem himax_panel_prepare_idempotent w c :
  ctx w = Some c →
  ∃ w1,
    exec himax_panel_prepare w = Some (0, w1) ∧
    exec (himax_panel_prepare;; himax_panel_prepare) w = Some (0, w1) ∧
    (∃ c1, ctx w1 = Some c1 ∧ prepared c1 = true ∧ enabled c1 = enabled c) ∧
    (prepared c = true → w1 = w) ∧
    (prepared c = false →
     (∀ a g, reset c = ValidPtr a g →
             trace w1 = trace w ++ [Usleep 1010 2010; GpioSet a 0; Msleep 50]) ∧
     (reset c = NullPtr → trace w1 = trace w ++ [Usleep 1010 2010])).
Proof.
  intros Hc. eexists. split; [by apply exec_himax_panel_prepare|].
  destruct (prepared c) eqn:Hp.
  - split; [|split; [|split; [done | discriminate]]].
    + rewrite exec_bind, (exec_himax_panel_prepare _ _ Hc), Hp.
      rewrite (exec_himax_panel_prepare _ _ Hc), Hp. reflexivity.
    + exists c. by repeat split.
  - split; [|split; [|split; [discriminate|]]].
    + rewrite exec_bind, (exec_himax_panel_prepare _ _ Hc), Hp.
      by rewrite (exec_himax_panel_prepare _ (set_prepared true c)).
    + eexists. split; [reflexivity|]. by split.
    + intros _. split; [intros a g E | intros E]; simpl; by rewrite E.
Qed.

Lemma himax_panel_prepare_idempotent_witness :
  ∃ w1,
    exec himax_panel_prepare bound = Some (0, w1) ∧
    exec (himax_panel_prepare;; himax_panel_prepare) bound = Some (0, w1) ∧
    trace w1 = [Usleep 1010 2010; GpioSet 0x40 0; Msleep 50].
Proof.
  destruct (himax_panel_prepare_idempotent bound _ eq_refl)
    as (w1 & H1 & H2 & _ & _ & Htr).
  exists w1. split; [exact H1|]. split; [exact H2|].
  exact (proj1 (Htr eq_refl) _ _ eq_refl).
Defined.

(** X22.  [himax_panel_unprepare] returns 0 with the panel not prepared.
    Its test is [!ctx->prepared]: on a prepared panel it does not touch
    the reset line, and it pulses the line (1, 15 ms, 0) only on a panel
    that was not prepared. *)
Theorem himax_panel_unprepare_guard w c :
  ctx w = Some c →
  ∃ w',
    exec himax_panel_unprepare w = Some (0, w') ∧
    ctx w' = Some (set_prepared false c) ∧
    (prepared c = true → trace w' = trace w) ∧
    (prepared c = false →
     ∀ a g, reset c = ValidPtr a g →
            trace w' = trace w ++ [GpioSet a 1; Usleep 15000 17000; GpioSet a 0]).
Proof.
  intros Hc. eexists. split; [by apply exec_himax_panel_unprepare|].
  split; [reflexivity|].
  split; intros Hp; rewrite Hp; [reflexivity|].
  intros a g E. simpl. by rewrite E.
Qed.

(** A panel that was prepared: the reset line stays released. *)
Lemma himax_panel_unprepare_guard_witness :
  ∃ w1 w2,
    exec himax_panel_prepare bound = Some (0, w1) ∧
    exec himax_panel_unprepare w1 = Some (0, w2) ∧
    trace w2 = trace w1 ∧
    gpio_level 0x40 (trace w2) = Some 0.
Proof.
  assert (H1 : exec himax_panel_prepare bound
               = Some (0, upd_ctx
                            (Some {| reset := ValidPtr 0x40 GpioLine;
                                     backlight := NullPtr;
                                     pdata := Some himax_hx8399c;
                                     prepared := true; enabled := false |})
                            (upd_trace
                               [Usleep 1010 2010; GpioSet 0x40 0; Msleep 50]
                               [] bound))) by reflexivity.
  eexists. 
  destruct (himax_panel_unprepare_guard
              (upd_ctx
                 (Some {| reset := ValidPtr 0x40 GpioLine;
                          backlight := NullPtr;
                          pdata := Some himax_hx8399c;
                          prepared := true; enabled := false |})
                 (upd_trace [Usleep 1010 2010; GpioSet 0x40 0; Msleep 50]
                    [] bound)) _ eq_refl) as (w2 & H2 & _ & Hkeep & _).
  exists w2. split; [exact H1|]. split; [exact H2|].
  split; [exact (Hkeep eq_refl)|].
  rewrite (Hkeep eq_refl). reflexivity.
Defined.

(** ** Enabling the panel *)

Lemma s32_small x : - 2 ^ 31 ≤ x < 2 ^ 31 → s32 x = x.
Proof.
  intros H. unfold s32. rewrite Z.mod_small; [lia|].
  change (2 ^ 32) with (2 * 2 ^ 31). lia.
Qed.

Lemma exec_fail ret w c :
  ctx w = Some c →
  exec (fail ret) w
  = Some (ret, upd_trace (trace w ++ reset_high c) (dsi_replies w) w).
Proof.
  intros Hc. unfold fail, reset_high.
  destruct c as [[|a g|e] bl pd pr en]; panel_run Hc;
    rewrite ?app_nil_r; by destruct w.
Qed.

(** A checked transfer: it is recorded, it takes the next reply, and its
    result is negative exactly when that reply is. *)
Lemma exec_dcs_op op w :
  is_dcs_op op →
  ∃ a v,
    is_dsi_transfer a = true ∧
    exec op w
    = Some (v, upd_trace (trace w ++ [a]) (tail (dsi_replies w)) w) ∧
    match dsi_replies w with
    | [] => 0 ≤ v
    | r :: _ => (s32 r < 0 → v = s32 r) ∧ (0 ≤ s32 r → 0 ≤ v)
    end.
Proof.
  intros [d Hd| |].
  - exists (DcsWriteBuffer d). unfold dcs_write_seq, mipi_dsi_dcs_write_buffer.
    destruct (dsi_replies w) as [|r rest] eqn:E; simpl; rewrite E.
    + eexists. split; [done|]. split; [reflexivity|].
      rewrite s32_small by lia. lia.
    + eexists. split; [done|]. split; [reflexivity|]. by split.
  - exists DcsExitSleepMode. unfold mipi_dsi_dcs_exit_sleep_mode.
    destruct (dsi_replies w) as [|r rest] eqn:E; simpl; rewrite E.
    + eexists. split; [done|]. split; [reflexivity|]. done.
    + eexists. split; [done|]. split; [reflexivity|].
      unfold dcs_status. destruct (Z.ltb_spec (s32 r) 0); split; lia.
  - exists DcsSetDisplayOn. unfold mipi_dsi_dcs_set_display_on.
    destruct (dsi_replies w) as [|r rest] eqn:E; simpl; rewrite E.
    + eexists. split; [done|]. split; [reflexivity|]. done.
    + eexists. split; [done|]. split; [reflexivity|].
      unfold dcs_status. destruct (Z.ltb_spec (s32 r) 0); split; lia.
Qed.

(** What the rest of [hx8399c_enable] does from any of its points. *)
Lemma enable_rest_spec n k :
  enable_rest n k →
  ∀ w c, ctx w = Some c →
  ∃ ret w' added,
    exec k w = Some (ret, w') ∧
    trace w' = trace w ++ added ∧
    mode_flags w' = mode_flags w ∧
    ((ret = 0 ∧ ctx w' = Some (set_enabled true c) ∧
      dsi_replies w' = drop n (dsi_replies w) ∧
      length (dsi_transfers added) = n ∧
      Forall (λ r, 0 ≤ s32 r) (take n (dsi_replies w)) ∧
      gpio_actions added = [])
     ∨
     (ret < 0 ∧ ctx w' = Some c ∧
      ∃ i r pre msg,
        (i < n)%nat ∧ dsi_replies w !! i = Some r ∧ ret = s32 r ∧
        Forall (λ r, 0 ≤ s32 r) (take i (dsi_replies w)) ∧
        dsi_replies w' = drop (S i) (dsi_replies w) ∧
        added = pre ++ DevErr msg [ret] :: reset_high c ∧
        length (dsi_transfers pre) = S i ∧
        gpio_actions pre = [])).
Proof.
  induction 1 as [|n min max k Hk IH|n op msg k Hop Hk IH]; intros w c Hc.
  - exists 0, (upd_ctx (Some (set_enabled true c)) w), [].
    split; [by rewrite exec_bind, (exec_store _ _ _ Hc)|].
    split; [by rewrite app_nil_r|]. split; [done|].
    left. by repeat split.
  - destruct (IH (upd_trace (trace w ++ [Usleep min max]) (dsi_replies w) w)
                c Hc) as (ret & w' & added & He & Ht & Hm & Hcase).
    exists ret, w', (Usleep min max :: added).
    split; [exact He|]. split; [by rewrite Ht; simpl; rewrite <- app_assoc|].
    split; [exact Hm|].
    destruct Hcase as [(-> & Hc' & Hr & Hl & Hf & Hg)
                      |(Hlt & Hc' & i & r & pre & m & Hi & Hlk & -> & Hf & Hr
                        & -> & Hl & Hg)].
    + left. by repeat split.
    + right. split; [done|]. split; [done|].
      exists i, r, (Usleep min max :: pre), m. by repeat split.
  - destruct (exec_dcs_op op w Hop) as (a & v & Ha & He & Hv).
    set (w1 := upd_trace (trace w ++ [a]) (tail (dsi_replies w)) w) in *.
    assert (Hstep : exec (checked op msg k) w
                    = if v <? 0 then exec (dev_err msg [v];; fail v) w1
                      else exec k w1).
    { unfold checked. rewrite exec_bind, He. by destruct (v <? 0). }
    assert (Hda : dsi_transfers [a] = [a]).
    { unfold dsi_transfers. by rewrite filter_cons_True. }
    assert (Hga : gpio_actions [a] = []).
    { unfold gpio_actions. rewrite filter_cons_False; [done|].
      destruct a; simpl; try discriminate Ha; by intros. }
    destruct (v <? 0) eqn:Hsign;
      [apply Z.ltb_lt in Hsign as Hneg | apply Z.ltb_ge in Hsign as Hpos].
    + destruct (dsi_replies w) as [|r rest] eqn:Er; [lia|].
      destruct Hv as [Hv1 Hv2].
      assert (Hr : s32 r < 0) by (destruct (Z.lt_ge_cases (s32 r) 0); [done|lia]).
      specialize (Hv1 Hr). subst v.
      eexists (s32 r), _, ([a] ++ DevErr msg [s32 r] :: reset_high c).
      split.
      { rewrite Hstep.
        change (exec (dev_err msg [s32 r];; fail (s32 r)) w1)
          with (exec (fail (s32 r))
                  (upd_trace (trace w1 ++ [DevErr msg [s32 r]])
                     (dsi_replies w1) w1)).
        by rewrite (exec_fail (s32 r)
                      (upd_trace (trace w1 ++ [DevErr msg [s32 r]])
                         (dsi_replies w1) w1) c Hc). }
      split; [simpl; by rewrite <- !app_assoc|]. split; [done|].
      right. split; [done|]. split; [done|].
      exists 0%nat, r, [a], msg. simpl. rewrite Hda.
      repeat split; try done; lia.
    + destruct (IH w1 c Hc) as (ret & w' & added & He' & Ht & Hm & Hcase).
      exists ret, w', (a :: added).
      split; [by rewrite Hstep|].
      split; [rewrite Ht; simpl; by rewrite <- app_assoc|]. split; [done|].
      assert (Hd : ∀ l, dsi_transfers (a :: l) = a :: dsi_transfers l).
      { intros l. unfold dsi_transfers. by rewrite filter_cons_True. }
      assert (Hg' : ∀ l, gpio_actions (a :: l) = gpio_actions l).
      { intros l. unfold gpio_actions. rewrite filter_cons_False; [done|].
        destruct a; simpl; try discriminate Ha; by intros. }
      destruct Hcase as [(-> & Hc' & Hr & Hl & Hf & Hg)
                        |(Hlt & Hc' & i & r & pre & m & Hi & Hlk & -> & Hf & Hr
                          & -> & Hl & Hg)].
      * left. split; [done|]. split; [done|].
        simpl in Hr, Hf. rewrite Hd, Hg'. simpl.
        destruct (dsi_replies w) as [|r rest] eqn:Er; simpl in *.
        -- rewrite drop_nil in Hr. by rewrite Hl.
        -- rewrite Hl. repeat split; try done.
           constructor; [|done]. destruct Hv as [Hv1 _].
           destruct (Z.lt_ge_cases (s32 r) 0) as [Hn|Hn]; [|done].
           specialize (Hv1 Hn). lia.
      * right. split; [done|]. split; [done|].
        simpl in Hlk, Hf, Hr.
        destruct (dsi_replies w) as [|r0 rest] eqn:Er; simpl in *;
          [by rewrite lookup_nil in Hlk|].
        exists (S i), r, (a :: pre), m. rewrite Hd, Hg'. simpl.
        rewrite Hl. repeat split; try done; try lia.
        constructor; [|done].
        destruct (Z.lt_ge_cases (s32 r0) 0) as [Hn|Hn]; [|done].
        destruct Hv as [Hv1 _]. specialize (Hv1 Hn). lia.
Qed.

Lemma hx8399c_enable_rest :
  ∃ k, enable_rest 19 k ∧
       hx8399c_enable
       = (ctx ← to_himax_panel; if enabled ctx then mret 0 else k).
Proof.
  eexists. split; [|reflexivity].
  repeat first
    [ apply rest_done
    | apply rest_checked; [constructor; try reflexivity|]
    | apply rest_sleep ].
Qed.

Lemma exec_himax_panel_enable w c :
  ctx w = Some c → pdata c = Some himax_hx8399c →
  exec himax_panel_enable w = exec hx8399c_enable w.
Proof.
  intros Hc Hp. unfold himax_panel_enable.
  by rewrite exec_bind, (exec_to_himax_panel _ _ Hc), Hp.
Qed.

(** X23.  When none of the first 19 DSI transfers fails,
    [himax_panel_enable] returns 0 with the panel enabled after exactly 19
    transfers, each taking one reply of the host, and without touching a
    GPIO line; called again it does nothing. *)
Theorem himax_panel_enable_success w c :
  ctx w = Some c →
  pdata c = Some himax_hx8399c →
  enabled c = false →
  Forall (λ r, 0 ≤ s32 r) (take 19 (dsi_replies w)) →
  ∃ w' added,
    exec himax_panel_enable w = Some (0, w') ∧
    exec (himax_panel_enable;; himax_panel_enable) w = Some (0, w') ∧
    ctx w' = Some (set_enabled true c) ∧
    trace w' = trace w ++ added ∧
    length (dsi_transfers added) = 19%nat ∧
    gpio_actions added = [] ∧
    dsi_replies w' = drop 19 (dsi_replies w) ∧
    mode_flags w' = mode_flags w.
Proof.
  intros Hc Hp He Hok.
  destruct hx8399c_enable_rest as (k & Hk & Hdef).
  assert (Hrun : ∀ v d, ctx v = Some d → pdata d = Some himax_hx8399c →
                        exec himax_panel_enable v
                        = if enabled d then Some (0, v) else exec k v).
  { intros v d Hv Hd. rewrite (exec_himax_panel_enable _ _ Hv Hd), Hdef.
    rewrite exec_bind, (exec_to_himax_panel _ _ Hv). by destruct (enabled d). }
  destruct (enable_rest_spec _ _ Hk w c Hc)
    as (ret & w' & added & Hex & Ht & Hm & Hcase).
  destruct Hcase as [(-> & Hc' & Hr & Hl & _ & Hg)
                    |(Hlt & _ & i & r & _ & _ & Hi & Hlk & -> & _)].
  - exists w', added.
    assert (H1 : exec himax_panel_enable w = Some (0, w'))
      by (by rewrite (Hrun _ _ Hc Hp), He).
    split; [exact H1|]. split; [|by repeat split].
    rewrite exec_bind, H1. by rewrite (Hrun _ _ Hc').
  - exfalso. rewrite Forall_lookup in Hok.
    assert (0 ≤ s32 r); [|lia].
    apply (Hok i). rewrite lookup_take_lt by done. exact Hlk.
Qed.

(** The host answers every transfer with success. *)
Lemma himax_panel_enable_success_witness :
  ∃ w' added,
    exec himax_panel_enable bound = Some (0, w') ∧
    (∃ c', ctx w' = Some c' ∧ enabled c' = true) ∧
    trace w' = added ∧
    length (dsi_transfers added) = 19%nat.
Proof.
  destruct (himax_panel_enable_success bound _ eq_refl eq_refl eq_refl
              (Forall_nil_2 _))
    as (w' & added & H1 & _ & Hc' & Ht & Hl & _).
  exists w', added. split; [exact H1|].
  split; [eexists; split; [exact Hc' | reflexivity]|].
  split; [exact Ht | exact Hl].
Defined.

(** X24.  When transfer number [i] (from 0) is the first that fails,
    [himax_panel_enable] returns the error of that transfer, after
    [i + 1] transfers and no more; the panel stays not enabled, the error
    is logged and the last thing done is to drive the reset line high. *)
Theorem himax_panel_enable_failure w c i r :
  ctx w = Some c →
  pdata c = Some himax_hx8399c →
  enabled c = false →
  (i < 19)%nat →
  dsi_replies w !! i = Some r →
  s32 r < 0 →
  Forall (λ r, 0 ≤ s32 r) (take i (dsi_replies w)) →
  ∃ w' pre msg,
    exec himax_panel_enable w = Some (s32 r, w') ∧
    ctx w' = Some c ∧
    trace w' = trace w ++ pre ++ DevErr msg [s32 r] :: reset_high c ∧
    length (dsi_transfers pre) = S i ∧
    gpio_actions pre = [] ∧
    dsi_replies w' = drop (S i) (dsi_replies w).
Proof.
  intros Hc Hp He Hi Hlk Hneg Hok.
  destruct hx8399c_enable_rest as (k & Hk & Hdef).
  assert (Hrun : exec himax_panel_enable w = exec k w).
  { rewrite (exec_himax_panel_enable _ _ Hc Hp), Hdef.
    by rewrite exec_bind, (exec_to_himax_panel _ _ Hc), He. }
  destruct (enable_rest_spec _ _ Hk w c Hc)
    as (ret & w' & added & Hex & Ht & Hm & Hcase).
  destruct Hcase as [(-> & _ & _ & _ & Hall & _)
                    |(Hlt & Hc' & j & r' & pre & msg & Hj & Hlk' & -> & Hok'
                      & Hr & -> & Hl & Hg)].
  - exfalso. rewrite Forall_lookup in Hall.
    assert (0 ≤ s32 r); [|lia].
    apply (Hall i). rewrite lookup_take_lt by done. exact Hlk.
  - assert (j = i) as ->.
    { destruct (Nat.lt_trichotomy j i) as [Hlt'|[E|Hgt]]; [|exact E|].
      - exfalso. rewrite Forall_lookup in Hok.
        assert (0 ≤ s32 r'); [|lia].
        apply (Hok j). rewrite lookup_take_lt by done. exact Hlk'.
      - exfalso. rewrite Forall_lookup in Hok'.
        assert (0 ≤ s32 r); [|lia].
        apply (Hok' i). rewrite lookup_take_lt by done. exact Hlk. }
    rewrite Hlk in Hlk'. injection Hlk' as <-.
    exists w', pre, msg. rewrite Hrun. by repeat split.
Qed.

(** The host fails the third transfer with -5: three transfers, then the
    reset line goes high. *)
Lemma himax_panel_enable_failure_witness :
  ∃ w' pre msg,
    exec himax_panel_enable (with_replies [4; 2; -5; 16] bound)
    = Some (-5, w') ∧
    (∃ c', ctx w' = Some c' ∧ enabled c' = false) ∧
    trace w' = pre ++ [DevErr msg [-5]; GpioSet 0x40 1] ∧
    length (dsi_transfers pre) = 3%nat ∧
    dsi_replies w' = [16].
Proof.
  assert (H1 : (2 < 19)%nat) by (repeat constructor).
  assert (H2 : s32 (-5) < 0) by reflexivity.
  assert (H3 : Forall (λ r, 0 ≤ s32 r) [4; 2])
    by (repeat constructor; discriminate).
  destruct (himax_panel_enable_failure (with_replies [4; 2; -5; 16] bound)
              _ 2 (-5) eq_refl eq_refl eq_refl H1 eq_refl H2 H3)
    as (w' & pre & msg & Hex & Hc' & Ht & Hl & _ & Hr).
  exists w', pre, msg. split; [exact Hex|].
  split; [eexists; split; [exact Hc' | reflexivity]|].
  split; [exact Ht|]. split; [exact Hl | exact Hr].
Defined.

(** ** Disabling and shutting down *)

Lemma exec_himax_panel_disable w c :
  ctx w = Some c →
  exec himax_panel_disable w =
  if enabled c then
    let w1 := upd_dsi (format w)
                (list_union (mode_flags w) [MIPI_DSI_MODE_LPM]) (lanes w) w in
    match dsi_replies w with
    | r0 :: rs =>
        if s32 r0 <? 0 then
          Some (s32 r0,
                upd_trace (trace w ++
                           [DcsSetDisplayOff;
                            DevErr "Failed to set display OFF (%d)\n" [s32 r0]])
                  rs w1)
        else
          match rs with
          | r1 :: rs' =>
              if s32 r1 <? 0 then
                Some (s32 r1,
                      upd_trace (trace w ++
                                 [DcsSetDisplayOff; DcsEnterSleepMode;
                                  DevErr "Failed to enter sleep mode (%d)\n"
                                    [s32 r1]])
                        rs' w1)
              else
                Some (0, upd_ctx (Some (set_enabled false c))
                           (upd_trace (trace w ++
                                       [DcsSetDisplayOff; DcsEnterSleepMode])
                              rs' w1))
          | [] =>
              Some (0, upd_ctx (Some (set_enabled false c))
                         (upd_trace (trace w ++
                                     [DcsSetDisplayOff; DcsEnterSleepMode])
                            [] w1))
          end
    | [] =>
        Some (0, upd_ctx (Some (set_enabled false c))
                   (upd_trace (trace w ++ [DcsSetDisplayOff; DcsEnterSleepMode])
                      [] w1))
    end
  else Some (0, w).
Proof.
  intros Hc. unfold himax_panel_disable, mipi_dsi_dcs_set_display_off,
    mipi_dsi_dcs_enter_sleep_mode, dcs_status.
  destruct c as [rs bl pd pr []]; [|by panel_run Hc].
  rewrite exec_bind, (exec_to_himax_panel _ _ Hc).
  destruct (dsi_replies w) as [|r0 [|r1 rest]] eqn:Er; simpl; rewrite Er, ?Hc;
    simpl.
  - rewrite Hc. simpl. by rewrite <- !app_assoc.
  - destruct (s32 r0 <? 0) eqn:E0; simpl; rewrite ?E0; simpl.
    + by rewrite <- !app_assoc.
    + rewrite Hc. simpl. by rewrite <- !app_assoc.
  - destruct (s32 r0 <? 0) eqn:E0; simpl; rewrite ?E0; simpl.
    + by rewrite <- !app_assoc.
    + destruct (s32 r1 <? 0) eqn:E1; simpl; rewrite ?E1; simpl.
      * by rewrite <- !app_assoc.
      * rewrite Hc. simpl. by rewrite <- !app_assoc.
Qed.



(** X26.  [himax_panel_shutdown] disables and then unprepares, ignoring
    the result of the disable: it always leaves the panel not prepared,
    and leaves it enabled when a transfer of the disable failed.  On a
    prepared panel it does not touch the reset line. *)
Theorem himax_panel_shutdown_spec w c :
  ctx w = Some c →
  ∃ w' c' added,
    exec himax_panel_shutdown w = Some (tt, w') ∧
    ctx w' = Some c' ∧
    trace w' = trace w ++ added ∧
    prepared c' = false ∧
    (enabled c = false → enabled c' = false) ∧
    (enabled c = true →
     (enabled c' = false ↔
      Forall (λ r, 0 ≤ s32 r) (take 2 (dsi_replies w)))) ∧
    (prepared c = true → gpio_actions added = []).
Proof.
  intros Hc. unfold himax_panel_shutdown.
  rewrite exec_bind, (exec_himax_panel_disable _ _ Hc).
  destruct c as [rs bl pd pr en].
  assert (Hun : ∀ v d, ctx v = Some d →
            exec (himax_panel_unprepare;; mret tt) v
            = Some (tt,
                upd_ctx (Some (set_prepared false d))
                  (if prepared d then v
                   else upd_trace
                          (trace v ++
                           match reset d with
                           | ValidPtr a _ =>
                               [GpioSet a 1; Usleep 15000 17000; GpioSet a 0]
                           | _ => [Usleep 15000 17000]
                           end) (dsi_replies v) v))).
  { intros v d Hv. by rewrite exec_bind, (exec_himax_panel_unprepare _ _ Hv). }
  destruct en; cbn [enabled].
  2: { rewrite (Hun _ _ Hc). cbn [prepared reset].
       destruct pr.
       - eexists _, _, []. split; [reflexivity|]. split; [reflexivity|].
         split; [by rewrite app_nil_r|]. by repeat split.
       - eexists _, _, _. split; [reflexivity|]. split; [reflexivity|].
         split; [reflexivity|]. by repeat split. }
  destruct (dsi_replies w) as [|r0 [|r1 rest]] eqn:Er; cbv zeta;
    try (destruct (Z.ltb_spec (s32 r0) 0) as [H0|H0]);
    try (destruct (Z.ltb_spec (s32 r1) 0) as [H1|H1]);
    (erewrite Hun by (exact Hc || reflexivity)); cbn [prepared reset set_enabled];
    destruct pr;
    (eexists _, _, _; split; [reflexivity|]; split; [reflexivity|];
     split; [simpl; rewrite <- ?app_assoc; reflexivity|];
     split; [reflexivity|]; split; [discriminate|];
     split; [|try discriminate; intros _; reflexivity]; intros _; simpl).
  all: try (split; [intros _; by repeat constructor | done]).
  all: split; [discriminate|]; intros Hf.
  all: try (apply Forall_cons_1 in Hf as [Hf _]; lia).
  all: apply Forall_cons_1 in Hf as [_ Hf];
    apply Forall_cons_1 in Hf as [Hf _]; lia.
Qed.

(** A prepared and enabled panel whose host fails display-off: still
    enabled, not prepared, the reset line untouched. *)
Lemma himax_panel_shutdown_spec_witness :
  ∃ w' c',
    exec himax_panel_shutdown
      (upd_ctx (Some {| reset := ValidPtr 0x40 GpioLine; backlight := NullPtr;
                        pdata := Some himax_hx8399c;
                        prepared := true; enabled := true |})
         (with_replies [-5] bound))
    = Some (tt, w') ∧
    ctx w' = Some c' ∧ prepared c' = false ∧ enabled c' = true ∧
    gpio_actions (trace w') = [].
Proof.
  destruct (himax_panel_shutdown_spec
              (upd_ctx (Some {| reset := ValidPtr 0x40 GpioLine;
                                backlight := NullPtr;
                                pdata := Some himax_hx8399c;
                                prepared := true; enabled := true |})
                 (with_replies [-5] bound)) _ eq_refl)
    as (w' & c' & added & Hex & Hc' & Ht & Hp & _ & Hen & Hg).
  exists w', c'. split; [exact Hex|]. split; [exact Hc'|]. split; [exact Hp|].
  split.
  - pose proof (Hen eq_refl) as Hiff.
    destruct (enabled c'); [reflexivity|].
    destruct Hiff as [Hiff _]. specialize (Hiff eq_refl).
    apply Forall_cons_1 in Hiff as [Hiff _]. exfalso. by apply Hiff.
  - rewrite Ht. exact (Hg eq_refl).
Defined.

(** ** Binding and unbinding *)

Lemma gpio_level_app a t l v :
  gpio_level a l = Some v → gpio_level a (t ++ l) = Some v.
Proof.
  unfold gpio_level. intros H. by rewrite omap_app, last_app, H.
Qed.

Lemma of_match_device_compatible np :
  compatible np = "himax,hx8399c"%string →
  of_match_device himax_of_match np
  = Some ("himax,hx8399c"%string, Some himax_hx8399c).
Proof.
  intros H. unfold of_match_device. simpl. rewrite H.
  by destruct (decide _).
Qed.

Lemma of_match_device_other np :
  compatible np ≠ "himax,hx8399c"%string →
  of_match_device himax_of_match np = None.
Proof.
  intros H. unfold of_match_device. simpl.
  destruct (decide _) as [E|E]; [|reflexivity].
  exfalso. by apply H.
Qed.

#[local] Arguments u32 : simpl never.
#[local] Arguments s32 : simpl never.

(** X27.  On a compatible node with a "dsi-lanes" property and usable GPIO
    lines, [himax_panel_probe] returns 0 whatever [mipi_dsi_attach]
    returns: when the attach fails the panel is taken out of the panel
    list again and the probe still reports success.  It leaves a panel
    object that is neither prepared nor enabled, the pixel format and the
    lane count set, and the reset line, when there is one, driven
    high. *)
Theorem himax_panel_probe_bound np w l :
  compatible np = "himax,hx8399c"%string →
  kzalloc_fails w = false →
  dsi_lanes np = Some l →
  IS_ERR (reset_gpios np) = false →
  IS_ERR (backlight_gpios np) = false →
  ∃ w',
    exec (himax_panel_probe np) w = Some (0, w') ∧
    ctx w' = Some {| reset := reset_gpios np; backlight := backlight_gpios np;
                     pdata := Some himax_hx8399c;
                     prepared := false; enabled := false |} ∧
    format w' = Some MIPI_DSI_FMT_RGB888 ∧
    lanes w' = u32 l ∧
    registered w' = (attach_result w =? 0) ∧
    attached w' = (attach_result w =? 0) || attached w ∧
    (∀ a g, reset_gpios np = ValidPtr a g →
            gpio_level a (trace w') = Some 1).
Proof.
  intros Hcomp Hk Hl Hr Hb.
  unfold himax_panel_probe. rewrite (of_match_device_compatible _ Hcomp).
  destruct np as [comp vm dl rg bg]. simpl in Hl, Hr, Hb. subst dl.
  destruct rg as [|ar gr|er]; try discriminate Hr;
    destruct bg as [|ab gb|eb]; try discriminate Hb;
    destruct vm as [v|]; simpl; rewrite Hk; simpl;
    try (destruct (u32 v =? 0); [|destruct (u32 v =? 1);
           [|destruct (u32 v =? 2); [|destruct (u32 v =? 3)]]]);
    simpl;
    destruct (attach_result w =? 0) eqn:Ea;
    repeat progress (simpl; rewrite ?Ea);
    (eexists; split; [reflexivity|]; split; [reflexivity|];
     split; [reflexivity|]; split; [reflexivity|]; split; [reflexivity|];
     split; [reflexivity|]; intros a g E; try discriminate E;
     injection E as <- <-; simpl; rewrite <- ?app_assoc; simpl "++").
  all: apply gpio_level_app; unfold gpio_level; simpl; rewrite !Z.eqb_refl;
    try match goal with
        | |- context [if ?x =? ?y then _ else _] => destruct (x =? y)
        end; reflexivity.
Qed.

(** The attach fails with -517: the probe returns 0 and the panel is in
    no list. *)
Lemma himax_panel_probe_bound_witness :
  ∃ w',
    exec (himax_panel_probe hx8399c_node)
      {| ctx := None; format := None; mode_flags := []; lanes := 0;
         registered := false; attached := false; trace := [];
         dsi_replies := []; kzalloc_fails := false;
         attach_result := -517; detach_result := 0 |}
    = Some (0, w') ∧
    registered w' = false ∧ attached w' = false ∧
    gpio_level 0x40 (trace w') = Some 1.
Proof.
  destruct (himax_panel_probe_bound hx8399c_node
              {| ctx := None; format := None; mode_flags := []; lanes := 0;
                 registered := false; attached := false; trace := [];
                 dsi_replies := []; kzalloc_fails := false;
                 attach_result := -517; detach_result := 0 |}
              4 eq_refl eq_refl eq_refl eq_refl eq_refl)
    as (w' & Hex & _ & _ & _ & Hreg & Hatt & Hlvl).
  exists w'. split; [exact Hex|]. split; [exact Hreg|]. split; [exact Hatt|].
  exact (Hlvl _ _ eq_refl).
Defined.

(** X28.  The error exits of [himax_panel_probe]: -ENODEV for a node the
    match table does not list, -ENOMEM when there is no memory, -EINVAL
    when the node has no "dsi-lanes" property, and the error of the GPIO
    lookup when the reset or the backlight line cannot be had.  On every
    one of them the panel is in no list and the device is not attached to
    its host; a missing "dsi-lanes" is found before any GPIO line is
    requested. *)
Theorem himax_panel_probe_error_exits np w :
  (compatible np ≠ "himax,hx8399c"%string →
   exec (himax_panel_probe np) w
   = Some (- ENODEV, upd_trace (trace w ++ [Printk "Mackie"]) (dsi_replies w) w)) ∧
  (compatible np = "himax,hx8399c"%string →
   kzalloc_fails w = true →
   exec (himax_panel_probe np) w
   = Some (- ENOMEM, upd_trace (trace w ++ [Printk "Mackie"]) (dsi_replies w) w)) ∧
  (compatible np = "himax,hx8399c"%string →
   kzalloc_fails w = false →
   (dsi_lanes np = None →
    ∃ w' added,
      exec (himax_panel_probe np) w = Some (- EINVAL, w') ∧
      trace w' = trace w ++ added ∧ gpio_actions added = [] ∧
      registered w' = registered w ∧ attached w' = attached w) ∧
   (∀ l e, dsi_lanes np = Some l → reset_gpios np = ErrPtr e →
    ∃ w',
      exec (himax_panel_probe np) w = Some (s32 e, w') ∧
      registered w' = registered w ∧ attached w' = attached w) ∧
   (∀ l e, dsi_lanes np = Some l → IS_ERR (reset_gpios np) = false →
    backlight_gpios np = ErrPtr e →
    ∃ w',
      exec (himax_panel_probe np) w = Some (s32 e, w') ∧
      registered w' = registered w ∧ attached w' = attached w ∧
      ∀ a g, reset_gpios np = ValidPtr a g →
             gpio_level a (trace w') = Some 0)).
Proof.
  split; [|split].
  - intros Hc. unfold himax_panel_probe.
    by rewrite (of_match_device_other _ Hc).
  - intros Hc Hk. unfold himax_panel_probe.
    rewrite (of_match_device_compatible _ Hc). simpl. by rewrite Hk.
  - intros Hc Hk. unfold himax_panel_probe.
    rewrite (of_match_device_compatible _ Hc).
    destruct np as [comp vm dl rg bg]. simpl.
    split; [|split].
    + intros ->.
      destruct vm as [v|]; simpl; rewrite Hk; simpl;
        try (destruct (u32 v =? 0); [|destruct (u32 v =? 1);
               [|destruct (u32 v =? 2); [|destruct (u32 v =? 3)]]]);
        simpl;
        (eexists _, _; split; [reflexivity|];
         split; [simpl; rewrite <- ?app_assoc; reflexivity|];
         by repeat split).
    + intros l e -> ->.
      destruct vm as [v|]; simpl; rewrite Hk; simpl;
        try (destruct (u32 v =? 0); [|destruct (u32 v =? 1);
               [|destruct (u32 v =? 2); [|destruct (u32 v =? 3)]]]);
        simpl; (eexists; split; [reflexivity|]; by split).
    + intros l e -> Hr ->.
      destruct rg as [|ar gr|er]; try discriminate Hr;
        destruct vm as [v|]; simpl; rewrite Hk; simpl;
        try (destruct (u32 v =? 0); [|destruct (u32 v =? 1);
               [|destruct (u32 v =? 2); [|destruct (u32 v =? 3)]]]);
        simpl;
        (eexists; split; [reflexivity|]; split; [reflexivity|];
         split; [reflexivity|]; intros a g E; try discriminate E;
         injection E as <- <-; simpl; rewrite <- ?app_assoc; simpl "++";
         apply gpio_level_app; unfold gpio_level; simpl;
         rewrite !Z.eqb_refl; reflexivity).
Qed.

(** X29.  A "video-mode" property outside 0..3 is logged and is no error,
    and so is a missing one: the probe goes on and returns 0 with only the
    two flags it starts from in the mode flags, whatever the flags were
    before. *)
Theorem himax_panel_probe_video_mode np w l :
  compatible np = "himax,hx8399c"%string →
  kzalloc_fails w = false →
  dsi_lanes np = Some l →
  IS_ERR (reset_gpios np) = false →
  IS_ERR (backlight_gpios np) = false →
  match video_mode np with
  | Some v => 3 < u32 v
  | None => True
  end →
  ∃ w',
    exec (himax_panel_probe np) w = Some (0, w') ∧
    mode_flags w' = [MIPI_DSI_MODE_VIDEO_HSE; MIPI_DSI_MODE_NO_EOT_PACKET] ∧
    (∀ v, video_mode np = Some v →
          DevErr "invalid video mode %d\n" [u32 v] ∈ trace w').
Proof.
  intros Hc Hk Hl Hr Hb Hv.
  unfold himax_panel_probe. rewrite (of_match_device_compatible _ Hc).
  destruct np as [comp vm dl rg bg]. simpl in Hl, Hr, Hb, Hv. subst dl.
  assert (Hmode : ∀ v, vm = Some v →
            (u32 v =? 0) = false ∧ (u32 v =? 1) = false ∧
            (u32 v =? 2) = false ∧ (u32 v =? 3) = false).
  { intros v ->. repeat split; apply Z.eqb_neq; lia. }
  destruct rg as [|ar gr|er]; try discriminate Hr;
    destruct bg as [|ab gb|eb]; try discriminate Hb;
    destruct vm as [v|];
    try (destruct (Hmode v eq_refl) as (E0 & E1 & E2 & E3));
    simpl; rewrite Hk; simpl; rewrite ?E0, ?E1, ?E2, ?E3;
    destruct (attach_result w =? 0) eqn:Ea;
    repeat progress (simpl; rewrite ?Ea);
    (eexists; split; [reflexivity|]; split; [reflexivity|];
     intros v' E; try discriminate E; injection E as <-;
     simpl; rewrite <- ?app_assoc; simpl "++").
  all: apply elem_of_app; right; repeat constructor.
Qed.

(** A node asking for video mode 7. *)
Lemma himax_panel_probe_video_mode_witness :
  ∃ w',
    exec (himax_panel_probe
            {| compatible := "himax,hx8399c"; video_mode := Some 7;
               dsi_lanes := Some 4; reset_gpios := ValidPtr 0x40 GpioLine;
               backlight_gpios := NullPtr |})
      (upd_dsi None [MIPI_DSI_MODE_LPM] 0 unbound)
    = Some (0, w') ∧
    mode_flags w' = [MIPI_DSI_MODE_VIDEO_HSE; MIPI_DSI_MODE_NO_EOT_PACKET] ∧
    DevErr "invalid video mode %d\n" [7] ∈ trace w'.
Proof.
  assert (Hv : 3 < u32 7) by reflexivity.
  destruct (himax_panel_probe_video_mode
              {| compatible := "himax,hx8399c"; video_mode := Some 7;
                 dsi_lanes := Some 4; reset_gpios := ValidPtr 0x40 GpioLine;
                 backlight_gpios := NullPtr |}
              (upd_dsi None [MIPI_DSI_MODE_LPM] 0 unbound) 4
              eq_refl eq_refl eq_refl eq_refl eq_refl Hv)
    as (w' & Hex & Hm & Hlog).
  exists w'. split; [exact Hex|]. split; [exact Hm|].
  exact (Hlog 7 eq_refl).
Defined.

(** X30.  [himax_panel_remove] returns 0 with the panel out of the panel
    list, also when the detach from the host fails (the failure is only
    logged and the device stays attached); it leaves the panel object as
    it is, neither disabling nor unpreparing the panel. *)
Theorem himax_panel_remove_spec w c :
  ctx w = Some c →
  ∃ w',
    exec himax_panel_remove w = Some (0, w') ∧
    registered w' = false ∧
    attached w' = (if detach_result w =? 0 then false else attached w) ∧
    ctx w' = Some c ∧
    dsi_replies w' = dsi_replies w ∧
    trace w' = trace w ++
               (if detach_result w =? 0 then []
                else [DevErr "Failed to detach from host (%d)\n"
                        [detach_result w]]).
Proof.
  intros Hc. unfold himax_panel_remove, mipi_dsi_detach.
  destruct (detach_result w =? 0) eqn:Ed;
    repeat progress (simpl; rewrite ?Ed, ?Hc);
    (eexists; split; [reflexivity|]; split; [reflexivity|];
     split; [reflexivity|]; split; [assumption|]; split; [reflexivity|]);
    simpl; by rewrite ?app_nil_r.
Qed.

(** An enabled panel whose host refuses the detach. *)
Lemma himax_panel_remove_spec_witness :
  ∃ w' c',
    exec himax_panel_remove
      {| ctx := Some {| reset := ValidPtr 0x40 GpioLine; backlight := NullPtr;
                        pdata := Some himax_hx8399c;
                        prepared := true; enabled := true |};
         format := Some MIPI_DSI_FMT_RGB888; mode_flags := []; lanes := 4;
         registered := true; attached := true; trace := [];
         dsi_replies := []; kzalloc_fails := false; attach_result := 0;
         detach_result := -16 |}
    = Some (0, w') ∧
    registered w' = false ∧ attached w' = true ∧
    ctx w' = Some c' ∧ enabled c' = true ∧ prepared c' = true.
Proof.
  destruct (himax_panel_remove_spec
              {| ctx := Some {| reset := ValidPtr 0x40 GpioLine;
                                backlight := NullPtr;
                                pdata := Some himax_hx8399c;
                                prepared := true; enabled := true |};
                 format := Some MIPI_DSI_FMT_RGB888; mode_flags := [];
                 lanes := 4; registered := true; attached := true;
                 trace := []; dsi_replies := []; kzalloc_fails := false;
                 attach_result := 0; detach_result := -16 |} _ eq_refl)
    as (w' & Hex & Hreg & Hatt & Hc' & _).
  exists w'. eexists. split; [exact Hex|]. split; [exact Hreg|].
  split; [exact Hatt|]. split; [exact Hc'|]. split; reflexivity.
Defined.

End panel_driver.
